(** * Constituent variable dictionary of the CCPP framework

    A shallow embedding of [scripts/constituents.py]: the class
    [ConstituentVarDict], its variable resolution ([find_variable]) and the
    Fortran text it generates ([write_constituent_routines],
    [write_host_routines]), followed by the properties proved about them. *)

From Stdlib Require Import String Ascii List Bool Arith ZArith Lia.
From Stdlib Require Import Numbers.DecimalString.
Import ListNotations.
Local Open Scope string_scope.
Local Open Scope list_scope.

Set Warnings "-register-all".

(* ===================================================================== *)
(** * Python strings *)
(* ===================================================================== *)

Module PyStr.

(** [s.split(':')]: the pieces between the colons; an empty string gives one
    empty piece, so the result is never the empty list. *)
Fixpoint split_colon (s : string) : list string :=
  match s with
  | EmptyString => [EmptyString]
  | String c rest =>
      if Ascii.eqb c ":"%char then EmptyString :: split_colon rest
      else match split_colon rest with
           | tok :: toks => String c tok :: toks
           | [] => [String c EmptyString]
           end
  end.

(** [sep.join(items)]. *)
Fixpoint join (sep : string) (items : list string) : string :=
  match items with
  | [] => EmptyString
  | [x] => x
  | x :: rest => x ++ sep ++ join sep rest
  end.

(** ["{}".format(n)] for a non-negative integer [n]. *)
Definition of_nat (n : nat) : string := NilEmpty.string_of_uint (Nat.to_uint n).

(** [c * n] for a one-character string [c]. *)
Fixpoint repeat_char (c : ascii) (n : nat) : string :=
  match n with
  | O => EmptyString
  | S k => String c (repeat_char c k)
  end.

(** Truth value of a string: non-empty. *)
Definition truthy (s : string) : bool :=
  match s with EmptyString => false | String _ _ => true end.

(** [x in names] for a list of strings. *)
Definition mem (x : string) (names : list string) : bool :=
  existsb (String.eqb x) names.

(** [needle in hay] for two strings. *)
Fixpoint contains (needle hay : string) : bool :=
  String.prefix needle hay
  || match hay with
     | EmptyString => false
     | String _ rest => contains needle rest
     end.

(** The double-quote character, as a one-character string. *)
Definition dq : string := String "034"%char EmptyString.

(** A line feed, as a one-character string. *)
Definition nl : string := String "010"%char EmptyString.

End PyStr.

(* ===================================================================== *)
(** * Variables and dictionaries (metavar.py, consumed) *)
(* ===================================================================== *)

(** The properties of a [Var] that [constituents.py] reads. *)
Record Var : Type := mkVar {
  standard_name : string;
  local_name    : string;
  dimensions    : list string;   (* each "name" or "begin:end" *)
  intent        : option string;
  advected      : bool;
  constituent   : bool;           (* what is_constituent() answers *)
  source_type   : string
}.

Definition get_dimensions (v : Var) : list string := dimensions v.
Definition is_constituent (v : Var) : bool := constituent v.

(** Modelled from the spec: [Var.clone] lives in metavar.py, which is not
    among the sources.  "Clone the source descriptor with the rewritten
    dimensions, strip intent, set source_type": every other property is
    carried over. *)
Definition clone (v : Var) (new_dimensions : list string)
                 (remove_intent : bool) (new_source_type : string) : Var :=
  {| standard_name := standard_name v;
     local_name    := local_name v;
     dimensions    := new_dimensions;
     intent        := if remove_intent then None else intent v;
     advected      := advected v;
     constituent   := constituent v;
     source_type   := new_source_type |}.

(** Modelled from the spec: [Var.get_dim_stdnames] lives in metavar.py.  The
    "dimension names" of an entry are the names its dimension expressions
    are made of. *)
Definition get_dim_stdnames (v : Var) : list string :=
  flat_map PyStr.split_colon (dimensions v).

(** The two classes of dictionary that can sit in a parent chain. *)
Inductive DictClass : Type :=
| VarDictionary          (* the base class, metavar.py *)
| ConstituentVarDict.    (* the class of constituents.py *)

(** A dictionary: an ordered mapping from standard names to variables and a
    reference to its parent.  The parent chain is finite, as it is in a
    running generator; the chain a call works on is returned with the
    result, so that a change to an ancestor is visible to the caller. *)
Inductive Dict : Type :=
| mkDict (cls : DictClass) (dname : string)
         (entries : list (string * Var)) (parent : option Dict).

Definition dclass (d : Dict) : DictClass :=
  match d with mkDict c _ _ _ => c end.
Definition name (d : Dict) : string :=
  match d with mkDict _ n _ _ => n end.
Definition items (d : Dict) : list (string * Var) :=
  match d with mkDict _ _ e _ => e end.
Definition parent_dict (d : Dict) : option Dict :=
  match d with mkDict _ _ _ p => p end.

(** [key in self] and [self[key]] in one: the first entry under [key]. *)
Fixpoint dict_get (entries : list (string * Var)) (key : string) : option Var :=
  match entries with
  | [] => None
  | (k, v) :: rest => if String.eqb k key then Some v else dict_get rest key
  end.

(** [self[key] = v] on an ordered mapping: an existing key keeps its place,
    a new key goes to the end. *)
Fixpoint dict_set (entries : list (string * Var)) (key : string) (v : Var)
  : list (string * Var) :=
  match entries with
  | [] => [(key, v)]
  | (k, w) :: rest =>
      if String.eqb k key then (k, v) :: rest else (k, w) :: dict_set rest key v
  end.

(** Modelled from the spec: [VarDictionary.add_variable] lives in metavar.py.
    "insert into the local table": the variable is stored under its standard
    name. *)
Definition add_variable (entries : list (string * Var)) (newvar : Var)
  : list (string * Var) :=
  dict_set entries (standard_name newvar) newvar.

(** [len(self)] and the truth value of [self]. *)
Definition len (d : Dict) : nat := length (items d).
Definition nonempty (d : Dict) : bool :=
  match items d with [] => false | _ :: _ => true end.

Inductive Exn : Type :=
| ParseInternalError (msg : string)
| ValueError (msg : string).

(* ===================================================================== *)
(** * ConstituentVarDict.find_variable *)
(* ===================================================================== *)

Definition constituent_type : string := "suite".   (* __constituent_type *)

(** Lines 108-115: the substitution applied to one name of a dimension. *)
Definition new_dname (dstdname : string) : string :=
  if String.eqb dstdname "horizontal_loop_extent" then "horizontal_dimension"
  else if String.eqb dstdname "horizontal_loop_end" then "horizontal_dimension"
  else if String.eqb dstdname "horizontal_loop_begin" then "ccpp_constant_one"
  else dstdname.

(** Lines 102-119: the loop over [dims] that builds [newdims]. *)
Definition newdims (dims : list string) : list string :=
  map (fun dim => PyStr.join ":" (map new_dname (PyStr.split_colon dim))) dims.

(** Lines 71-84: the standard name the call is about, or the error. *)
Definition checked_name (standard_name_arg : option string)
                        (source_var : option Var) : Exn + string :=
  match standard_name_arg with
  | None =>
      match source_var with
      | None =>
          inl (ParseInternalError
                 "One of <standard_name> or <source_var> must be passed.")
      | Some sv => inr (standard_name sv)
      end
  | Some sn =>
      match source_var with
      | Some sv =>
          if negb (String.eqb (standard_name sv) sn)
          then inl (ParseInternalError
                      ("Only one of <standard_name> or <source_var> may " ++
                       "be passed."))
          else inr sn
      | None => inr sn
      end
  end.

(** [find_variable] on a chain of dictionaries.  The call on the parent is
    dispatched on the parent's class.

    For [ConstituentVarDict] the body is lines 71-123 of constituents.py.

    Modelled from the spec: for a parent of the base class [VarDictionary],
    whose [find_variable] is in metavar.py, the lookup is "local lookup
    first; if absent, searchAncestors is true, and a parent exists, delegate
    recursively to the parent with the same flag", with no other effect.

    The result is the exception raised, or the variable returned (None when
    there is none) with the chain as the call leaves it. *)
Fixpoint find_variable (self : Dict)
    (standard_name_arg : option string) (source_var : option Var)
    (any_scope : bool) (clone_arg : option Var)
    (search_call_list loop_subst : bool) {struct self}
  : Exn + (option Var * Dict) :=
  match self with
  | mkDict cls nm entries parent =>
      match checked_name standard_name_arg source_var with
      | inl e => inl e
      | inr sname =>
          (* lines 85-97 *)
          let found : Exn + (option Var * option Dict) :=
            match dict_get entries sname with
            | Some var => inr (Some var, parent)
            | None =>
                match any_scope, parent with
                | true, Some p =>
                    match find_variable p (Some sname) source_var any_scope
                                        None search_call_list loop_subst with
                    | inl e => inl e
                    | inr (var, p') => inr (var, Some p')
                    end
                | _, _ => inr (None, parent)
                end
            end in
          match found with
          | inl e => inl e
          | inr (var, parent') =>
              match cls with
              | VarDictionary => inr (var, mkDict cls nm entries parent')
              | ConstituentVarDict =>
                  (* lines 98-123 *)
                  match var, source_var with
                  | None, Some sv =>
                      if is_constituent sv then
                        let dims := get_dimensions sv in
                        let var' := clone sv (newdims dims) true constituent_type in
                        inr (Some var',
                             mkDict cls nm (add_variable entries var') parent')
                      else inr (None, mkDict cls nm entries parent')
                  | _, _ => inr (var, mkDict cls nm entries parent')
                  end
              end
          end
      end
  end.

(** Whether some dictionary of the chain, [d] included, holds [key]. *)
Fixpoint chain_mem (d : Dict) (key : string) : bool :=
  match d with
  | mkDict _ _ entries parent =>
      match dict_get entries key with
      | Some _ => true
      | None => match parent with
                | Some p => chain_mem p key
                | None => false
                end
      end
  end.

(** The entry a search from [d] upwards meets first. *)
Fixpoint chain_get (d : Dict) (key : string) : option Var :=
  match d with
  | mkDict _ _ entries parent =>
      match dict_get entries key with
      | Some v => Some v
      | None => match parent with
                | Some p => chain_get p key
                | None => None
                end
      end
  end.

(** Every dictionary of the chain, [d] included, is of the base class. *)
Fixpoint all_plain (d : Dict) : bool :=
  match d with
  | mkDict cls _ _ parent =>
      match cls with
      | VarDictionary =>
          match parent with Some p => all_plain p | None => true end
      | ConstituentVarDict => false
      end
  end.

(** No ancestor of [d] is a [ConstituentVarDict]: the parent chain is made
    of host-model dictionaries, as the constructor's docstring has it. *)
Definition plain_ancestors (d : Dict) : bool :=
  match parent_dict d with Some p => all_plain p | None => true end.

(* ===================================================================== *)
(** * The output file (fortran_tools.FortranWriter, consumed) *)
(* ===================================================================== *)

(** Modelled from the spec: the writer is "an abstract indenting sink
    write(line, indentLevel)".  What a run has written is the list of these
    calls, oldest first. *)
Definition Line : Type := (string * nat)%type.

(** The effect of a piece of generator code on the output file: the lines it
    wrote, and the exception that ended it, if one did.  Lines written before
    an exception stay written. *)
Definition Writes : Type := (list Line * option Exn)%type.

Definition written (w : Writes) : list Line := fst w.
Definition raised (w : Writes) : option Exn := snd w.

Definition skip : Writes := ([], None).
Definition write (statement : string) (indent : nat) : Writes :=
  ([(statement, indent)], None).
Definition raise (e : Exn) : Writes := ([], Some e).

(** [a] then [b]; [b] does not run when [a] raised. *)
Definition seq (a b : Writes) : Writes :=
  match raised a with
  | None => (written a ++ written b, raised b)
  | Some e => (written a, Some e)
  end.

Notation "a ;; b" := (seq a b) (at level 61, right associativity).

(** [for x in xs: body(x)]. *)
Fixpoint for_each {A : Type} (xs : list A) (body : A -> Writes) : Writes :=
  match xs with
  | [] => skip
  | x :: rest => body x ;; for_each rest body
  end.

(** [block] stands somewhere in [l], as consecutive lines. *)
Definition holds_block (block l : list Line) : Prop :=
  exists mid rest, l = mid ++ block ++ rest.

(** A suite, as write_host_routines reads it. *)
Record Suite : Type := mkSuite {
  suite_name : string;              (* suite.name *)
  module : string;                  (* suite.module *)
  constituent_dictionary : Dict     (* suite.constituent_dictionary() *)
}.

(* ===================================================================== *)
(** * The code generators of ConstituentVarDict *)
(* ===================================================================== *)

Definition CONST_DDT_MOD : string := "ccpp_constituent_prop_mod".
Definition CONST_PROP_TYPE : string := "ccpp_constituent_properties_t".

Definition constituent_prop_array_name : string := "ccpp_constituent_array".
Definition constituent_prop_init_name : string := "ccpp_constituents_initialized".
Definition constituent_prop_init_consts : string :=
  "ccpp_create_constituent_array".
Definition constituent_prop_type_name : string :=
  "ccpp_constituent_properties_t".

Definition num_consts_funcname (self : Dict) : string :=
  (name self ++ "_num_consts")%string.
Definition const_name_subname (self : Dict) : string :=
  (name self ++ "_const_name")%string.
Definition copy_const_subname (self : Dict) : string :=
  (name self ++ "_copy_const")%string.

Definition TF_string (tf_val : bool) : string :=
  if tf_val then ".true." else ".false.".

(** ["\n! {}\n".format("="*72)] *)
Definition rule : string :=
  (PyStr.nl ++ "! " ++ PyStr.repeat_char "="%char 72 ++ PyStr.nl)%string.

Section Generators.

(** [evar.write_def(outfile, indent, wdict, dummy=..., add_intent=...)] is
    defined in metavar.py, which is not among the sources: the lines it
    writes are a parameter of the development. *)
Variable write_def : Var -> nat -> Dict -> bool -> option string -> list Line.

Definition var_write_def (evar : Var) (indent : nat) (wdict : Dict)
    (dummy : bool) (add_intent : option string) : Writes :=
  (write_def evar indent wdict dummy add_intent, None).

(** Lines 153-175. *)
Definition _write_init_check (self : Dict) (indent : nat) (suite_name : string)
    (errvar_names : list string) (use_errflg : bool) : Writes :=
  write "" 0 ;;
  (if use_errflg then
     write "errflg = 0" (indent+1) ;;
     write "errmsg = ''" (indent+1)
   else
     raise (ParseInternalError "Alternative to errflg not implemented")) ;;
  write "! Make sure that our constituent array is initialized" (indent+1) ;;
  write ("if (.not. " ++ constituent_prop_init_name ++ ") then") (indent+1) ;;
  (if use_errflg then
     write "errflg = 1" (indent+2) ;;
     write ("errmsg = " ++ PyStr.dq ++ "constituent properties not " ++
            "initialized for suite, " ++ suite_name ++ PyStr.dq) (indent+2) ;;
     write "end if" (indent+1)
   else skip).

(** Lines 177-206. *)
Definition _write_index_check (self : Dict) (indent : nat) (suite_name : string)
    (errvar_names : list string) (use_errflg : bool) : Writes :=
  if use_errflg then
    if nonempty self then
      write "if (index < 1) then" (indent+1) ;;
      write "errflg = 1" (indent+2) ;;
      write ("write(errmsg, '(a,i0,a)') 'ERROR: index (',index,') " ++
             "too small, must be >= 1'") (indent+2) ;;
      write ("else if (index > SIZE(" ++ constituent_prop_array_name ++
             ")) then") (indent+1) ;;
      write "errflg = 1" (indent+2) ;;
      write ("write(errmsg, '(2(a,i0))') 'ERROR: index (',index,') " ++
             "too large, must be <= ', SIZE(" ++ constituent_prop_array_name ++
             ")") (indent+2) ;;
      write "end if" (indent+1)
    else
      write "errflg = 1" (indent+1) ;;
      write ("write(errmsg, '(a,i0,a)') 'ERROR: suite, {}, " ++
             "has no constituents'") (indent+1)
  else
    raise (ParseInternalError "Alternative to errflg not implemented").

(** Lines 241-248: the vertical dimension passed to the constructor. *)
Definition vertical_dim_of (var : Var) : string :=
  let dims := get_dim_stdnames var in
  if PyStr.mem "vertical_layer_dimension" dims then "vertical_layer_dimension"
  else if PyStr.mem "vertical_interface_dimension" dims
       then "vertical_interface_dimension"
       else "".

(** Lines 208-325. *)
Definition write_constituent_routines (self : Dict) (indent : nat)
    (suite_name : string) (err_vars : list Var) : Writes :=
  (* Format our error variables *)
  let errvar_names := map local_name err_vars in
  let use_errflg :=
    PyStr.mem "errflg" errvar_names && PyStr.mem "errmsg" errvar_names in
  let errvar_alist := PyStr.join ", " errvar_names in
  let errvar_alist2 :=
    (if PyStr.truthy errvar_alist then ", " ++ errvar_alist else "")%string in
  let errvar_call :=
    PyStr.join ", " (map (fun x => (x ++ "=" ++ x)%string) errvar_names) in
  let errvar_call2 :=
    (if PyStr.truthy errvar_call then ", " ++ errvar_call else "")%string in
  (* Allocate and define constituents *)
  write ("subroutine " ++ constituent_prop_init_consts ++ "(" ++
         errvar_alist ++ ")") indent ;;
  write "! Allocate and fill the constituent property array" (indent + 1) ;;
  write "!    for this suite" (indent+1) ;;
  write "! Dummy arguments" (indent+1) ;;
  for_each err_vars (fun evar =>
    var_write_def evar (indent+1) self true None) ;;
  (if nonempty self then
     write "! Local variables" (indent+1) ;;
     write "integer :: index" (indent+1) ;;
     write ("allocate(" ++ constituent_prop_array_name ++ "(" ++
            PyStr.of_nat (len self) ++ "))") (indent+1) ;;
     write "index = 0" (indent+1)
   else skip) ;;
  for_each (items self) (fun entry =>
    let std_name := fst entry in
    let var := snd entry in
    write "index = index + 1" (indent+1) ;;
    let vertical_dim := vertical_dim_of var in
    let advect_str := TF_string (advected var) in
    write ("call " ++ constituent_prop_array_name ++ "(index)%initialize(" ++
           PyStr.dq ++ std_name ++ PyStr.dq ++ ", " ++
           PyStr.dq ++ vertical_dim ++ PyStr.dq ++ ", " ++
           advect_str ++ errvar_call2 ++ ")") (indent+1)) ;;
  write (constituent_prop_init_name ++ " = .true.") (indent+1) ;;
  write ("end subroutine " ++ constituent_prop_init_consts) indent ;;
  write "" 0 ;;
  write rule 1 ;;
  (* Return number of constituents *)
  let fname := num_consts_funcname self in
  write ("integer function " ++ fname ++ "(" ++ errvar_alist ++ ")") indent ;;
  write "! Return the number of constituents for this suite" (indent+1) ;;
  write "! Dummy arguments" (indent+1) ;;
  for_each err_vars (fun evar =>
    var_write_def evar (indent+1) self true None) ;;
  write "! Make sure that our constituent array is initialized" (indent+1) ;;
  write ("if (.not. " ++ constituent_prop_init_name ++ ") then") (indent+1) ;;
  write ("call " ++ constituent_prop_init_consts ++ "(" ++ errvar_call ++ ")")
        (indent+2) ;;
  write "end if" (indent+1) ;;
  write (fname ++ " = " ++ PyStr.of_nat (len self)) (indent+1) ;;
  write ("end function " ++ fname) indent ;;
  write rule 1 ;;
  (* Return the name of a constituent given an index *)
  write ("subroutine " ++ const_name_subname self ++ "(index, name_out" ++
         errvar_alist2 ++ ")") indent ;;
  write "! Return the name of constituent, <index>" (indent+1) ;;
  write "! Dummy arguments" (indent+1) ;;
  write "integer,            intent(in)    :: index" (indent+1) ;;
  write "character(len=*),   intent(out)   :: name_out" (indent+1) ;;
  for_each err_vars (fun evar =>
    var_write_def evar (indent+1) self true None) ;;
  _write_init_check self indent suite_name errvar_names use_errflg ;;
  _write_index_check self indent suite_name errvar_names use_errflg ;;
  (if nonempty self then
     write ("call " ++ constituent_prop_array_name ++
            "(index)%standard_name(name_out" ++ errvar_call2 ++ ")") (indent+1)
   else skip) ;;
  write ("end subroutine " ++ const_name_subname self) indent ;;
  write rule 1 ;;
  (* Copy a consitituent's properties *)
  let fname := copy_const_subname self in
  write ("subroutine " ++ fname ++ "(index, cnst_out" ++ errvar_alist2 ++ ")")
        indent ;;
  write "! Copy the data for a constituent" (indent+1) ;;
  write "! Dummy arguments" (indent+1) ;;
  write "integer,            intent(in)    :: index" (indent+1) ;;
  write ("type(" ++ constituent_prop_type_name ++
         "), intent(out)     :: cnst_out") (indent+1) ;;
  for_each err_vars (fun evar =>
    var_write_def evar (indent+1) self true None) ;;
  _write_init_check self indent suite_name errvar_names use_errflg ;;
  _write_index_check self indent suite_name errvar_names use_errflg ;;
  (if nonempty self then
     write ("cnst_out = " ++ constituent_prop_array_name ++ "(index)")
           (indent+1)
   else skip) ;;
  write ("end subroutine " ++ fname) indent.

(** Lines 357-378. [max] of an empty list raises ValueError. *)
Definition write_constituent_use_statements (suite_list : list Suite)
    (indent : nat) : Writes :=
  match suite_list with
  | [] => raise (ValueError "max() arg is an empty sequence")
  | _ :: _ =>
      let maxmod :=
        list_max (map (fun s => String.length (module s)) suite_list) in
      let smod := String.length CONST_DDT_MOD in
      let maxmod := Nat.max maxmod smod in
      let use_str := fun a b c : string =>
        ("use " ++ a ++ "," ++ b ++ " only: " ++ c)%string in
      let spc := PyStr.repeat_char " "%char (maxmod - smod) in
      write (use_str CONST_DDT_MOD spc CONST_PROP_TYPE) indent ;;
      write "! Suite constituent interfaces" indent ;;
      for_each suite_list (fun suite =>
        let const_dict := constituent_dictionary suite in
        let smod := module suite in
        let spc := PyStr.repeat_char " "%char (maxmod - String.length smod) in
        let fname := num_consts_funcname const_dict in
        write (use_str smod spc fname) indent ;;
        let fname := const_name_subname const_dict in
        write (use_str smod spc fname) indent ;;
        let fname := copy_const_subname const_dict in
        write (use_str smod spc fname) indent)
  end.

(** Lines 380-532. *)
Definition write_host_routines (host : Dict)
    (reg_funcname num_const_funcname copy_in_funcname copy_out_funcname
     const_obj_name const_names_name const_indices_name : string)
    (suite_list : list Suite) (err_vars : list Var) : Writes :=
  let err_callstr := "errflg=errflg, errmsg=errmsg" in
  let err_names := map local_name err_vars in
  let errvar_str := PyStr.join ", " err_names in
  (* First up, the registration routine *)
  let substmt := ("subroutine " ++ reg_funcname)%string in
  write (substmt ++ "(suite_list, ncols, num_layers, num_interfaces, " ++
         errvar_str ++ ")") 1 ;;
  write "! Create constituent object for suites in <suite_list>" 2 ;;
  write "" 0 ;;
  write_constituent_use_statements suite_list 2 ;;
  write "" 0 ;;
  write "! Dummy arguments" 2 ;;
  write "character(len=*),   intent(in)    :: suite_list(:)" 2 ;;
  write "integer,            intent(in)    :: ncols" 2 ;;
  write "integer,            intent(in)    :: num_layers" 2 ;;
  write "integer,            intent(in)    :: num_interfaces" 2 ;;
  for_each err_vars (fun evar =>
    var_write_def evar 2 host true (Some "out")) ;;
  write "! Local variables" 2 ;;
  let spc := PyStr.repeat_char " "%char 37 in
  write ("integer" ++ spc ++ " :: num_suite_consts") 2 ;;
  write ("integer" ++ spc ++ " :: num_consts") 2 ;;
  write ("integer" ++ spc ++ " :: index") 2 ;;
  write ("integer" ++ spc ++ " :: field_ind") 2 ;;
  write ("type(" ++ CONST_PROP_TYPE ++ "), pointer :: const_prop") 2 ;;
  write "" 0 ;;
  write "num_consts = 0" 2 ;;
  for_each suite_list (fun suite =>
    let const_dict := constituent_dictionary suite in
    let funcname := num_consts_funcname const_dict in
    write ("! Number of suite constants for " ++ suite_name suite) 2 ;;
    write ("num_suite_consts = " ++ funcname ++ "(" ++ errvar_str ++ ")") 2 ;;
    write "num_consts = num_consts + num_suite_consts" 2) ;;
  write "if (errflg == 0) then" 2 ;;
  write "! Initialize constituent data and field object" 3 ;;
  write ("call " ++ const_obj_name ++ "%initialize_table(num_consts)") 3 ;;
  write "end if" 2 ;;
  for_each suite_list (fun suite =>
    write "if (errflg == 0) then" 2 ;;
    write ("! Add " ++ suite_name suite ++ " constituent metadata") 3 ;;
    let const_dict := constituent_dictionary suite in
    let funcname := num_consts_funcname const_dict in
    write ("num_suite_consts = " ++ funcname ++ "(" ++ errvar_str ++ ")") 3 ;;
    write "end if" 2 ;;
    let funcname := copy_const_subname const_dict in
    write "do index = 1, num_suite_consts" 2 ;;
    write "allocate(const_prop, stat=errflg)" 3 ;;
    write "if (errflg /= 0) then" 3 ;;
    write ("errmsg = " ++ PyStr.dq ++ "ERROR allocating const_prop" ++
           PyStr.dq) 4 ;;
    write "end if" 3 ;;
    write "if (errflg == 0) then" 3 ;;
    write ("call " ++ funcname ++ "(index, const_prop, " ++ err_callstr ++ ")")
          4 ;;
    write "end if" 3 ;;
    write "if (errflg == 0) then" 3 ;;
    write ("call " ++ const_obj_name ++ "%new_field(const_prop, " ++
           err_callstr ++ ")") 4 ;;
    write "end if" 3 ;;
    write "nullify(const_prop)" 3 ;;
    write "if (errflg /= 0) then" 3 ;;
    write "exit" 4 ;;
    write "end if" 3 ;;
    write "end do" 2 ;;
    write "" 0) ;;
  write "if (errflg == 0) then" 2 ;;
  write ("call " ++ const_obj_name ++
         "%lock_table(ncols, num_layers, num_interfaces, " ++ err_callstr ++
         ")") 3 ;;
  write "end if" 2 ;;
  write "! Set the index for each active constituent" 2 ;;
  write ("do index = 1, SIZE(" ++ const_indices_name ++ ")") 2 ;;
  write ("field_ind = " ++ const_obj_name ++ "%field_index(" ++
         const_names_name ++ "(index), " ++ err_callstr ++ ")") 3 ;;
  write "if (field_ind > 0) then" 3 ;;
  write (const_indices_name ++ "(index) = field_ind") 4 ;;
  write "else" 3 ;;
  write "errflg = 1" 4 ;;
  write ("errmsg = 'No field index for '//trim(" ++ const_names_name ++
         "(index))") 4 ;;
  write "end if" 3 ;;
  write "if (errflg /= 0) then" 3 ;;
  write "exit" 4 ;;
  write "end if" 3 ;;
  write "end do" 2 ;;
  write ("end " ++ substmt) 1 ;;
  (* Next, write num_consts routine *)
  let substmt := ("function " ++ num_const_funcname)%string in
  write "" 0 ;;
  write ("integer " ++ substmt ++ "(" ++ errvar_str ++ ")") 1 ;;
  write "! Return the number of constituent fields for this run" 2 ;;
  write "" 0 ;;
  write "! Dummy arguments" 2 ;;
  for_each err_vars (fun evar =>
    var_write_def evar 2 host true (Some "out")) ;;
  write "" 0 ;;
  write (num_const_funcname ++ " = " ++ const_obj_name ++
         "%num_constituents(" ++ err_callstr ++ ")") 2 ;;
  write ("end " ++ substmt) 1 ;;
  (* Next, write copy_in routine *)
  let substmt := ("subroutine " ++ copy_in_funcname)%string in
  write "" 0 ;;
  write (substmt ++ "(const_array, " ++ errvar_str ++ ")") 1 ;;
  write "! Copy constituent field info into <const_array>" 2 ;;
  write "" 0 ;;
  write "! Dummy arguments" 2 ;;
  write "real(kind_phys),    intent(out)   :: const_array(:,:,:)" 2 ;;
  for_each err_vars (fun evar =>
    var_write_def evar 2 host true (Some "out")) ;;
  write "" 0 ;;
  write ("call " ++ const_obj_name ++ "%copy_in(const_array, " ++
         err_callstr ++ ")") 2 ;;
  write ("end " ++ substmt) 1 ;;
  (* Next, write copy_out routine *)
  let substmt := ("subroutine " ++ copy_out_funcname)%string in
  write "" 0 ;;
  write (substmt ++ "(const_array, " ++ errvar_str ++ ")") 1 ;;
  write "! Update constituent field info from <const_array>" 2 ;;
  write "" 0 ;;
  write "! Dummy arguments" 2 ;;
  write "real(kind_phys),    intent(in)    :: const_array(:,:,:)" 2 ;;
  for_each err_vars (fun evar =>
    var_write_def evar 2 host true (Some "out")) ;;
  write "" 0 ;;
  write ("call " ++ const_obj_name ++ "%copy_out(const_array, " ++
         err_callstr ++ ")") 2 ;;
  write ("end " ++ substmt) 1.

End Generators.

(* ===================================================================== *)
(** * The generated Fortran, read as a program *)
(* ===================================================================== *)

(** The generators produce text.  To say what that text does when the host
    model runs it, the statements the generators emit are given a structure
    and a meaning here: [render] prints a statement as the lines the
    generator writes for it, and [exec] runs it on a state. *)
Module Fortran.

Inductive cond : Type :=
| NotFlag (flag : string)          (* .not. flag *)
| Lt (x : string) (k : nat)        (* x < k *)
| Gt (x : string) (k : nat)        (* x > k *)
| GtSize (x arr : string)          (* x > SIZE(arr) *)
| Eq (x : string) (k : nat)        (* x == k *)
| Ne (x : string) (k : nat).       (* x /= k *)

Inductive stmt : Type :=
| Remark (text : string)           (* a comment *)
| SetInt (x : string) (k : nat)    (* x = k *)
| Store (arr i x : string)         (* arr(i) = x *)
| Note (text : string)             (* a statement that sets a message only *)
| Call (text : string)             (* a call or function reference whose
                                      body is not part of the generated text *)
| If (c : cond) (thn els : list stmt)
| IfElseIf (c1 : cond) (b1 : list stmt) (c2 : cond) (b2 : list stmt)
| DoSize (x arr : string) (body : list stmt)   (* do x = 1, SIZE(arr) *)
| Exit.

Definition render_cond (c : cond) : string :=
  match c with
  | NotFlag flag => ".not. " ++ flag
  | Lt x k => x ++ " < " ++ PyStr.of_nat k
  | Gt x k => x ++ " > " ++ PyStr.of_nat k
  | GtSize x arr => x ++ " > SIZE(" ++ arr ++ ")"
  | Eq x k => x ++ " == " ++ PyStr.of_nat k
  | Ne x k => x ++ " /= " ++ PyStr.of_nat k
  end.

(** The lines of a statement at an indentation level; a block is one level
    deeper than the statement that opens it. *)
Fixpoint render (indent : nat) (s : stmt) : list Line :=
  match s with
  | Remark text | Note text | Call text => [(text, indent)]
  | SetInt x k => [((x ++ " = " ++ PyStr.of_nat k)%string, indent)]
  | Store arr i x => [((arr ++ "(" ++ i ++ ") = " ++ x)%string, indent)]
  | If c thn els =>
      (("if (" ++ render_cond c ++ ") then")%string, indent)
      :: flat_map (render (S indent)) thn
      ++ match els with
         | [] => []
         | _ :: _ => ("else", indent) :: flat_map (render (S indent)) els
         end
      ++ [("end if", indent)]
  | IfElseIf c1 b1 c2 b2 =>
      (("if (" ++ render_cond c1 ++ ") then")%string, indent)
      :: flat_map (render (S indent)) b1
      ++ (("else if (" ++ render_cond c2 ++ ") then")%string, indent)
      :: flat_map (render (S indent)) b2
      ++ [("end if", indent)]
  | DoSize x arr body =>
      (("do " ++ x ++ " = 1, SIZE(" ++ arr ++ ")")%string, indent)
      :: flat_map (render (S indent)) body
      ++ [("end do", indent)]
  | Exit => [("exit", indent)]
  end.

Definition render_block (indent : nat) (b : list stmt) : list Line :=
  flat_map (render indent) b.

(** The part of the run-time state the generated statements work on. *)
Record State : Type := mkState {
  ints   : string -> Z;            (* integer scalars: index, errflg, ... *)
  flags  : string -> bool;         (* logical scalars *)
  sizes  : string -> Z;            (* SIZE of each array *)
  elems  : string -> Z -> Z;       (* elements of the integer arrays *)
  trace  : list string             (* the notes and calls executed so far *)
}.

Definition set_int (x : string) (v : Z) (st : State) : State :=
  mkState (fun y => if String.eqb y x then v else ints st y)
          (flags st) (sizes st) (elems st) (trace st).

Definition set_elem (arr : string) (i v : Z) (st : State) : State :=
  mkState (ints st) (flags st) (sizes st)
          (fun a j => if String.eqb a arr && Z.eqb j i then v
                      else elems st a j)
          (trace st).

Definition log (text : string) (st : State) : State :=
  mkState (ints st) (flags st) (sizes st) (elems st) (trace st ++ [text]).

Definition eval (c : cond) (st : State) : bool :=
  match c with
  | NotFlag flag => negb (flags st flag)
  | Lt x k => Z.ltb (ints st x) (Z.of_nat k)
  | Gt x k => Z.gtb (ints st x) (Z.of_nat k)
  | GtSize x arr => Z.gtb (ints st x) (sizes st arr)
  | Eq x k => Z.eqb (ints st x) (Z.of_nat k)
  | Ne x k => negb (Z.eqb (ints st x) (Z.of_nat k))
  end.

Section Exec.

(** What a call does to the state, given its text: the procedures called
    belong to the host model and its constituent library. *)
Variable extern : string -> State -> State.

(** [exec s st]: the state after [s], and whether an [exit] is under way. *)
Fixpoint exec (s : stmt) (st : State) {struct s} : State * bool :=
  let run :=
    fix run (b : list stmt) (st : State) {struct b} : State * bool :=
      match b with
      | [] => (st, false)
      | s' :: rest =>
          let (st', leaving) := exec s' st in
          if leaving then (st', true) else run rest st'
      end in
  match s with
  | Remark _ => (st, false)
  | SetInt x k => (set_int x (Z.of_nat k) st, false)
  | Store arr i x => (set_elem arr (ints st i) (ints st x) st, false)
  | Note text => (log text st, false)
  | Call text => (extern text (log text st), false)
  | If c thn els => if eval c st then run thn st else run els st
  | IfElseIf c1 b1 c2 b2 =>
      if eval c1 st then run b1 st
      else if eval c2 st then run b2 st
      else (st, false)
  | DoSize x arr body =>
      ((fix loop (count : nat) (i : Z) (st : State) {struct count} : State :=
          match count with
          | O => set_int x i st
          | S count' =>
              let (st', leaving) := run body (set_int x i st) in
              if leaving then st' else loop count' (i + 1)%Z st'
          end) (Z.to_nat (sizes st arr)) 1%Z st, false)
  | Exit => (st, true)
  end.

Fixpoint exec_block (b : list stmt) (st : State) {struct b} : State * bool :=
  match b with
  | [] => (st, false)
  | s :: rest =>
      let (st', leaving) := exec s st in
      if leaving then (st', true) else exec_block rest st'
  end.

(** The state a routine body leaves. *)
Definition run_body (b : list stmt) (st : State) : State :=
  fst (exec_block b st).

(** The iterations of [do x = i, ...] that are left, [count] of them. *)
Definition do_loop (x : string) (body : list stmt)
  : nat -> Z -> State -> State :=
  fix loop (count : nat) (i : Z) (st : State) {struct count} : State :=
    match count with
    | O => set_int x i st
    | S count' =>
        let (st', leaving) := exec_block body (set_int x i st) in
        if leaving then st' else loop count' (i + 1)%Z st'
    end.

End Exec.

End Fortran.

(** The bodies of the generated routines as Fortran programs.  The theorems
    below show that the generators write exactly the rendering of these. *)
Module Reading.

Import Fortran.

(** What _write_init_check writes after the blank line. *)
Definition init_check (suite_name : string) : list stmt :=
  [ SetInt "errflg" 0;
    Note "errmsg = ''";
    Remark "! Make sure that our constituent array is initialized";
    If (NotFlag constituent_prop_init_name)
       [ SetInt "errflg" 1;
         Note ("errmsg = " ++ PyStr.dq ++
               "constituent properties not initialized for suite, " ++
               suite_name ++ PyStr.dq) ]
       [] ].

(** What _write_index_check writes for a dictionary with entries. *)
Definition index_check : list stmt :=
  [ IfElseIf
      (Lt "index" 1)
      [ SetInt "errflg" 1;
        Note "write(errmsg, '(a,i0,a)') 'ERROR: index (',index,') too small, must be >= 1'" ]
      (GtSize "index" constituent_prop_array_name)
      [ SetInt "errflg" 1;
        Note "write(errmsg, '(2(a,i0))') 'ERROR: index (',index,') too large, must be <= ', SIZE(ccpp_constituent_array)" ] ].

(** What _write_index_check writes for a dictionary without entries. *)
Definition no_constituents : list stmt :=
  [ SetInt "errflg" 1;
    Note "write(errmsg, '(a,i0,a)') 'ERROR: suite, {}, has no constituents'" ].

(** The statement of the name routine that reads the stored name. *)
Definition read_name (errvar_call2 : string) : stmt :=
  Call ("call " ++ constituent_prop_array_name ++
        "(index)%standard_name(name_out" ++ errvar_call2 ++ ")").

(** The statement of the copy routine that copies the stored properties. *)
Definition copy_props : stmt :=
  Call ("cnst_out = " ++ constituent_prop_array_name ++ "(index)").

(** The executable part of the name and copy routines, [access] being the
    statement that reads the array. *)
Definition indexed_body (has_entries : bool) (suite_name : string)
    (access : stmt) : list stmt :=
  init_check suite_name
  ++ (if has_entries then index_check ++ [access] else no_constituents).

(** The executable part of the count function. *)
Definition count_body (fname : string) (errvar_call : string) (n : nat)
  : list stmt :=
  [ Remark "! Make sure that our constituent array is initialized";
    If (NotFlag constituent_prop_init_name)
       [ Call ("call " ++ constituent_prop_init_consts ++ "(" ++
               errvar_call ++ ")") ]
       [];
    SetInt fname n ].

(** The last loop of the host registration routine. *)
Definition lookup_field (const_obj_name const_names_name : string) : string :=
  "field_ind = " ++ const_obj_name ++ "%field_index(" ++ const_names_name ++
  "(index), errflg=errflg, errmsg=errmsg)".

Definition no_field_message (const_names_name : string) : string :=
  "errmsg = 'No field index for '//trim(" ++ const_names_name ++ "(index))".

Definition index_loop_body
    (const_obj_name const_names_name const_indices_name : string)
  : list stmt :=
  [ Call (lookup_field const_obj_name const_names_name);
    If (Gt "field_ind" 0)
       [ Store const_indices_name "index" "field_ind" ]
       [ SetInt "errflg" 1;
         Note (no_field_message const_names_name) ];
    If (Ne "errflg" 0) [ Exit ] [] ].

Definition index_loop
    (const_obj_name const_names_name const_indices_name : string) : stmt :=
  DoSize "index" const_indices_name
    (index_loop_body const_obj_name const_names_name const_indices_name).

(** A registry for the last loop: its field_index answers [field_of i] for
    the name at position [i] and leaves the error variables alone; no other
    call is made in the loop. *)
Definition registry (lookup_text : string) (field_of : Z -> Z)
    (text : string) (st : State) : State :=
  if String.eqb text lookup_text
  then set_int "field_ind" (field_of (ints st "index")) st
  else st.

(** The first position from [i] on, among [count] of them, whose name the
    registry does not hold; [i + count] when it holds them all. *)
Fixpoint first_missing (field_of : Z -> Z) (count : nat) (i : Z) : Z :=
  match count with
  | O => i
  | S count' =>
      if Z.gtb (field_of i) 0 then first_missing field_of count' (i + 1)%Z
      else i
  end.

End Reading.

(** The routines write_constituent_routines writes, one after the other.
    The executable part of each is the rendering of its reading above. *)
Module Layout.

Definition errvar_names (err_vars : list Var) : list string :=
  map local_name err_vars.

Definition use_errflg (err_vars : list Var) : bool :=
  PyStr.mem "errflg" (errvar_names err_vars)
  && PyStr.mem "errmsg" (errvar_names err_vars).

Definition errvar_alist (err_vars : list Var) : string :=
  PyStr.join ", " (errvar_names err_vars).

Definition errvar_alist2 (err_vars : list Var) : string :=
  if PyStr.truthy (errvar_alist err_vars)
  then ", " ++ errvar_alist err_vars else "".

Definition errvar_call (err_vars : list Var) : string :=
  PyStr.join ", " (map (fun x => (x ++ "=" ++ x)%string) (errvar_names err_vars)).

Definition errvar_call2 (err_vars : list Var) : string :=
  if PyStr.truthy (errvar_call err_vars)
  then ", " ++ errvar_call err_vars else "".

(** The call of the constructor written for one entry. *)
Definition initialize_call (std_name vertical_dim advect_str : string)
    (err_vars : list Var) : string :=
  "call ccpp_constituent_array(index)%initialize(" ++
  PyStr.dq ++ std_name ++ PyStr.dq ++ ", " ++
  PyStr.dq ++ vertical_dim ++ PyStr.dq ++ ", " ++
  advect_str ++ errvar_call2 err_vars ++ ")".

Section Routines.

Variable write_def : Var -> nat -> Dict -> bool -> option string -> list Line.
Variables (self : Dict) (indent : nat) (suite_name : string).
Variable err_vars : list Var.

(** The declarations of the error variables. *)
Definition dummy_defs : list Line :=
  flat_map (fun evar => write_def evar (indent+1) self true None) err_vars.

Definition init_routine : list Line :=
  [ (("subroutine ccpp_create_constituent_array(" ++
      errvar_alist err_vars ++ ")")%string, indent);
    ("! Allocate and fill the constituent property array", indent+1);
    ("!    for this suite", indent+1);
    ("! Dummy arguments", indent+1) ]
  ++ dummy_defs
  ++ (if nonempty self then
        [ ("! Local variables", indent+1);
          ("integer :: index", indent+1);
          (("allocate(ccpp_constituent_array(" ++ PyStr.of_nat (len self) ++
            "))")%string, indent+1);
          ("index = 0", indent+1) ]
      else [])
  ++ flat_map (fun entry =>
       [ ("index = index + 1", indent+1);
         (initialize_call (fst entry) (vertical_dim_of (snd entry))
                          (TF_string (advected (snd entry))) err_vars,
          indent+1) ])
       (items self)
  ++ [ ("ccpp_constituents_initialized = .true.", indent+1);
       ("end subroutine ccpp_create_constituent_array", indent) ].

Definition count_routine : list Line :=
  [ (("integer function " ++ num_consts_funcname self ++ "(" ++
      errvar_alist err_vars ++ ")")%string, indent);
    ("! Return the number of constituents for this suite", indent+1);
    ("! Dummy arguments", indent+1) ]
  ++ dummy_defs
  ++ Fortran.render_block (indent+1)
       (Reading.count_body (num_consts_funcname self) (errvar_call err_vars)
                           (len self))
  ++ [ (("end function " ++ num_consts_funcname self)%string, indent) ].

Definition name_routine_head : list Line :=
  [ (("subroutine " ++ const_name_subname self ++ "(index, name_out" ++
      errvar_alist2 err_vars ++ ")")%string, indent);
    ("! Return the name of constituent, <index>", indent+1);
    ("! Dummy arguments", indent+1);
    ("integer,            intent(in)    :: index", indent+1);
    ("character(len=*),   intent(out)   :: name_out", indent+1) ]
  ++ dummy_defs
  ++ [ ("", 0) ].

Definition name_routine : list Line :=
  name_routine_head
  ++ Fortran.render_block (indent+1)
       (Reading.indexed_body (nonempty self) suite_name
          (Reading.read_name (errvar_call2 err_vars)))
  ++ [ (("end subroutine " ++ const_name_subname self)%string, indent) ].

Definition copy_routine : list Line :=
  [ (("subroutine " ++ copy_const_subname self ++ "(index, cnst_out" ++
      errvar_alist2 err_vars ++ ")")%string, indent);
    ("! Copy the data for a constituent", indent+1);
    ("! Dummy arguments", indent+1);
    ("integer,            intent(in)    :: index", indent+1);
    ("type(ccpp_constituent_properties_t), intent(out)     :: cnst_out",
     indent+1) ]
  ++ dummy_defs
  ++ [ ("", 0) ]
  ++ Fortran.render_block (indent+1)
       (Reading.indexed_body (nonempty self) suite_name Reading.copy_props)
  ++ [ (("end subroutine " ++ copy_const_subname self)%string, indent) ].

End Routines.

End Layout.

(* ===================================================================== *)
(** * Sample data *)
(* ===================================================================== *)

Module Sample.

Definition cloud_liquid : Var :=
  mkVar "cloud_liquid_water_mixing_ratio" "qc"
        ["horizontal_loop_extent"; "vertical_layer_dimension"]
        (Some "inout") true true "module".

Definition tracer_flux : Var :=
  mkVar "tracer_flux_at_interfaces" "tflx"
        ["horizontal_loop_begin:horizontal_loop_end";
         "vertical_interface_dimension"]
        (Some "in") false true "module".

Definition surface_pressure : Var :=
  mkVar "surface_air_pressure" "ps" ["horizontal_dimension"]
        None false false "host".

(** A host-model dictionary and the constituent dictionary of a suite
    connected to it. *)
Definition host : Dict :=
  mkDict VarDictionary "host" [("surface_air_pressure", surface_pressure)] None.

Definition suite_consts : Dict :=
  mkDict ConstituentVarDict "cld_suite_constituents" [] (Some host).

(** Two constituent dictionaries, one the parent of the other. *)
Definition outer_consts : Dict := mkDict ConstituentVarDict "outer" [] None.

Definition inner_consts : Dict :=
  mkDict ConstituentVarDict "inner" [] (Some outer_consts).

(** A chain of three: a constituent dictionary under a suite-level one
    under the host dictionary, which alone holds the surface pressure. *)
Definition middle_consts : Dict :=
  mkDict ConstituentVarDict "middle" [] (Some host).

Definition leaf_consts : Dict :=
  mkDict ConstituentVarDict "leaf" [] (Some middle_consts).

(** What find_variable makes of [cloud_liquid]. *)
Definition cloud_liquid_made : Var :=
  mkVar "cloud_liquid_water_mixing_ratio" "qc"
        ["horizontal_dimension"; "vertical_layer_dimension"]
        None true true "suite".

(** The error variables of the host model, and one of another convention. *)
Definition errflg : Var :=
  mkVar "ccpp_error_code" "errflg" [] (Some "out") false false "host".

Definition errmsg : Var :=
  mkVar "ccpp_error_message" "errmsg" [] (Some "out") false false "host".

Definition ierr : Var :=
  mkVar "error_status" "ierr" [] (Some "out") false false "host".

(** A declaration writer: one line for each variable. *)
Definition write_def (evar : Var) (indent : nat) (wdict : Dict)
    (dummy : bool) (add_intent : option string) : list Line :=
  [ ((source_type evar ++ " variable :: " ++ local_name evar)%string, indent) ].

(** The constituent dictionary of a suite with two constituents, and one of
    a suite with none. *)
Definition tracer_flux_made : Var :=
  mkVar "tracer_flux_at_interfaces" "tflx"
        ["ccpp_constant_one:horizontal_dimension";
         "vertical_interface_dimension"]
        None false true "suite".

Definition cld_consts : Dict :=
  mkDict ConstituentVarDict "cld"
    [ ("cloud_liquid_water_mixing_ratio", cloud_liquid_made);
      ("tracer_flux_at_interfaces", tracer_flux_made) ] None.

Definition dry_consts : Dict := mkDict ConstituentVarDict "dry" [] None.

Definition cld_suite : Suite := mkSuite "cld_suite" "ccpp_cld_suite_cap" cld_consts.
Definition dry_suite : Suite := mkSuite "dry_suite" "ccpp_dry_suite_cap" dry_consts.

(** A run-time state in which the constituent array is initialized and holds
    two entries, and the caller asks for entry number [index]. *)
Definition asked_for (index : Z) : Fortran.State :=
  Fortran.mkState
    (fun x => if String.eqb x "index" then index else 0%Z)
    (fun _ => true)
    (fun _ => 2%Z)
    (fun _ _ => 0%Z)
    [].

(** The state at the start of the last loop of the registration routine:
    no error so far, three required names, and an index array filled with
    the value -1. *)
Definition before_lookup : Fortran.State :=
  Fortran.mkState
    (fun _ => 0%Z)
    (fun _ => true)
    (fun _ => 3%Z)
    (fun _ _ => (-1)%Z)
    [].

(** A registry that holds the first and the third required name, as fields 4
    and 2, and not the second. *)
Definition fields (i : Z) : Z :=
  if Z.eqb i 1 then 4%Z else if Z.eqb i 3 then 2%Z else 0%Z.

(** Calls that change nothing in the part of the state that is modelled. *)
Definition quiet (text : string) (st : Fortran.State) : Fortran.State := st.

End Sample.

(* ===================================================================== *)
(** * The declarations of ConstituentVarDict *)
(* ===================================================================== *)

(** Lines 125-135. *)
Definition declare_public_interfaces (self : Dict) (indent : nat) : Writes :=
  write "! Public interfaces for handling constituents" indent ;;
  write "! Return the number of constituents for this suite" indent ;;
  write ("public :: " ++ num_consts_funcname self) indent ;;
  write "! Return the name of a constituent" indent ;;
  write ("public :: " ++ const_name_subname self) indent ;;
  write "! Copy the data for a constituent" indent ;;
  write ("public :: " ++ copy_const_subname self) indent.

(** Lines 137-151. *)
Definition declare_private_data (self : Dict) (indent : nat) : Writes :=
  write "! Private constituent module data" indent ;;
  (if nonempty self then
     write ("type(" ++ constituent_prop_type_name ++
            "), private, allocatable :: " ++ constituent_prop_array_name ++
            "(:)") indent
   else skip) ;;
  write ("logical, private :: " ++ constituent_prop_init_name ++ " = .false.")
        indent ;;
  write "! Private interface for constituents" indent ;;
  write ("private :: " ++ constituent_prop_init_consts) indent.

(* ===================================================================== *)
(** * Predicates on dictionaries and dimensions *)
(* ===================================================================== *)

(** Every dictionary of the chain holds each standard name once, and holds
    each variable under its own standard name. *)
Fixpoint well_keyed (d : Dict) : Prop :=
  match d with
  | mkDict _ _ entries parent =>
      NoDup (map fst entries)
      /\ Forall (fun kv => standard_name (snd kv) = fst kv) entries
      /\ match parent with Some p => well_keyed p | None => True end
  end.

(** The number of entries of the whole chain. *)
Fixpoint chain_size (d : Dict) : nat :=
  match d with
  | mkDict _ _ entries parent =>
      length entries
      + match parent with Some p => chain_size p | None => 0 end
  end.

(** [d'] is [d] with entries added at the end of some of its dictionaries:
    the entries [d] had are where they were. *)
Fixpoint chain_prefix (d d' : Dict) {struct d} : Prop :=
  match d, d' with
  | mkDict c n e parent, mkDict c' n' e' parent' =>
      c' = c /\ n' = n
      /\ (exists added, e' = e ++ added)
      /\ match parent, parent' with
         | Some p, Some p' => chain_prefix p p'
         | None, None => True
         | _, _ => False
         end
  end.

(** What a lookup of [key] from [d] answers: in [d] alone, or along the
    chain. *)
Definition lookup_from (any_scope : bool) (d : Dict) (key : string)
  : option Var :=
  if any_scope then chain_get d key else dict_get (items d) key.

(** A colon somewhere in the string. *)
Fixpoint has_colon (s : string) : bool :=
  match s with
  | EmptyString => false
  | String c rest => Ascii.eqb c ":"%char || has_colon rest
  end.

(** The three names of the horizontal loop. *)
Definition is_loop_name (tok : string) : bool :=
  String.eqb tok "horizontal_loop_extent"
  || String.eqb tok "horizontal_loop_end"
  || String.eqb tok "horizontal_loop_begin".

(** Further sample data. *)
Module MoreSample.

(** A variable of the host model that is no constituent. *)
Definition air_temperature : Var :=
  mkVar "air_temperature" "temp"
        ["horizontal_loop_extent"; "vertical_layer_dimension"]
        (Some "in") false false "module".

(** The state at the start of the last loop of the registration routine
    when an earlier step has failed: errflg is 7, three names are required,
    and the index array holds -1 everywhere. *)
Definition failed_before_lookup : Fortran.State :=
  Fortran.mkState
    (fun x => if String.eqb x "errflg" then 7%Z else 0%Z)
    (fun _ => true)
    (fun _ => 3%Z)
    (fun _ _ => (-1)%Z)
    [].

End MoreSample.

(** The chain [d] with the entry [(key, v)] appended to the constituent
    dictionary of the chain that is nearest the root; None when the chain
    has no constituent dictionary. *)
Fixpoint store_at_outermost (d : Dict) (key : string) (v : Var)
  : option Dict :=
  match d with
  | mkDict c n e parent =>
      let here :=
        match c with
        | ConstituentVarDict => Some (mkDict c n (e ++ [(key, v)]) parent)
        | VarDictionary => None
        end in
      match parent with
      | Some p =>
          match store_at_outermost p key v with
          | Some p' => Some (mkDict c n e (Some p'))
          | None => here
          end
      | None => here
      end
  end.

(** Sample data for the last loop of the registration routine. *)
Module LoopSample.

(** A registry that holds every required name: the name at position [i] is
    field [i + 10]. *)
Definition all_held (i : Z) : Z := (i + 10)%Z.

(** The state the last loop of the register routine leaves when it is
    entered with errflg at 7, three required names and a registry that
    holds all three. *)
Definition after_pending_error : Fortran.State :=
  fst (Fortran.exec
         (Reading.registry (Reading.lookup_field "cld_obj" "required_names")
                           all_held)
         (Reading.index_loop "cld_obj" "required_names" "required_indices")
         MoreSample.failed_before_lookup).

End LoopSample.

(* ===================================================================== *)
(** * Properties of the dictionary operations *)
(* ===================================================================== *)

(** Induction along a parent chain, from the root down. *)
Lemma Dict_chain_ind (P : Dict -> Prop) :
  (forall c n e, P (mkDict c n e None)) ->
  (forall c n e p, P p -> P (mkDict c n e (Some p))) ->
  forall d, P d.
Proof.
  intros Hroot Hchild.
  fix IH 1.
  intros [c n e [p|]].
  - apply Hchild, IH.
  - apply Hroot.
Qed.

Lemma dict_set_absent entries key v :
  dict_get entries key = None -> dict_set entries key v = entries ++ [(key, v)].
Proof.
  induction entries as [|[k w] rest IH]; simpl; intros H.
  - reflexivity.
  - destruct (String.eqb k key); [discriminate|].
    now rewrite IH.
Qed.

Lemma dict_get_app_new entries key v :
  dict_get entries key = None -> dict_get (entries ++ [(key, v)]) key = Some v.
Proof.
  induction entries as [|[k w] rest IH]; simpl; intros H.
  - now rewrite String.eqb_refl.
  - destruct (String.eqb k key); [discriminate|auto].
Qed.

Lemma checked_name_source sn sv :
  sn = None \/ sn = Some (standard_name sv) ->
  checked_name sn (Some sv) = inr (standard_name sv).
Proof.
  intros [->| ->]; simpl; [reflexivity|].
  now rewrite String.eqb_refl.
Qed.

Lemma checked_name_keeps_source sn sv nm :
  checked_name sn (Some sv) = inr nm -> nm = standard_name sv.
Proof.
  destruct sn as [n|]; simpl.
  - destruct (String.eqb (standard_name sv) n) eqn:E; simpl; [|discriminate].
    intros [= <-]. symmetry. now apply String.eqb_eq.
  - now intros [= <-].
Qed.

Lemma checked_name_again sn sv nm :
  checked_name sn sv = inr nm -> checked_name (Some nm) sv = inr nm.
Proof.
  destruct sv as [v|]; [|reflexivity].
  intros H. apply checked_name_keeps_source in H. subst nm.
  simpl. now rewrite String.eqb_refl.
Qed.

(* ===================================================================== *)
(** * Resolution: what find_variable returns and what it changes *)
(* ===================================================================== *)

Section Resolution.

Variable sv : Var.

(** The variable lines 102-121 build from [sv]. *)
Let made : Var := clone sv (newdims (get_dimensions sv)) true constituent_type.

(** A search for an absent constituent, from any dictionary of a chain:
    either a [ConstituentVarDict] on the way makes the variable, or the chain
    is made of base dictionaries, which hand back None and stay as they
    are. *)
Lemma find_variable_absent :
  is_constituent sv = true ->
  forall d sn any_scope cl scl ls,
    sn = None \/ sn = Some (standard_name sv) ->
    chain_mem d (standard_name sv) = false ->
    exists r d',
      find_variable d sn (Some sv) any_scope cl scl ls = inr (r, d')
      /\ dclass d' = dclass d
      /\ ((r = Some made /\ chain_get d' (standard_name sv) = Some made)
          \/ (r = None /\ d' = d /\ dclass d = VarDictionary)).
Proof.
  intros Hc d.
  induction d as [c n e|c n e p IH] using Dict_chain_ind;
    intros sn any_scope cl scl ls Hsn Habs; simpl in Habs;
    destruct (dict_get e (standard_name sv)) eqn:Hget; try discriminate;
    simpl; rewrite (checked_name_source sn sv Hsn), Hget.
  - (* a root *)
    destruct any_scope; destruct c; simpl; rewrite ?Hc;
      eexists; eexists; (split; [reflexivity|]); (split; [reflexivity|]);
      try (right; repeat split; reflexivity);
      left; split; try reflexivity; simpl;
      unfold add_variable; rewrite (dict_set_absent e _ _ Hget);
      simpl; rewrite (dict_get_app_new e _ _ Hget); reflexivity.
  - (* a dictionary with a parent *)
    destruct any_scope.
    + destruct (IH (Some (standard_name sv)) true None scl ls
                   (or_intror eq_refl) Habs)
        as (r & p' & Hfind & Hcls & Hres).
      rewrite Hfind.
      destruct Hres as [[-> Hchain]|(-> & -> & Hplain)].
      * destruct c; simpl; eexists; eexists;
          (split; [reflexivity|]); (split; [reflexivity|]);
          left; split; try reflexivity; simpl; now rewrite Hget.
      * destruct c; simpl; rewrite ?Hc; eexists; eexists;
          (split; [reflexivity|]); (split; [reflexivity|]).
        -- right; repeat split; reflexivity.
        -- left; split; [reflexivity|]. simpl.
           unfold add_variable; rewrite (dict_set_absent e _ _ Hget).
           simpl. now rewrite (dict_get_app_new e _ _ Hget).
    + destruct c; simpl; rewrite ?Hc; eexists; eexists;
        (split; [reflexivity|]); (split; [reflexivity|]).
      * right; repeat split; reflexivity.
      * left; split; [reflexivity|]. simpl.
        unfold add_variable; rewrite (dict_set_absent e _ _ Hget).
        simpl. now rewrite (dict_get_app_new e _ _ Hget).
Qed.

End Resolution.

(** A chain of base dictionaries is only read. *)
Lemma find_variable_plain_chain :
  forall d, all_plain d = true ->
  forall sn src any_scope cl scl ls r d',
    find_variable d sn src any_scope cl scl ls = inr (r, d') -> d' = d.
Proof.
  induction d as [c n e|c n e p IH] using Dict_chain_ind;
    intros Hplain sn src any_scope cl scl ls r d'; simpl in *;
    destruct c; try discriminate;
    destruct (checked_name sn src) as [ex|nm]; try discriminate;
    destruct (dict_get e nm) as [v|]; try (now intros [= <- <-]).
  - destruct any_scope; now intros [= <- <-].
  - destruct any_scope; [|now intros [= <- <-]].
    destruct (find_variable p (Some nm) src true None scl ls)
      as [ex|[r0 p']] eqn:Hfind; try discriminate.
    apply (IH Hplain) in Hfind. subst p'. now intros [= <- <-].
Qed.

(** A well-formed request is answered: no exception is raised past the check
    of the arguments. *)
Lemma find_variable_returns :
  forall d sn src any_scope cl scl ls nm,
    checked_name sn src = inr nm ->
    exists r d', find_variable d sn src any_scope cl scl ls = inr (r, d').
Proof.
  induction d as [c n e|c n e p IH] using Dict_chain_ind;
    intros sn src any_scope cl scl ls nm Hnm; simpl; rewrite Hnm.
  - destruct (dict_get e nm), any_scope, c, src as [w|];
      try destruct (is_constituent w); simpl; eauto.
  - destruct (dict_get e nm).
    + destruct c; simpl; eauto.
    + destruct any_scope.
      * destruct (IH (Some nm) src true None scl ls nm
                     (checked_name_again sn src nm Hnm)) as (r & p' & ->).
        destruct c, r, src as [w|]; try destruct (is_constituent w);
          simpl; eauto.
      * destruct c, src as [w|]; try destruct (is_constituent w);
          simpl; eauto.
Qed.

(** Where nothing above can make the variable, the dictionary the call was
    made on makes it and appends it to its own entries. *)
Lemma find_variable_makes_locally :
  forall sv n e parent sn any_scope cl scl ls,
    is_constituent sv = true ->
    sn = None \/ sn = Some (standard_name sv) ->
    chain_mem (mkDict ConstituentVarDict n e parent) (standard_name sv) = false ->
    any_scope = false
    \/ plain_ancestors (mkDict ConstituentVarDict n e parent) = true ->
    let made := clone sv (newdims (get_dimensions sv)) true constituent_type in
    find_variable (mkDict ConstituentVarDict n e parent) sn (Some sv)
                  any_scope cl scl ls
    = inr (Some made,
           mkDict ConstituentVarDict n (e ++ [(standard_name sv, made)]) parent).
Proof.
  intros sv n e parent sn any_scope cl scl ls Hc Hsn Habs Hloc made.
  simpl in Habs.
  destruct (dict_get e (standard_name sv)) eqn:Hget; [discriminate|].
  assert (Hadd : add_variable e made = e ++ [(standard_name sv, made)])
    by (unfold add_variable; now rewrite (dict_set_absent e _ _ Hget)).
  simpl. rewrite (checked_name_source sn sv Hsn), Hget.
  destruct any_scope, parent as [p|]; simpl; rewrite ?Hc; fold made;
    rewrite ?Hadd; try reflexivity.
  destruct Hloc as [Hloc|Hplain]; [discriminate|].
  unfold plain_ancestors in Hplain; simpl in Hplain.
  destruct (find_variable_absent sv Hc p (Some (standard_name sv)) true None
              scl ls (or_intror eq_refl) Habs)
    as (r & p' & Hfind & _ & Hres).
  rewrite Hfind.
  pose proof (find_variable_plain_chain p Hplain _ _ _ _ _ _ _ _ Hfind) as ->.
  destruct Hres as [[_ Hchain]|(-> & _ & _)].
  - exfalso. clear Hfind. revert Habs Hchain.
    induction p as [c' n' e'|c' n' e' q IHq] using Dict_chain_ind; simpl;
      destruct (dict_get e' (standard_name sv)); try discriminate.
    simpl in Hplain. destruct c'; [|discriminate]. now apply IHq.
  - reflexivity.
Qed.

(** C6, as stated, fails on a constituent dictionary whose parent is a
    constituent dictionary too: the call on the inner one hands the request
    to the outer one, which makes the variable and stores it in its own
    entries; the inner dictionary, on which the call was made, stays
    empty. *)
Lemma C6_counterexample_nested_constituent_dicts :
  find_variable Sample.inner_consts None (Some Sample.cloud_liquid)
                true None false false
  = inr (Some Sample.cloud_liquid_made,
         mkDict ConstituentVarDict "inner" []
           (Some (mkDict ConstituentVarDict "outer"
                    [("cloud_liquid_water_mixing_ratio",
                      Sample.cloud_liquid_made)] None)))
  /\ items Sample.inner_consts = []
  /\ parent_dict Sample.inner_consts
     = Some (mkDict ConstituentVarDict "outer" [] None).
Proof.
  repeat split.
Qed.

(** When the search is local (any_scope false) or no ancestor is itself a
    constituent dictionary, a well-formed call returns, leaves the parent
    chain as it was, and either leaves the entries of the called dictionary
    as they were or appends to them the one variable it made from a
    constituent source variable, which it returns. *)
Lemma find_variable_stays_local :
  forall (self : Dict) (sn : option string) (src : option Var)
         (any_scope : bool) (cl : option Var) (scl ls : bool) (nm : string),
    dclass self = ConstituentVarDict ->
    any_scope = false \/ plain_ancestors self = true ->
    checked_name sn src = inr nm ->
    exists r self',
      find_variable self sn src any_scope cl scl ls = inr (r, self')
      /\ parent_dict self' = parent_dict self
      /\ dclass self' = dclass self
      /\ name self' = name self
      /\ (items self' = items self
          \/ exists sv,
               src = Some sv
               /\ is_constituent sv = true
               /\ dict_get (items self) nm = None
               /\ r = Some (clone sv (newdims (get_dimensions sv)) true "suite")
               /\ items self'
                  = items self
                    ++ [(nm, clone sv (newdims (get_dimensions sv)) true
                                   "suite")]).
Proof.
  intros [c n e parent] sn src any_scope cl scl ls nm Hcls Hloc Hnm.
  simpl in Hcls. subst c. simpl. rewrite Hnm.
  destruct (dict_get e nm) as [v|] eqn:Hget.
  { eexists; eexists; repeat (split; [reflexivity|]). now left. }
  assert (Hmake : forall sv, src = Some sv ->
            add_variable e (clone sv (newdims (get_dimensions sv)) true
                                  constituent_type)
            = e ++ [(nm, clone sv (newdims (get_dimensions sv)) true
                               constituent_type)]).
  { intros sv ->. unfold add_variable. simpl.
    rewrite <- (checked_name_keeps_source sn sv nm Hnm).
    now apply dict_set_absent. }
  assert (Hlocal :
    forall parent',
      exists r self',
        match src with
        | Some sv =>
            if is_constituent sv
            then inr (Some (clone sv (newdims (get_dimensions sv)) true
                                  constituent_type),
                      mkDict ConstituentVarDict n
                        (add_variable e
                           (clone sv (newdims (get_dimensions sv)) true
                                  constituent_type)) parent')
            else inr (None, mkDict ConstituentVarDict n e parent')
        | None => inr (@None Var, mkDict ConstituentVarDict n e parent')
        end = (inr (r, self') : Exn + (option Var * Dict))
        /\ parent_dict self' = parent'
        /\ dclass self' = ConstituentVarDict
        /\ name self' = n
        /\ (items self' = e
            \/ exists sv,
                 src = Some sv /\ is_constituent sv = true /\ None = @None Var
                 /\ r = Some (clone sv (newdims (get_dimensions sv)) true "suite")
                 /\ items self'
                    = e ++ [(nm, clone sv (newdims (get_dimensions sv)) true
                                       "suite")])).
  { intros parent'. destruct src as [sv|].
    - destruct (is_constituent sv) eqn:Hc.
      + eexists; eexists; repeat (split; [reflexivity|]).
        right. exists sv. split; [reflexivity|]. split; [exact Hc|].
        repeat (split; [reflexivity|]).
        simpl. now apply Hmake.
      + eexists; eexists; repeat (split; [reflexivity|]). now left.
    - eexists; eexists; repeat (split; [reflexivity|]). now left. }
  destruct any_scope, parent as [p|]; try apply Hlocal.
  destruct Hloc as [Hloc|Hplain]; [discriminate|].
  unfold plain_ancestors in Hplain; simpl in Hplain.
  destruct (find_variable_returns p (Some nm) src true None scl ls nm
              (checked_name_again sn src nm Hnm)) as (r0 & p' & Hfind).
  rewrite Hfind.
  pose proof (find_variable_plain_chain p Hplain _ _ _ _ _ _ _ _ Hfind) as ->.
  destruct r0 as [v|]; [|apply Hlocal].
  eexists; eexists; repeat (split; [reflexivity|]). now left.
Qed.

(** C7.  find_variable raises ParseInternalError exactly when both
    standard_name and source_var are omitted, or both are given and the
    standard name of source_var differs from standard_name; in every other
    case the call returns. *)
Theorem C7_find_variable_raises_iff :
  forall (self : Dict) (sn : option string) (src : option Var)
         (any_scope : bool) (cl : option Var) (scl ls : bool),
    dclass self = ConstituentVarDict ->
    ((exists msg,
        find_variable self sn src any_scope cl scl ls
        = inl (ParseInternalError msg))
     <-> ((sn = None /\ src = None)
          \/ exists n sv,
               sn = Some n /\ src = Some sv /\ standard_name sv <> n))
    /\ ((sn = None /\ src = None) ->
        find_variable self sn src any_scope cl scl ls
        = inl (ParseInternalError
                 "One of <standard_name> or <source_var> must be passed."))
    /\ (forall n sv,
          sn = Some n -> src = Some sv -> standard_name sv <> n ->
          find_variable self sn src any_scope cl scl ls
          = inl (ParseInternalError
                   "Only one of <standard_name> or <source_var> may be passed."))
    /\ ((sn <> None /\ src = None)
        \/ (sn = None /\ src <> None)
        \/ (exists sv, src = Some sv /\ sn = Some (standard_name sv)) ->
        exists r self',
          find_variable self sn src any_scope cl scl ls = inr (r, self')).
Proof.
  intros self sn src any_scope cl scl ls _.
  assert (Herr : forall ex,
            checked_name sn src = inl ex ->
            find_variable self sn src any_scope cl scl ls = inl ex).
  { intros ex H. destruct self. simpl. now rewrite H. }
  assert (Hok : forall nm,
            checked_name sn src = inr nm ->
            exists r self',
              find_variable self sn src any_scope cl scl ls = inr (r, self')).
  { intros nm H. now apply find_variable_returns with (nm := nm). }
  split; [split|split; [|split]].
  - intros [msg Hraise].
    destruct sn as [n|], src as [sv|]; simpl in Hok.
    + destruct (String.eqb (standard_name sv) n) eqn:E; simpl in Hok.
      * destruct (Hok n eq_refl) as (r & d & H). congruence.
      * right. exists n, sv. repeat split. now apply String.eqb_neq.
    + destruct (Hok n eq_refl) as (r & d & H). congruence.
    + destruct (Hok _ eq_refl) as (r & d & H). congruence.
    + now left.
  - intros [[-> ->]|(n & sv & -> & -> & Hne)].
    + eexists. now apply Herr.
    + eexists. apply Herr. simpl.
      apply String.eqb_neq in Hne. now rewrite Hne.
  - intros [-> ->]. now apply Herr.
  - intros n sv -> -> Hne. apply Herr. simpl.
    apply String.eqb_neq in Hne. now rewrite Hne.
  - intros [[Hsn ->]|[[-> Hsrc]|(sv & -> & ->)]].
    + destruct sn as [n|]; [|congruence]. now apply (Hok n).
    + destruct src as [sv|]; [|congruence]. now apply (Hok (standard_name sv)).
    + apply (Hok (standard_name sv)). simpl. now rewrite String.eqb_refl.
Qed.

(** C7, at a sample: a request with neither argument raises, and a request
    by name alone returns. *)
Lemma C7_find_variable_raises_iff_witness :
  find_variable Sample.suite_consts None None true None false false
  = inl (ParseInternalError
           "One of <standard_name> or <source_var> must be passed.")
  /\ exists r self',
       find_variable Sample.suite_consts (Some "surface_air_pressure") None
                     true None false false = inr (r, self').
Proof.
  split.
  - exact (proj1 (proj2 (C7_find_variable_raises_iff
                           Sample.suite_consts None None true None false false
                           eq_refl))
                 (conj eq_refl eq_refl)).
  - apply (proj2 (proj2 (proj2 (C7_find_variable_raises_iff
                           Sample.suite_consts (Some "surface_air_pressure")
                           None true None false false eq_refl)))).
    left. split; [discriminate|reflexivity].
Defined.

(** C10.  Two calls of find_variable that differ only in the clone argument
    give the same outcome: the same exception, or the same variable and the
    same dictionaries.  The argument is never read; and when the search goes
    on in the parent, the outcome is a function of the parent's answer to
    the same request with None for clone, whatever clone was given. *)
Theorem C10_clone_argument_ignored :
  (forall (self : Dict) (sn : option string) (src : option Var)
          (any_scope : bool) (cl1 cl2 : option Var) (scl ls : bool),
     find_variable self sn src any_scope cl1 scl ls
     = find_variable self sn src any_scope cl2 scl ls)
  /\ (forall (nm : string) (entries : list (string * Var)) (p : Dict)
             (sn : option string) (src : option Var) (cl : option Var)
             (scl ls : bool) (sname : string),
        checked_name sn src = inr sname ->
        dict_get entries sname = None ->
        find_variable (mkDict ConstituentVarDict nm entries (Some p))
                      sn src true cl scl ls
        = match find_variable p (Some sname) src true None scl ls with
          | inl e => inl e
          | inr (Some var, p') =>
              inr (Some var, mkDict ConstituentVarDict nm entries (Some p'))
          | inr (None, p') =>
              match src with
              | Some sv =>
                  if is_constituent sv
                  then inr (Some (clone sv (newdims (get_dimensions sv)) true
                                        "suite"),
                            mkDict ConstituentVarDict nm
                              (add_variable entries
                                 (clone sv (newdims (get_dimensions sv)) true
                                        "suite"))
                              (Some p'))
                  else inr (None,
                            mkDict ConstituentVarDict nm entries (Some p'))
              | None =>
                  inr (None, mkDict ConstituentVarDict nm entries (Some p'))
              end
          end).
Proof.
  split.
  - intros self sn src any_scope cl1 cl2 scl ls.
    destruct self as [c n e parent]. reflexivity.
  - intros nm entries p sn src cl scl ls sname Hname Habsent.
    simpl. rewrite Hname, Habsent.
    destruct (find_variable p (Some sname) src true None scl ls)
      as [e|[[var|] p']]; reflexivity.
Qed.

(* ===================================================================== *)
(** * What the generators write *)
(* ===================================================================== *)

Lemma for_each_pure {A : Type} (body : A -> Writes) (g : A -> list Line) :
  (forall x, body x = (g x, None)) ->
  forall xs, for_each xs body = (flat_map g xs, None).
Proof.
  intros Hbody xs. induction xs as [|x rest IH]; simpl.
  - reflexivity.
  - now rewrite Hbody, IH.
Qed.

Lemma indent_two (indent : nat) : indent + 2 = S (indent + 1).
Proof. lia. Qed.

Section SuiteRoutines.

Variable write_def : Var -> nat -> Dict -> bool -> option string -> list Line.
Variables (self : Dict) (indent : nat) (suite_name : string).
Variable err_vars : list Var.

Lemma write_constituent_routines_complete :
  Layout.use_errflg err_vars = true ->
  write_constituent_routines write_def self indent suite_name err_vars
  = (Layout.init_routine write_def self indent err_vars
     ++ [("", 0); (rule, 1)]
     ++ Layout.count_routine write_def self indent err_vars
     ++ [(rule, 1)]
     ++ Layout.name_routine write_def self indent suite_name err_vars
     ++ [(rule, 1)]
     ++ Layout.copy_routine write_def self indent suite_name err_vars,
     None).
Proof.
  intros Huse.
  unfold write_constituent_routines.
  fold (Layout.errvar_names err_vars).
  fold (Layout.use_errflg err_vars). rewrite Huse.
  fold (Layout.errvar_alist err_vars). fold (Layout.errvar_call err_vars).
  fold (Layout.errvar_alist2 err_vars). fold (Layout.errvar_call2 err_vars).
  unfold _write_init_check, _write_index_check.
  rewrite !(for_each_pure
              (fun evar => var_write_def write_def evar (indent+1) self true None)
              (fun evar => write_def evar (indent+1) self true None)
              (fun _ => eq_refl)).
  rewrite (for_each_pure _
             (fun entry =>
                [ ("index = index + 1", indent+1);
                  (Layout.initialize_call (fst entry)
                     (vertical_dim_of (snd entry))
                     (TF_string (advected (snd entry))) err_vars, indent+1) ])
             (fun _ => eq_refl)).
  unfold Layout.init_routine, Layout.count_routine, Layout.name_routine,
    Layout.name_routine_head, Layout.copy_routine, Layout.dummy_defs,
    Reading.indexed_body, Fortran.render_block.
  rewrite !indent_two.
  destruct (nonempty self); cbn;
    repeat (rewrite <- ?app_assoc; cbn); reflexivity.
Qed.

Lemma write_constituent_routines_unsupported :
  Layout.use_errflg err_vars = false ->
  write_constituent_routines write_def self indent suite_name err_vars
  = (Layout.init_routine write_def self indent err_vars
     ++ [("", 0); (rule, 1)]
     ++ Layout.count_routine write_def self indent err_vars
     ++ [(rule, 1)]
     ++ Layout.name_routine_head write_def self indent err_vars,
     Some (ParseInternalError "Alternative to errflg not implemented")).
Proof.
  intros Huse.
  unfold write_constituent_routines.
  fold (Layout.errvar_names err_vars).
  fold (Layout.use_errflg err_vars). rewrite Huse.
  fold (Layout.errvar_alist err_vars). fold (Layout.errvar_call err_vars).
  fold (Layout.errvar_alist2 err_vars). fold (Layout.errvar_call2 err_vars).
  unfold _write_init_check, _write_index_check.
  rewrite !(for_each_pure
              (fun evar => var_write_def write_def evar (indent+1) self true None)
              (fun evar => write_def evar (indent+1) self true None)
              (fun _ => eq_refl)).
  rewrite (for_each_pure _
             (fun entry =>
                [ ("index = index + 1", indent+1);
                  (Layout.initialize_call (fst entry)
                     (vertical_dim_of (snd entry))
                     (TF_string (advected (snd entry))) err_vars, indent+1) ])
             (fun _ => eq_refl)).
  unfold Layout.init_routine, Layout.count_routine,
    Layout.name_routine_head, Layout.dummy_defs, Fortran.render_block.
  rewrite !indent_two.
  destruct (nonempty self); cbn;
    repeat (rewrite <- ?app_assoc; cbn); reflexivity.
Qed.

(** Whatever the error variables, the init routine and the count function
    are written first, in this order. *)
Lemma write_constituent_routines_starts :
  exists rest,
    written (write_constituent_routines write_def self indent suite_name
                                        err_vars)
    = Layout.init_routine write_def self indent err_vars
      ++ [("", 0); (rule, 1)]
      ++ Layout.count_routine write_def self indent err_vars
      ++ rest.
Proof.
  destruct (Layout.use_errflg err_vars) eqn:Huse.
  - rewrite (write_constituent_routines_complete Huse). simpl.
    eexists. reflexivity.
  - rewrite (write_constituent_routines_unsupported Huse). simpl.
    eexists. reflexivity.
Qed.

End SuiteRoutines.

Lemma mem_In (x : string) (names : list string) :
  PyStr.mem x names = true <-> In x names.
Proof.
  unfold PyStr.mem. rewrite existsb_exists. split.
  - intros (y & Hin & Heq). apply String.eqb_eq in Heq. now subst.
  - intros Hin. exists x. split; [assumption|apply String.eqb_refl].
Qed.

(** C2, as stated, fails twice.  With errflg as the only error variable the
    generator raises only after it has written the init routine, the count
    function and the head of the name routine: 27 lines here.  And with the
    two names and a third the generator does not raise at all. *)
Lemma C2_counterexample_partial_output :
  raised (write_constituent_routines Sample.write_def Sample.dry_consts 1
            "dry_suite" [Sample.errflg])
  = Some (ParseInternalError "Alternative to errflg not implemented")
  /\ length (written (write_constituent_routines Sample.write_def
                       Sample.dry_consts 1 "dry_suite" [Sample.errflg])) = 27
  /\ hd_error (written (write_constituent_routines Sample.write_def
                         Sample.dry_consts 1 "dry_suite" [Sample.errflg]))
     = Some ("subroutine ccpp_create_constituent_array(errflg)", 1)
  /\ raised (write_constituent_routines Sample.write_def Sample.dry_consts 1
               "dry_suite" [Sample.errflg; Sample.errmsg; Sample.ierr])
     = None.
Proof.
  repeat split; vm_compute; reflexivity.
Qed.

(** C2, amended.  When the local names of the error variables do not
    include both errflg and errmsg, the generator raises ParseInternalError
    with the message "Alternative to errflg not implemented"; it does so in
    the init check of the name routine, when the init routine, the count
    function and the head of the name routine are written, so the output is
    never empty.  When both names are there, with or without others, it
    raises nothing and writes the four routines. *)
Theorem C2_unsupported_convention_raises_late :
  forall (write_def : Var -> nat -> Dict -> bool -> option string -> list Line)
         (self : Dict) (indent : nat) (suite_name : string)
         (err_vars : list Var),
    let names := map local_name err_vars in
    let run :=
      write_constituent_routines write_def self indent suite_name err_vars in
    (~ (In "errflg" names /\ In "errmsg" names) ->
       raised run
       = Some (ParseInternalError "Alternative to errflg not implemented")
       /\ written run
          = Layout.init_routine write_def self indent err_vars
            ++ [("", 0); (rule, 1)]
            ++ Layout.count_routine write_def self indent err_vars
            ++ [(rule, 1)]
            ++ Layout.name_routine_head write_def self indent err_vars
       /\ written run <> [])
    /\ (In "errflg" names /\ In "errmsg" names ->
        raised run = None
        /\ written run
           = Layout.init_routine write_def self indent err_vars
             ++ [("", 0); (rule, 1)]
             ++ Layout.count_routine write_def self indent err_vars
             ++ [(rule, 1)]
             ++ Layout.name_routine write_def self indent suite_name err_vars
             ++ [(rule, 1)]
             ++ Layout.copy_routine write_def self indent suite_name err_vars).
Proof.
  intros write_def self indent suite_name err_vars names run.
  assert (Huse : Layout.use_errflg err_vars = true
                 <-> In "errflg" names /\ In "errmsg" names).
  { unfold Layout.use_errflg, Layout.errvar_names.
    rewrite andb_true_iff, !mem_In. reflexivity. }
  split.
  - intros Hnot.
    assert (Hfalse : Layout.use_errflg err_vars = false).
    { destruct (Layout.use_errflg err_vars); [|reflexivity].
      exfalso. apply Hnot, Huse. reflexivity. }
    unfold run.
    rewrite (write_constituent_routines_unsupported
               write_def self indent suite_name err_vars Hfalse).
    simpl. repeat split. discriminate.
  - intros Hboth. apply Huse in Hboth. unfold run.
    rewrite (write_constituent_routines_complete
               write_def self indent suite_name err_vars Hboth).
    split; reflexivity.
Qed.

(** C2 amended, at samples: a lone status variable, and the supported
    pair. *)
Lemma C2_unsupported_convention_raises_late_witness :
  raised (write_constituent_routines Sample.write_def Sample.cld_consts 1
            "cld_suite" [Sample.ierr])
  = Some (ParseInternalError "Alternative to errflg not implemented")
  /\ raised (write_constituent_routines Sample.write_def Sample.cld_consts 1
               "cld_suite" [Sample.errflg; Sample.errmsg])
     = None.
Proof.
  split.
  - apply (proj1 (C2_unsupported_convention_raises_late
                    Sample.write_def Sample.cld_consts 1 "cld_suite"
                    [Sample.ierr])).
    simpl. intros [[H|[]] _]. discriminate H.
  - apply (proj2 (C2_unsupported_convention_raises_late
                    Sample.write_def Sample.cld_consts 1 "cld_suite"
                    [Sample.errflg; Sample.errmsg])).
    simpl. split; [left|right; left]; reflexivity.
Defined.

(** C5, as stated, fails: for a constituent on layers the constructor is
    called with the name of the dimension, "vertical_layer_dimension", as
    its second argument, and no line of the output passes "layer". *)
Lemma C5_counterexample_vertical_tag :
  In (Layout.initialize_call "cloud_liquid_water_mixing_ratio"
        "vertical_layer_dimension" ".true." [Sample.errflg; Sample.errmsg], 2)
     (written (write_constituent_routines Sample.write_def Sample.cld_consts 1
                 "cld_suite" [Sample.errflg; Sample.errmsg]))
  /\ existsb
       (fun line =>
          String.eqb (fst line)
            (Layout.initialize_call "cloud_liquid_water_mixing_ratio"
               "layer" ".true." [Sample.errflg; Sample.errmsg]))
       (written (write_constituent_routines Sample.write_def Sample.cld_consts
                   1 "cld_suite" [Sample.errflg; Sample.errmsg]))
     = false
  /\ existsb
       (fun line =>
          PyStr.contains (PyStr.dq ++ "layer" ++ PyStr.dq) (fst line))
       (written (write_constituent_routines Sample.write_def Sample.cld_consts
                   1 "cld_suite" [Sample.errflg; Sample.errmsg]))
     = false.
Proof.
  split; [|split; vm_compute; reflexivity].
  vm_compute. do 11 right. left. reflexivity.
Qed.

(** C5, amended.  The init routine is the first thing written.  After the
    declarations it holds, for every entry of the dictionary in order, an
    increment of the index and a call of the constructor with the standard
    name of the entry, a vertical dimension and the advected flag.  The
    vertical dimension is "vertical_layer_dimension" when that name is among
    the dimension names of the entry, else "vertical_interface_dimension"
    when that one is, else empty; the flag is .true. or .false. as the
    property is set or not. *)
Theorem C5_init_routine_constructor_calls :
  forall (write_def : Var -> nat -> Dict -> bool -> option string -> list Line)
         (self : Dict) (indent : nat) (suite_name : string)
         (err_vars : list Var),
    (exists rest,
       written (write_constituent_routines write_def self indent suite_name
                                           err_vars)
       = [ (("subroutine ccpp_create_constituent_array(" ++
             Layout.errvar_alist err_vars ++ ")")%string, indent);
           ("! Allocate and fill the constituent property array", indent+1);
           ("!    for this suite", indent+1);
           ("! Dummy arguments", indent+1) ]
         ++ flat_map (fun evar => write_def evar (indent+1) self true None)
                     err_vars
         ++ (if nonempty self then
               [ ("! Local variables", indent+1);
                 ("integer :: index", indent+1);
                 (("allocate(ccpp_constituent_array(" ++
                   PyStr.of_nat (length (items self)) ++ "))")%string,
                  indent+1);
                 ("index = 0", indent+1) ]
             else [])
         ++ flat_map
              (fun entry =>
                 [ ("index = index + 1", indent+1);
                   (("call ccpp_constituent_array(index)%initialize(" ++
                     PyStr.dq ++ fst entry ++ PyStr.dq ++ ", " ++
                     PyStr.dq ++ vertical_dim_of (snd entry) ++ PyStr.dq ++
                     ", " ++ TF_string (advected (snd entry)) ++
                     Layout.errvar_call2 err_vars ++ ")")%string, indent+1) ])
              (items self)
         ++ [ ("ccpp_constituents_initialized = .true.", indent+1);
              ("end subroutine ccpp_create_constituent_array", indent) ]
         ++ rest)
    /\ (forall var,
          let dims := get_dim_stdnames var in
          (In "vertical_layer_dimension" dims ->
           vertical_dim_of var = "vertical_layer_dimension")
          /\ (~ In "vertical_layer_dimension" dims ->
              In "vertical_interface_dimension" dims ->
              vertical_dim_of var = "vertical_interface_dimension")
          /\ (~ In "vertical_layer_dimension" dims ->
              ~ In "vertical_interface_dimension" dims ->
              vertical_dim_of var = ""))
    /\ TF_string true = ".true."
    /\ TF_string false = ".false.".
Proof.
  intros write_def self indent suite_name err_vars.
  split; [|split; [|split; reflexivity]].
  - destruct (write_constituent_routines_starts
                write_def self indent suite_name err_vars) as [rest ->].
    exists ([("", 0); (rule, 1)]
            ++ Layout.count_routine write_def self indent err_vars ++ rest).
    unfold Layout.init_routine, Layout.dummy_defs, Layout.initialize_call, len.
    generalize (Layout.count_routine write_def self indent err_vars).
    intros count. cbn. rewrite <- !app_assoc. reflexivity.
  - intros var dims. unfold vertical_dim_of. fold dims.
    destruct (PyStr.mem "vertical_layer_dimension" dims) eqn:Hlayer;
      destruct (PyStr.mem "vertical_interface_dimension" dims) eqn:Hface;
      rewrite ?mem_In in *;
      repeat split; intros; try reflexivity; try contradiction;
      try (apply mem_In in H; congruence);
      try (apply mem_In in H0; congruence).
Qed.

(** C9.  The count function is written right after the init routine.  Its
    first statement tests the flag ccpp_constituents_initialized and calls
    the init routine when the flag is false; the next one assigns to the
    function name the number of entries the dictionary had when the text was
    written.  Run on any state, the body calls the init routine first when
    the flag is false, calls nothing when it is true, and leaves that number
    as the result. *)
Theorem C9_count_routine_checks_then_returns_length :
  forall (write_def : Var -> nat -> Dict -> bool -> option string -> list Line)
         (self : Dict) (indent : nat) (suite_name : string)
         (err_vars : list Var),
    let fname := (name self ++ "_num_consts")%string in
    let init_call :=
      ("call ccpp_create_constituent_array(" ++ Layout.errvar_call err_vars ++
       ")")%string in
    (exists rest,
       written (write_constituent_routines write_def self indent suite_name
                                           err_vars)
       = Layout.init_routine write_def self indent err_vars
         ++ [("", 0); (rule, 1)]
         ++ [ (("integer function " ++ fname ++ "(" ++
                Layout.errvar_alist err_vars ++ ")")%string, indent);
              ("! Return the number of constituents for this suite", indent+1);
              ("! Dummy arguments", indent+1) ]
         ++ flat_map (fun evar => write_def evar (indent+1) self true None)
                     err_vars
         ++ [ ("! Make sure that our constituent array is initialized",
               indent+1);
              ("if (.not. ccpp_constituents_initialized) then", indent+1);
              (init_call, indent+2);
              ("end if", indent+1);
              ((fname ++ " = " ++ PyStr.of_nat (length (items self)))%string,
               indent+1);
              (("end function " ++ fname)%string, indent) ]
         ++ rest)
    /\ Fortran.render_block (indent+1)
         (Reading.count_body fname (Layout.errvar_call err_vars)
                             (length (items self)))
       = [ ("! Make sure that our constituent array is initialized", indent+1);
           ("if (.not. ccpp_constituents_initialized) then", indent+1);
           (init_call, indent+2);
           ("end if", indent+1);
           ((fname ++ " = " ++ PyStr.of_nat (length (items self)))%string,
            indent+1) ]
    /\ (forall (extern : string -> Fortran.State -> Fortran.State)
               (st : Fortran.State),
          Fortran.run_body extern
            (Reading.count_body fname (Layout.errvar_call err_vars)
                                (length (items self))) st
          = Fortran.set_int fname (Z.of_nat (length (items self)))
              (if Fortran.flags st "ccpp_constituents_initialized" then st
               else extern init_call (Fortran.log init_call st))).
Proof.
  intros write_def self indent suite_name err_vars fname init_call.
  split; [|split].
  - destruct (write_constituent_routines_starts
                write_def self indent suite_name err_vars) as [rest ->].
    exists rest.
    unfold Layout.count_routine, Layout.dummy_defs, Fortran.render_block,
      num_consts_funcname, len.
    generalize (Layout.init_routine write_def self indent err_vars).
    intros init. rewrite !indent_two. cbn.
    repeat (rewrite <- ?app_assoc; cbn). reflexivity.
  - rewrite indent_two. reflexivity.
  - intros extern st.
    unfold Fortran.run_body, Reading.count_body, constituent_prop_init_name,
      constituent_prop_init_consts.
    cbn.
    destruct (Fortran.flags st "ccpp_constituents_initialized"); reflexivity.
Qed.

(* ===================================================================== *)
(** * The guards of the name and copy routines *)
(* ===================================================================== *)

(** The index check does not read the name of the suite. *)
Lemma write_index_check_ignores_suite_name :
  forall (self : Dict) (indent : nat) (suite1 suite2 : string)
         (names : list string) (use_errflg : bool),
    _write_index_check self indent suite1 names use_errflg
    = _write_index_check self indent suite2 names use_errflg.
Proof. reflexivity. Qed.

(** For a dictionary without entries the body of both routines ends with
    errflg set to 1, whatever the state it starts from. *)
Lemma no_constituents_sets_errflg :
  forall (extern : string -> Fortran.State -> Fortran.State)
         (suite_name : string) (access : Fortran.stmt) (st : Fortran.State),
    Fortran.ints
      (Fortran.run_body extern (Reading.indexed_body false suite_name access) st)
      "errflg" = 1%Z.
Proof.
  intros extern suite_name access st.
  unfold Fortran.run_body, Reading.indexed_body, Reading.init_check,
    Reading.no_constituents.
  cbn. destruct (Fortran.flags st constituent_prop_init_name); reflexivity.
Qed.

(** For a dictionary with entries the statement that reads the array is the
    last one of the body and is at the level of the guards: it runs from
    every state, with errflg at 1 when a guard has fired. *)
Lemma access_runs_after_failed_guards :
  forall (extern : string -> Fortran.State -> Fortran.State)
         (suite_name text : string) (st : Fortran.State),
  exists st',
    Fortran.exec_block extern
      (Reading.indexed_body true suite_name (Fortran.Call text)) st
    = (extern text (Fortran.log text st'), false)
    /\ ((Fortran.ints st "index" < 1)%Z -> Fortran.ints st' "errflg" = 1%Z)
    /\ ((Fortran.ints st "index" > Fortran.sizes st "ccpp_constituent_array")%Z
        -> Fortran.ints st' "errflg" = 1%Z)
    /\ (Fortran.flags st "ccpp_constituents_initialized" = false ->
        (1 <= Fortran.ints st "index"
         <= Fortran.sizes st "ccpp_constituent_array")%Z ->
        Fortran.ints st' "errflg" = 1%Z)
    /\ (Fortran.flags st "ccpp_constituents_initialized" = true ->
        (1 <= Fortran.ints st "index"
         <= Fortran.sizes st "ccpp_constituent_array")%Z ->
        Fortran.ints st' "errflg" = 0%Z).
Proof.
  intros extern suite_name text st.
  unfold Reading.indexed_body, Reading.init_check, Reading.index_check,
    constituent_prop_init_name, constituent_prop_array_name.
  cbn.
  destruct (Fortran.flags st "ccpp_constituents_initialized");
    cbn;
    destruct (Z.ltb_spec (Fortran.ints st "index") 1);
    cbn;
    try destruct (Z.gtb_spec (Fortran.ints st "index")
                    (Fortran.sizes st "ccpp_constituent_array"));
    cbn;
    (eexists; split; [reflexivity|]);
    cbn; repeat split; intros; try reflexivity; try lia; try discriminate.
Qed.

(** C3, evaluated on a suite without constituents.  For every empty
    dictionary the index check is the unconditional pair "errflg = 1" and a
    message, and errflg is 1 at the end of the name and copy routines
    whatever the index.  But the message is written with its placeholder:
    the text carries "{}" where the name of the suite was to go, so for the
    suite "dry_suite" neither of the two messages names it. *)
Theorem C3_no_constituents_message_keeps_placeholder :
  (forall (nm : string) (parent : option Dict) (indent : nat)
          (suite_name : string) (names : list string),
     _write_index_check (mkDict ConstituentVarDict nm [] parent) indent
                        suite_name names true
     = ([ ("errflg = 1", indent+1);
          ("write(errmsg, '(a,i0,a)') 'ERROR: suite, {}, has no constituents'",
           indent+1) ], None))
  /\ (forall (extern : string -> Fortran.State -> Fortran.State)
             (suite_name : string) (access : Fortran.stmt)
             (st : Fortran.State),
        Fortran.ints
          (Fortran.run_body extern
             (Reading.indexed_body false suite_name access) st) "errflg"
        = 1%Z)
  /\ filter (fun line => PyStr.contains "has no constituents" (fst line))
       (written (write_constituent_routines Sample.write_def Sample.dry_consts
                   1 "dry_suite" [Sample.errflg; Sample.errmsg]))
     = [ ("write(errmsg, '(a,i0,a)') 'ERROR: suite, {}, has no constituents'",
          2);
         ("write(errmsg, '(a,i0,a)') 'ERROR: suite, {}, has no constituents'",
          2) ]
  /\ PyStr.contains "dry_suite"
       "write(errmsg, '(a,i0,a)') 'ERROR: suite, {}, has no constituents'"
     = false.
Proof.
  split; [|split; [|split]].
  - reflexivity.
  - exact no_constituents_sets_errflg.
  - vm_compute. reflexivity.
  - vm_compute. reflexivity.
Qed.

(** C4, evaluated on a suite with two constituents.  The name routine is
    written with the two guards in order, the check of the initialized flag
    and then the check of the index against SIZE of the array, and the call
    that reads the stored name follows the last "end if" at the level of the
    guards.  Asked for entry 0, the routine sets errflg to 1, writes the
    "too small" message and then makes the call all the same; asked for
    entry 1 it makes the call with errflg at 0. *)
Theorem C4_name_routine_reads_after_failed_guard :
  (exists before after,
     written (write_constituent_routines Sample.write_def Sample.cld_consts 1
                "cld_suite" [Sample.errflg; Sample.errmsg])
     = before
       ++ [ ("subroutine cld_const_name(index, name_out, errflg, errmsg)", 1);
            ("! Return the name of constituent, <index>", 2);
            ("! Dummy arguments", 2);
            ("integer,            intent(in)    :: index", 2);
            ("character(len=*),   intent(out)   :: name_out", 2);
            ("host variable :: errflg", 2);
            ("host variable :: errmsg", 2);
            ("", 0) ]
       ++ Fortran.render_block 2
            (Reading.indexed_body true "cld_suite"
               (Reading.read_name ", errflg=errflg, errmsg=errmsg"))
       ++ [ ("end subroutine cld_const_name", 1) ]
       ++ after)
  /\ Fortran.render_block 2
       (Reading.indexed_body true "cld_suite"
          (Reading.read_name ", errflg=errflg, errmsg=errmsg"))
     = [ ("errflg = 0", 2);
         ("errmsg = ''", 2);
         ("! Make sure that our constituent array is initialized", 2);
         ("if (.not. ccpp_constituents_initialized) then", 2);
         ("errflg = 1", 3);
         (("errmsg = " ++ PyStr.dq ++
           "constituent properties not initialized for suite, cld_suite" ++
           PyStr.dq)%string, 3);
         ("end if", 2);
         ("if (index < 1) then", 2);
         ("errflg = 1", 3);
         ("write(errmsg, '(a,i0,a)') 'ERROR: index (',index,') too small, must be >= 1'",
          3);
         ("else if (index > SIZE(ccpp_constituent_array)) then", 2);
         ("errflg = 1", 3);
         ("write(errmsg, '(2(a,i0))') 'ERROR: index (',index,') too large, must be <= ', SIZE(ccpp_constituent_array)",
          3);
         ("end if", 2);
         ("call ccpp_constituent_array(index)%standard_name(name_out, errflg=errflg, errmsg=errmsg)",
          2) ]
  /\ Fortran.trace
       (Fortran.run_body Sample.quiet
          (Reading.indexed_body true "cld_suite"
             (Reading.read_name ", errflg=errflg, errmsg=errmsg"))
          (Sample.asked_for 0))
     = [ "errmsg = ''";
         "write(errmsg, '(a,i0,a)') 'ERROR: index (',index,') too small, must be >= 1'";
         "call ccpp_constituent_array(index)%standard_name(name_out, errflg=errflg, errmsg=errmsg)" ]
  /\ Fortran.ints
       (Fortran.run_body Sample.quiet
          (Reading.indexed_body true "cld_suite"
             (Reading.read_name ", errflg=errflg, errmsg=errmsg"))
          (Sample.asked_for 0)) "errflg"
     = 1%Z
  /\ Fortran.trace
       (Fortran.run_body Sample.quiet
          (Reading.indexed_body true "cld_suite"
             (Reading.read_name ", errflg=errflg, errmsg=errmsg"))
          (Sample.asked_for 1))
     = [ "errmsg = ''";
         "call ccpp_constituent_array(index)%standard_name(name_out, errflg=errflg, errmsg=errmsg)" ]
  /\ Fortran.ints
       (Fortran.run_body Sample.quiet
          (Reading.indexed_body true "cld_suite"
             (Reading.read_name ", errflg=errflg, errmsg=errmsg"))
          (Sample.asked_for 1)) "errflg"
     = 0%Z.
Proof.
  split; [|repeat split; vm_compute; reflexivity].
  rewrite (write_constituent_routines_complete
             Sample.write_def Sample.cld_consts 1 "cld_suite"
             [Sample.errflg; Sample.errmsg] eq_refl).
  exists (Layout.init_routine Sample.write_def Sample.cld_consts 1
            [Sample.errflg; Sample.errmsg]
          ++ [("", 0); (rule, 1)]
          ++ Layout.count_routine Sample.write_def Sample.cld_consts 1
               [Sample.errflg; Sample.errmsg]
          ++ [(rule, 1)]).
  exists ([(rule, 1)]
          ++ Layout.copy_routine Sample.write_def Sample.cld_consts 1
               "cld_suite" [Sample.errflg; Sample.errmsg]).
  vm_compute. reflexivity.
Qed.

(* ===================================================================== *)
(** * The host registration routine *)
(* ===================================================================== *)

Lemma holds_block_here (block rest : list Line) :
  holds_block block (block ++ rest).
Proof. exists [], rest. reflexivity. Qed.

Lemma holds_block_cons (block l : list Line) (x : Line) :
  holds_block block l -> holds_block block (x :: l).
Proof. intros (mid & rest & ->). exists (x :: mid), rest. reflexivity. Qed.

Lemma holds_block_app (block l front : list Line) :
  holds_block block l -> holds_block block (front ++ l).
Proof.
  intros (mid & rest & ->). exists (front ++ mid), rest.
  now rewrite app_assoc.
Qed.

Lemma exec_DoSize (extern : string -> Fortran.State -> Fortran.State)
    (x arr : string) (body : list Fortran.stmt) (st : Fortran.State) :
  Fortran.exec extern (Fortran.DoSize x arr body) st
  = (Fortran.do_loop extern x body (Z.to_nat (Fortran.sizes st arr)) 1 st,
     false).
Proof. reflexivity. Qed.

Section HostRoutines.

Variable write_def : Var -> nat -> Dict -> bool -> option string -> list Line.
Variable host : Dict.
Variables reg_funcname num_const_funcname copy_in_funcname copy_out_funcname
          const_obj_name const_names_name const_indices_name : string.
Variables (suite_list : list Suite) (err_vars : list Var).

(** With at least one suite nothing is raised, and the registration routine
    ends with the loop over the required names. *)
Lemma write_host_routines_index_loop :
  suite_list <> [] ->
  raised (write_host_routines write_def host reg_funcname num_const_funcname
            copy_in_funcname copy_out_funcname const_obj_name const_names_name
            const_indices_name suite_list err_vars) = None
  /\ exists mid rest,
       written (write_host_routines write_def host reg_funcname
                  num_const_funcname copy_in_funcname copy_out_funcname
                  const_obj_name const_names_name const_indices_name
                  suite_list err_vars)
       = (("subroutine " ++ reg_funcname ++
           "(suite_list, ncols, num_layers, num_interfaces, " ++
           PyStr.join ", " (map local_name err_vars) ++ ")")%string, 1)
         :: mid
         ++ (Fortran.render 2
               (Reading.index_loop const_obj_name const_names_name
                                   const_indices_name)
             ++ [ (("end subroutine " ++ reg_funcname)%string, 1) ])
         ++ rest.
Proof.
  intros Hne. destruct suite_list as [|suite suites]; [congruence|].
  unfold write_host_routines, write_constituent_use_statements.
  erewrite !for_each_pure by (intros; cbn; reflexivity).
  generalize (suite :: suites). intros all.
  split; [reflexivity|].
  remember (Fortran.render 2
              (Reading.index_loop const_obj_name const_names_name
                                  const_indices_name)
            ++ [ (("end subroutine " ++ reg_funcname)%string, 1) ])
    as blk eqn:Hblk.
  cbn.
  match goal with
  | |- exists mid rest, _ :: ?l = _ :: mid ++ blk ++ rest =>
      cut (holds_block blk l);
      [ intros (mid & rest & ->); exists mid, rest; reflexivity | ]
  end.
  subst blk. cbn.
  repeat first [ (exists []; eexists; reflexivity)
               | apply holds_block_cons
               | apply holds_block_app ].
Qed.

(** Without a suite the use statements cannot be laid out: [max] of an
    empty list raises, three lines into the registration routine. *)
Lemma write_host_routines_no_suite :
  suite_list = [] ->
  raised (write_host_routines write_def host reg_funcname num_const_funcname
            copy_in_funcname copy_out_funcname const_obj_name const_names_name
            const_indices_name suite_list err_vars)
  = Some (ValueError "max() arg is an empty sequence").
Proof. intros ->. reflexivity. Qed.

End HostRoutines.

Section IndexLoop.

Variables const_obj_name const_names_name const_indices_name : string.
Variable field_of : Z -> Z.

Let lookup : string := Reading.lookup_field const_obj_name const_names_name.
Let message : string := Reading.no_field_message const_names_name.
Let body : list Fortran.stmt :=
  Reading.index_loop_body const_obj_name const_names_name const_indices_name.
Let reg : string -> Fortran.State -> Fortran.State :=
  Reading.registry lookup field_of.

(** One pass through the body of the loop. *)
Lemma index_loop_body_step (st : Fortran.State) :
  let i := Fortran.ints st "index" in
  let looked := Fortran.set_int "field_ind" (field_of i) (Fortran.log lookup st) in
  Fortran.exec_block reg body st
  = if Z.gtb (field_of i) 0
    then (Fortran.set_elem const_indices_name i (field_of i) looked,
          negb (Z.eqb (Fortran.ints st "errflg") 0))
    else (Fortran.log message (Fortran.set_int "errflg" 1 looked), true).
Proof.
  unfold body, reg, Reading.index_loop_body, Reading.registry.
  fold lookup. fold message.
  generalize lookup as text. generalize message as msg. intros msg text.
  cbn. rewrite String.eqb_refl. cbn.
  destruct (Z.gtb (field_of (Fortran.ints st "index")) 0); cbn.
  - destruct (Z.eqb (Fortran.ints st "errflg") 0); reflexivity.
  - reflexivity.
Qed.

Lemma first_missing_bounds (count : nat) (i : Z) :
  (i <= Reading.first_missing field_of count i <= i + Z.of_nat count)%Z.
Proof.
  revert i. induction count as [|count IH]; intros i; simpl Reading.first_missing.
  - lia.
  - destruct (Z.gtb (field_of i) 0); [specialize (IH (i + 1)%Z)|]; lia.
Qed.

(** [first_missing] is the first position whose name is not held. *)
Lemma first_missing_spec (count : nat) (i : Z) :
  let k := Reading.first_missing field_of count i in
  (forall j, (i <= j < k)%Z -> (field_of j > 0)%Z)
  /\ ((k < i + Z.of_nat count)%Z -> (field_of k <= 0)%Z).
Proof.
  revert i. induction count as [|count IH]; intros i; simpl.
  - split; intros; lia.
  - destruct (Z.gtb_spec (field_of i) 0) as [Hpos|Hneg].
    + destruct (IH (i + 1)%Z) as [Hfound Hmiss].
      split.
      * intros j Hj. destruct (Z.eq_dec j i) as [->|Hne]; [lia|].
        apply Hfound. lia.
      * intros Hk. apply Hmiss. lia.
    + split; intros; lia.
Qed.

(** The loop, from position [i] with [count] positions to go and no error
    so far. *)
Lemma index_loop_runs (count : nat) :
  forall (i : Z) (st : Fortran.State),
    Fortran.ints st "errflg" = 0%Z ->
    let st' := Fortran.do_loop reg "index" body count i st in
    let k := Reading.first_missing field_of count i in
    Fortran.ints st' "index" = k
    /\ Fortran.ints st' "errflg"
       = (if Z.ltb k (i + Z.of_nat count) then 1 else 0)%Z
    /\ (forall a j,
          Fortran.elems st' a j
          = if String.eqb a const_indices_name && Z.leb i j && Z.ltb j k
            then field_of j else Fortran.elems st a j)
    /\ ((k < i + Z.of_nat count)%Z ->
        exists before, Fortran.trace st' = before ++ [message]).
Proof.
  induction count as [|count IH]; intros i st Herr.
  - cbv zeta. simpl Reading.first_missing.
    change (Fortran.do_loop reg "index" body 0 i st)
      with (Fortran.set_int "index" i st).
    split; [reflexivity|]. split; [|split].
    + change (Fortran.ints (Fortran.set_int "index" i st) "errflg")
        with (Fortran.ints st "errflg").
      rewrite Herr.
      destruct (Z.ltb_spec i (i + Z.of_nat 0)); [lia|reflexivity].
    + intros a j. simpl Fortran.elems.
      destruct (String.eqb a const_indices_name); simpl; [|reflexivity].
      destruct (Z.leb_spec i j), (Z.ltb_spec j i); simpl; try reflexivity; lia.
    + intros H. lia.
  - cbv zeta. simpl Reading.first_missing.
    change (Fortran.do_loop reg "index" body (S count) i st)
      with (let (st1, leaving) :=
              Fortran.exec_block reg body (Fortran.set_int "index" i st) in
            if leaving then st1
            else Fortran.do_loop reg "index" body count (i + 1)%Z st1).
    rewrite index_loop_body_step.
    change (Fortran.ints (Fortran.set_int "index" i st) "index") with i.
    change (Fortran.ints (Fortran.set_int "index" i st) "errflg")
      with (Fortran.ints st "errflg").
    rewrite Herr. simpl negb.
    destruct (Z.gtb_spec (field_of i) 0) as [Hpos|Hneg].
    + pose proof (first_missing_bounds count (i + 1)) as Hk.
      set (st1 := Fortran.set_elem const_indices_name i (field_of i) _).
      destruct (IH (i + 1)%Z st1 Herr) as (Hindex & Herrflg & Helems & Htrace).
      repeat split.
      * exact Hindex.
      * rewrite Herrflg.
        replace (i + 1 + Z.of_nat count)%Z with (i + Z.of_nat (S count))%Z
          by lia.
        reflexivity.
      * intros a j. rewrite Helems. unfold st1. simpl Fortran.elems.
        destruct (String.eqb a const_indices_name); simpl; [|reflexivity].
        destruct (Z.eqb_spec j i) as [->|Hne].
        -- destruct (Z.leb_spec (i + 1) i), (Z.leb_spec i i),
             (Z.ltb_spec i (Reading.first_missing field_of count (i + 1)));
             simpl; try reflexivity; lia.
        -- destruct (Z.leb_spec (i + 1) j), (Z.leb_spec i j),
             (Z.ltb_spec j (Reading.first_missing field_of count (i + 1)));
             simpl; try reflexivity; lia.
      * intros H. apply Htrace. lia.
    + repeat split.
      * destruct (Z.ltb_spec i (i + Z.of_nat (S count))); [reflexivity|lia].
      * intros a j. simpl Fortran.elems.
        destruct (String.eqb a const_indices_name); simpl; [|reflexivity].
        destruct (Z.leb_spec i j), (Z.ltb_spec j i); simpl;
          try reflexivity; lia.
      * intros _. eexists. reflexivity.
Qed.

End IndexLoop.

(** C8, amended.  With at least one suite, the registration routine is written
    without error and ends with a loop over the positions of the index
    array.  Each pass looks up the field index of the name at that position;
    a result above zero is stored at the same position of the index array;
    otherwise errflg is set to 1 and errmsg to 'No field index for '
    followed by the name; and the loop is left as soon as errflg is not
    zero.  Run with no error pending on a registry that answers the lookups
    and reports no error of its own, the loop stores the field index of every
    name before the first one the registry does not hold; at that one it
    stops with errflg at 1 and that message, and the positions from there on
    keep what they held.  When every name is held errflg stays 0. *)
Theorem C8_registration_resolves_required_names :
  forall (write_def : Var -> nat -> Dict -> bool -> option string -> list Line)
         (host : Dict)
         (reg_funcname num_const_funcname copy_in_funcname copy_out_funcname
          const_obj_name const_names_name const_indices_name : string)
         (suite_list : list Suite) (err_vars : list Var),
    suite_list <> [] ->
    let run :=
      write_host_routines write_def host reg_funcname num_const_funcname
        copy_in_funcname copy_out_funcname const_obj_name const_names_name
        const_indices_name suite_list err_vars in
    let loop :=
      Reading.index_loop const_obj_name const_names_name const_indices_name in
    let message :=
      ("errmsg = 'No field index for '//trim(" ++ const_names_name ++
       "(index))")%string in
    raised run = None
    /\ (exists mid rest,
          written run
          = (("subroutine " ++ reg_funcname ++
              "(suite_list, ncols, num_layers, num_interfaces, " ++
              PyStr.join ", " (map local_name err_vars) ++ ")")%string, 1)
            :: mid
            ++ (Fortran.render 2 loop
                ++ [ (("end subroutine " ++ reg_funcname)%string, 1) ])
            ++ rest)
    /\ Fortran.render 2 loop
       = [ (("do index = 1, SIZE(" ++ const_indices_name ++ ")")%string, 2);
           (("field_ind = " ++ const_obj_name ++ "%field_index(" ++
             const_names_name ++ "(index), errflg=errflg, errmsg=errmsg)")%string,
            3);
           ("if (field_ind > 0) then", 3);
           ((const_indices_name ++ "(index) = field_ind")%string, 4);
           ("else", 3);
           ("errflg = 1", 4);
           (message, 4);
           ("end if", 3);
           ("if (errflg /= 0) then", 3);
           ("exit", 4);
           ("end if", 3);
           ("end do", 2) ]
    /\ (forall (field_of : Z -> Z) (st : Fortran.State) (n : nat),
          Fortran.sizes st const_indices_name = Z.of_nat n ->
          Fortran.ints st "errflg" = 0%Z ->
          let st' :=
            fst (Fortran.exec
                   (Reading.registry
                      (Reading.lookup_field const_obj_name const_names_name)
                      field_of)
                   loop st) in
          let k := Reading.first_missing field_of n 1 in
          (1 <= k <= Z.of_nat n + 1)%Z
          /\ (forall j, (1 <= j < k)%Z ->
                (field_of j > 0)%Z
                /\ Fortran.elems st' const_indices_name j = field_of j)
          /\ ((k <= Z.of_nat n)%Z ->
              (field_of k <= 0)%Z
              /\ Fortran.ints st' "errflg" = 1%Z
              /\ Fortran.ints st' "index" = k
              /\ (exists before, Fortran.trace st' = before ++ [message])
              /\ (forall j, (k <= j)%Z ->
                    Fortran.elems st' const_indices_name j
                    = Fortran.elems st const_indices_name j))
          /\ (k = (Z.of_nat n + 1)%Z -> Fortran.ints st' "errflg" = 0%Z)).
Proof.
  intros write_def host reg_funcname num_const_funcname copy_in_funcname
    copy_out_funcname const_obj_name const_names_name const_indices_name
    suite_list err_vars Hne run loop message.
  destruct (write_host_routines_index_loop
              write_def host reg_funcname num_const_funcname copy_in_funcname
              copy_out_funcname const_obj_name const_names_name
              const_indices_name suite_list err_vars Hne) as [Hraised Hwritten].
  split; [exact Hraised|]. split; [exact Hwritten|]. split; [reflexivity|].
  intros field_of st n Hsize Herr st' k.
  unfold st', loop, Reading.index_loop.
  rewrite exec_DoSize, Hsize, Nat2Z.id. cbn [fst].
  destruct (index_loop_runs const_obj_name const_names_name const_indices_name
              field_of n 1%Z st Herr)
    as (Hindex & Herrflg & Helems & Htrace).
  fold k in Hindex, Herrflg, Helems, Htrace.
  pose proof (first_missing_bounds field_of n 1) as Hk. fold k in Hk.
  destruct (first_missing_spec field_of n 1) as [Hfound Hmiss].
  fold k in Hfound, Hmiss.
  split; [lia|]. split; [|split].
  - intros j Hj. split; [now apply Hfound|].
    rewrite Helems, String.eqb_refl.
    destruct (Z.leb_spec 1 j), (Z.ltb_spec j k); simpl; try reflexivity; lia.
  - intros Hle. split; [apply Hmiss; lia|].
    split.
    { rewrite Herrflg. destruct (Z.ltb_spec k (1 + Z.of_nat n));
        [reflexivity|lia]. }
    split; [exact Hindex|].
    split; [apply Htrace; lia|].
    intros j Hj. rewrite Helems, String.eqb_refl.
    destruct (Z.leb_spec 1 j), (Z.ltb_spec j k); simpl; try reflexivity; lia.
  - intros Hall. rewrite Herrflg.
    destruct (Z.ltb_spec k (1 + Z.of_nat n)); [lia|reflexivity].
Qed.

(** C8, at a sample: two suites, three required names, the second of which
    the registry does not hold.  The first position is resolved, the loop
    stops at the second, and the third keeps the value it had. *)
Lemma C8_registration_resolves_required_names_witness :
  raised (write_host_routines Sample.write_def Sample.host "cld_register"
            "cld_num_consts" "cld_copy_in" "cld_copy_out" "cld_obj"
            "required_names" "required_indices"
            [Sample.cld_suite; Sample.dry_suite]
            [Sample.errflg; Sample.errmsg]) = None
  /\ Fortran.elems
       (fst (Fortran.exec
               (Reading.registry
                  (Reading.lookup_field "cld_obj" "required_names")
                  Sample.fields)
               (Reading.index_loop "cld_obj" "required_names"
                                   "required_indices")
               Sample.before_lookup))
       "required_indices" 1%Z = 4%Z
  /\ Fortran.ints
       (fst (Fortran.exec
               (Reading.registry
                  (Reading.lookup_field "cld_obj" "required_names")
                  Sample.fields)
               (Reading.index_loop "cld_obj" "required_names"
                                   "required_indices")
               Sample.before_lookup))
       "errflg" = 1%Z
  /\ Fortran.elems
       (fst (Fortran.exec
               (Reading.registry
                  (Reading.lookup_field "cld_obj" "required_names")
                  Sample.fields)
               (Reading.index_loop "cld_obj" "required_names"
                                   "required_indices")
               Sample.before_lookup))
       "required_indices" 3%Z = (-1)%Z.
Proof.
  assert (Hne : [Sample.cld_suite; Sample.dry_suite] <> []) by discriminate.
  destruct (C8_registration_resolves_required_names
              Sample.write_def Sample.host "cld_register" "cld_num_consts"
              "cld_copy_in" "cld_copy_out" "cld_obj" "required_names"
              "required_indices" [Sample.cld_suite; Sample.dry_suite]
              [Sample.errflg; Sample.errmsg] Hne)
    as (Hraised & _ & _ & Hloop).
  destruct (Hloop Sample.fields Sample.before_lookup 3 eq_refl eq_refl)
    as (_ & Hfound & Hmissing & _).
  split; [exact Hraised|].
  split; [exact (proj2 (Hfound 1%Z ltac:(vm_compute; split; [discriminate|reflexivity])))|].
  destruct (Hmissing ltac:(vm_compute; discriminate))
    as (_ & Herrflg & _ & _ & Hkept).
  split; [exact Herrflg|].
  exact (Hkept 3%Z ltac:(vm_compute; discriminate)).
Defined.

(* ===================================================================== *)
(** * Further properties of the resolution *)
(* ===================================================================== *)

Lemma split_colon_nonempty (s : string) : PyStr.split_colon s <> [].
Proof.
  destruct s as [|c rest]; simpl; [discriminate|].
  destruct (Ascii.eqb c ":"); [discriminate|].
  destruct (PyStr.split_colon rest); discriminate.
Qed.

(** Splitting a dimension on ':' and joining the pieces with ':' gives the
    dimension back, so a dimension none of whose names is one of the three
    loop names is left as it is by the substitution. *)
Theorem split_then_join_is_identity :
  (forall s : string, PyStr.join ":" (PyStr.split_colon s) = s)
  /\ (forall dims : list string,
        (forall dim tok,
           In dim dims -> In tok (PyStr.split_colon dim) ->
           new_dname tok = tok) ->
        newdims dims = dims).
Proof.
  assert (Hjoin : forall s, PyStr.join ":" (PyStr.split_colon s) = s).
  { induction s as [|c rest IH]; [reflexivity|].
    simpl PyStr.split_colon.
    destruct (Ascii.eqb_spec c ":") as [->|Hc].
    - pose proof (split_colon_nonempty rest) as Hne.
      simpl. destruct (PyStr.split_colon rest) as [|tok toks];
        [contradiction|].
      simpl in IH. simpl. now rewrite IH.
    - pose proof (split_colon_nonempty rest) as Hne.
      destruct (PyStr.split_colon rest) as [|tok toks]; [contradiction|].
      simpl in IH |- *. destruct toks as [|tok' toks'].
      + now rewrite <- IH.
      + simpl. now rewrite <- IH.
  }
  split; [exact Hjoin|].
  intros dims Hkeep. unfold newdims.
  rewrite <- (map_id dims) at 2. apply map_ext_in.
  intros dim Hdim.
  rewrite <- (Hjoin dim) at 2. f_equal.
  rewrite <- (map_id (PyStr.split_colon dim)) at 2. apply map_ext_in.
  intros tok Htok. now apply (Hkeep dim).
Qed.

(* ===================================================================== *)
(** * Resolution: frame, invariants and repeated calls *)
(* ===================================================================== *)

Lemma dict_get_None_iff entries key :
  dict_get entries key = None <-> ~ In key (map fst entries).
Proof.
  induction entries as [|[k w] rest IH]; simpl.
  - tauto.
  - destruct (String.eqb_spec k key) as [->|Hne].
    + split; [discriminate|]. intros H. exfalso. apply H. now left.
    + rewrite IH. split.
      * intros H [Heq|Hin]; [congruence|contradiction].
      * intros H Hin. apply H. now right.
Qed.

Lemma dict_get_dict_set_other entries key v k :
  k <> key -> dict_get (dict_set entries key v) k = dict_get entries k.
Proof.
  intros Hne. induction entries as [|[k0 w] rest IH]; simpl.
  - destruct (String.eqb_spec key k); [congruence|reflexivity].
  - destruct (String.eqb_spec k0 key) as [->|Hk0]; simpl.
    + destruct (String.eqb_spec key k); [congruence|reflexivity].
    + destruct (String.eqb k0 k); [reflexivity|exact IH].
Qed.

(** The shape of every answer: what the search above the called dictionary
    gave, and what the called dictionary did with it. *)
Lemma find_variable_cases :
  forall c n e parent sn src any_scope cl scl ls r d',
    find_variable (mkDict c n e parent) sn src any_scope cl scl ls
    = inr (r, d') ->
    exists sname,
      checked_name sn src = inr sname
      /\ ((exists v, dict_get e sname = Some v /\ r = Some v
                     /\ d' = mkDict c n e parent)
          \/ (dict_get e sname = None
              /\ exists var parent',
                   ((any_scope = true
                     /\ exists p p',
                          parent = Some p /\ parent' = Some p'
                          /\ find_variable p (Some sname) src true None scl ls
                             = inr (var, p'))
                    \/ ((any_scope = false \/ parent = None)
                        /\ var = None /\ parent' = parent))
                   /\ ((exists sv,
                          c = ConstituentVarDict /\ var = None
                          /\ src = Some sv /\ is_constituent sv = true
                          /\ r = Some (clone sv (newdims (get_dimensions sv))
                                             true constituent_type)
                          /\ d' = mkDict c n
                                    (e ++ [(sname,
                                            clone sv
                                              (newdims (get_dimensions sv))
                                              true constituent_type)])
                                    parent')
                       \/ (r = var /\ d' = mkDict c n e parent'
                           /\ (c = VarDictionary \/ var <> None \/ src = None
                               \/ exists sv, src = Some sv
                                             /\ is_constituent sv = false))))).
Proof.
  intros c n e parent sn src any_scope cl scl ls r d'. simpl.
  destruct (checked_name sn src) as [ex|sname] eqn:Hname; [discriminate|].
  intros H. exists sname. split; [reflexivity|].
  destruct (dict_get e sname) as [v|] eqn:Hget.
  { left. exists v. destruct c; injection H as <- <-; auto. }
  right. split; [reflexivity|].
  assert (Hstep : forall var parent',
            match c with
            | VarDictionary => inr (var, mkDict c n e parent')
            | ConstituentVarDict =>
                match var, src with
                | None, Some sv =>
                    if is_constituent sv
                    then inr (Some (clone sv (newdims (get_dimensions sv)) true
                                          constituent_type),
                              mkDict c n
                                (add_variable e
                                   (clone sv (newdims (get_dimensions sv)) true
                                          constituent_type)) parent')
                    else inr (None, mkDict c n e parent')
                | _, _ => inr (var, mkDict c n e parent')
                end
            end = (inr (r, d') : Exn + (option Var * Dict)) ->
            (exists sv,
               c = ConstituentVarDict /\ var = None
               /\ src = Some sv /\ is_constituent sv = true
               /\ r = Some (clone sv (newdims (get_dimensions sv))
                                  true constituent_type)
               /\ d' = mkDict c n
                         (e ++ [(sname,
                                 clone sv (newdims (get_dimensions sv))
                                       true constituent_type)])
                         parent')
            \/ (r = var /\ d' = mkDict c n e parent'
                /\ (c = VarDictionary \/ var <> None \/ src = None
                    \/ exists sv, src = Some sv /\ is_constituent sv = false))).
  { intros var parent' Hres. destruct c.
    - right. injection Hres as <- <-. auto.
    - destruct var as [v|].
      + right. injection Hres as <- <-.
        repeat split; auto. right. left. discriminate.
      + destruct src as [sv|].
        * destruct (is_constituent sv) eqn:Hc.
          -- left. exists sv. injection Hres as <- <-.
             repeat split; auto.
             unfold add_variable. simpl standard_name.
             rewrite <- (checked_name_keeps_source sn sv sname Hname).
             now rewrite (dict_set_absent e _ _ Hget).
          -- right. injection Hres as <- <-. repeat split; auto.
             right. right. right. now exists sv.
        * right. injection Hres as <- <-. repeat split; auto. }
  destruct any_scope.
  - destruct parent as [p|].
    + destruct (find_variable p (Some sname) src true None scl ls)
        as [ex|[var p']] eqn:Hfind; [discriminate|].
      exists var, (Some p'). split; [|now apply Hstep].
      left. split; [reflexivity|]. exists p, p'. auto.
    + exists None, None. split; [|now apply Hstep].
      right. auto.
  - exists None, parent. split; [|now apply Hstep].
    right. auto.
Qed.

(** A search that comes back empty has changed nothing. *)
Lemma find_variable_none_unchanged :
  forall d sn src any_scope cl scl ls d',
    find_variable d sn src any_scope cl scl ls = inr (None, d') -> d' = d.
Proof.
  induction d as [c n e|c n e p IH] using Dict_chain_ind;
    intros sn src any_scope cl scl ls d' H;
    apply find_variable_cases in H;
    destruct H as (sname & _ & [(v & _ & Hr & _)|(_ & var & parent' & Hup & Hhere)]);
    try discriminate.
  - destruct Hup as [(_ & p & p' & Hp & _)|(_ & -> & ->)]; [discriminate|].
    destruct Hhere as [(sv & _ & _ & _ & _ & Hr & _)|(_ & -> & _)];
      [discriminate|reflexivity].
  - destruct Hhere as [(sv & _ & _ & _ & _ & Hr & _)|(<- & -> & _)];
      [discriminate|].
    destruct Hup as [(_ & q & q' & Hq & -> & Hfind)|(_ & _ & ->)];
      [|reflexivity].
    injection Hq as <-. now rewrite (IH _ _ _ _ _ _ _ Hfind).
Qed.

(** A name that the lookup answers is returned as it is, and nothing is
    changed. *)
Lemma find_variable_found :
  forall d sn src any_scope cl scl ls sname v,
    checked_name sn src = inr sname ->
    lookup_from any_scope d sname = Some v ->
    find_variable d sn src any_scope cl scl ls = inr (Some v, d).
Proof.
  induction d as [c n e|c n e p IH] using Dict_chain_ind;
    intros sn src any_scope cl scl ls sname v Hname Hget;
    unfold lookup_from in Hget; simpl in Hget |- *; rewrite Hname;
    destruct (dict_get e sname) as [w|] eqn:He.
  - destruct any_scope; injection Hget as ->; destruct c; reflexivity.
  - destruct any_scope; discriminate.
  - destruct any_scope; injection Hget as ->; destruct c; reflexivity.
  - destruct any_scope; [|discriminate].
    rewrite (IH (Some sname) src true None scl ls sname v
               (checked_name_again sn src sname Hname) Hget).
    destruct c; reflexivity.
Qed.

(** Without a constituent source variable, find_variable is a lookup: it
    answers what the dictionary (with any_scope, the chain) holds under the
    name, None when that is nothing, and changes no dictionary. *)
Theorem find_variable_without_constituent_is_a_lookup :
  forall (d : Dict) (sn : option string) (src : option Var)
         (any_scope : bool) (cl : option Var) (scl ls : bool) (sname : string),
    checked_name sn src = inr sname ->
    src = None \/ (exists sv, src = Some sv /\ is_constituent sv = false) ->
    find_variable d sn src any_scope cl scl ls
    = inr (lookup_from any_scope d sname, d).
Proof.
  intros d sn src any_scope cl scl ls sname Hname Hsrc.
  destruct (lookup_from any_scope d sname) as [v|] eqn:Hlook.
  { now apply find_variable_found with (sname := sname). }
  revert sn any_scope cl Hname Hlook.
  induction d as [c n e|c n e p IH] using Dict_chain_ind;
    intros sn any_scope cl Hname Hlook;
    match goal with
    | |- find_variable ?D _ _ _ _ _ _ = _ =>
        destruct (find_variable_returns D sn src any_scope cl
                    scl ls sname Hname) as (r & d' & Hfind)
    end;
    rewrite Hfind;
    apply find_variable_cases in Hfind;
    destruct Hfind
      as (sname' & Hname' & [(v & Hget & _)|(Hget & var & parent' & Hup & Hhere)]);
    rewrite Hname in Hname'; injection Hname' as <-;
    unfold lookup_from in Hlook; simpl in Hlook.
  - rewrite Hget in Hlook. destruct any_scope; discriminate.
  - destruct Hup as [(_ & p & p' & Hp & _)|(_ & -> & ->)]; [discriminate|].
    destruct Hhere as [(sv & _ & _ & -> & Hc & _)|(-> & -> & _)];
      [|reflexivity].
    destruct Hsrc as [H|(sv' & H & Hc')]; [discriminate|].
    injection H as <-. congruence.
  - rewrite Hget in Hlook. destruct any_scope; discriminate.
  - rewrite Hget in Hlook.
    assert (Hvar : var = None /\ parent' = Some p).
    { destruct Hup as [(-> & q & q' & Hq & -> & Hfind)|(_ & -> & ->)];
        [|split; reflexivity].
      injection Hq as <-.
      rewrite (IH (Some sname) true None
                  (checked_name_again sn src sname Hname) Hlook) in Hfind.
      injection Hfind as <- <-. split; reflexivity. }
    destruct Hvar as [-> ->].
    destruct Hhere as [(sv & _ & _ & -> & Hc & _)|(-> & -> & _)];
      [|reflexivity].
    destruct Hsrc as [H|(sv' & H & Hc')]; [discriminate|].
    injection H as <-. congruence.
Qed.

(** The same, at a sample: a variable that is no constituent, asked for in
    the constituent dictionary of a suite, is not there afterwards either. *)
Lemma find_variable_without_constituent_is_a_lookup_witness :
  find_variable Sample.suite_consts None (Some MoreSample.air_temperature)
                true None false false
  = inr (None, Sample.suite_consts).
Proof.
  apply (find_variable_without_constituent_is_a_lookup
           Sample.suite_consts None (Some MoreSample.air_temperature)
           true None false false "air_temperature" eq_refl).
  right. exists MoreSample.air_temperature. split; reflexivity.
Defined.

(** What find_variable has returned once, it returns again: a second call
    with the same arguments on the chain the first one left gives the same
    variable and changes nothing more. *)
Theorem find_variable_repeated_is_stable :
  forall (d : Dict) (sn : option string) (src : option Var)
         (any_scope : bool) (cl cl' : option Var) (scl ls : bool)
         (v : Var) (d' : Dict),
    find_variable d sn src any_scope cl scl ls = inr (Some v, d') ->
    find_variable d' sn src any_scope cl' scl ls = inr (Some v, d').
Proof.
  intros d sn src any_scope cl cl' scl ls v d' Hfind.
  assert (Hlook : exists sname,
            checked_name sn src = inr sname
            /\ lookup_from any_scope d' sname = Some v).
  { revert sn any_scope cl v d' Hfind.
    induction d as [c n e|c n e p IH] using Dict_chain_ind;
      intros sn any_scope cl v d' Hfind;
      apply find_variable_cases in Hfind;
      destruct Hfind
        as (sname & Hname & [(w & Hget & Hr & ->)|(Hget & var & parent' & Hup & Hhere)]);
      exists sname; (split; [exact Hname|]); unfold lookup_from.
    - injection Hr as ->. simpl. rewrite Hget. now destruct any_scope.
    - destruct Hhere as [(sv & _ & _ & _ & _ & Hr & ->)|(<- & -> & _)].
      + injection Hr as ->. simpl.
        rewrite (dict_get_app_new e _ _ Hget). now destruct any_scope.
      + destruct Hup as [(_ & p & p' & Hp & _)|(_ & Hv & _)]; discriminate.
    - injection Hr as ->. simpl. rewrite Hget. now destruct any_scope.
    - destruct Hhere as [(sv & _ & _ & _ & _ & Hr & ->)|(<- & -> & _)].
      + injection Hr as ->. simpl.
        rewrite (dict_get_app_new e _ _ Hget). now destruct any_scope.
      + destruct Hup as [(-> & q & q' & Hq & -> & Hfind)|(_ & Hv & _)];
          [|discriminate].
        injection Hq as <-.
        destruct (IH _ _ _ _ _ Hfind) as (sname' & Hname' & Hlook).
        simpl in Hname'.
        assert (sname' = sname) as ->.
        { destruct src as [sv|]; simpl in Hname'.
          - pose proof (checked_name_keeps_source sn sv sname Hname) as ->.
            rewrite String.eqb_refl in Hname'. simpl in Hname'.
            now injection Hname'.
          - now injection Hname'. }
        simpl. rewrite Hget. exact Hlook. }
  destruct Hlook as (sname & Hname & Hlook).
  now apply find_variable_found with (sname := sname).
Qed.

(** The same, at a sample: the variable made for a constituent is found by
    the second call. *)
Lemma find_variable_repeated_is_stable_witness :
  find_variable
    (mkDict ConstituentVarDict "cld_suite_constituents"
       [("cloud_liquid_water_mixing_ratio", Sample.cloud_liquid_made)]
       (Some Sample.host))
    None (Some Sample.cloud_liquid) true None false false
  = inr (Some Sample.cloud_liquid_made,
         mkDict ConstituentVarDict "cld_suite_constituents"
           [("cloud_liquid_water_mixing_ratio", Sample.cloud_liquid_made)]
           (Some Sample.host)).
Proof.
  exact (find_variable_repeated_is_stable
           Sample.suite_consts None (Some Sample.cloud_liquid) true None None
           false false Sample.cloud_liquid_made _ eq_refl).
Defined.

Lemma dict_get_In entries key v :
  dict_get entries key = Some v -> In (key, v) entries.
Proof.
  induction entries as [|[k w] rest IH]; simpl; [discriminate|].
  destruct (String.eqb_spec k key) as [->|Hne].
  - intros [= ->]. now left.
  - intros H. right. now apply IH.
Qed.

Lemma dict_get_app_other entries key v k :
  k <> key -> dict_get (entries ++ [(key, v)]) k = dict_get entries k.
Proof.
  intros Hne. induction entries as [|[k0 w] rest IH]; simpl.
  - destruct (String.eqb_spec key k); [congruence|reflexivity].
  - destruct (String.eqb k0 k); [reflexivity|exact IH].
Qed.

Lemma chain_prefix_refl (d : Dict) : chain_prefix d d.
Proof.
  induction d as [c n e|c n e p IH] using Dict_chain_ind; simpl;
    repeat split; try (exists []; now rewrite app_nil_r); assumption.
Qed.

(** find_variable keeps the dictionaries well keyed: in each dictionary of
    the chain a standard name occurs once and every variable is stored under
    its own standard name; and the variable returned carries the name that
    was asked for. *)
Theorem find_variable_keeps_well_keyed :
  forall (d : Dict) (sn : option string) (src : option Var)
         (any_scope : bool) (cl : option Var) (scl ls : bool)
         (r : option Var) (d' : Dict),
    well_keyed d ->
    find_variable d sn src any_scope cl scl ls = inr (r, d') ->
    well_keyed d'
    /\ (forall v sname,
          r = Some v -> checked_name sn src = inr sname ->
          standard_name v = sname).
Proof.
  induction d as [c n e|c n e p IH] using Dict_chain_ind;
    intros sn src any_scope cl scl ls r d' Hwell Hfind;
    apply find_variable_cases in Hfind;
    destruct Hfind
      as (sname & Hname & [(w & Hget & -> & ->)|(Hget & var & parent' & Hup & Hhere)]);
    simpl in Hwell; destruct Hwell as (Hnodup & Hkeys & Hparent).
  - split; [simpl; auto|].
    intros v sname' [= <-] Hname'. rewrite Hname in Hname'.
    injection Hname' as <-.
    apply dict_get_In in Hget. rewrite Forall_forall in Hkeys.
    exact (Hkeys _ Hget).
  - destruct Hup as [(_ & p & p' & Hp & _)|(_ & -> & ->)]; [discriminate|].
    destruct Hhere as [(sv & _ & _ & -> & Hc & -> & ->)|(-> & -> & _)].
    + pose proof (checked_name_keeps_source sn sv sname Hname) as Hsv.
      split.
      * simpl. rewrite map_app. simpl. repeat split.
        -- apply NoDup_app; [assumption|repeat constructor; simpl; tauto|].
           intros x Hx [<-|[]]. now apply dict_get_None_iff in Hget.
        -- apply Forall_app. split; [assumption|].
           constructor; [simpl; now symmetry|constructor].
      * intros v sname' [= <-] Hname'. rewrite Hname in Hname'.
        injection Hname' as <-. simpl. now symmetry.
    + split; [simpl; auto|]. intros v sname' H. discriminate.
  - split; [simpl; auto|].
    intros v sname' [= <-] Hname'. rewrite Hname in Hname'.
    injection Hname' as <-.
    apply dict_get_In in Hget. rewrite Forall_forall in Hkeys.
    exact (Hkeys _ Hget).
  - assert (Hup' : (match parent' with
                    | Some p' => well_keyed p'
                    | None => True
                    end)
                   /\ (forall v, var = Some v -> standard_name v = sname)).
    { destruct Hup as [(-> & q & q' & Hq & -> & Hfind)|(_ & -> & ->)].
      - injection Hq as <-.
        destruct (IH _ _ _ _ _ _ _ _ Hparent Hfind) as [Hwk Hv].
        split; [exact Hwk|].
        intros v Hvar. apply (Hv v sname Hvar).
        exact (checked_name_again sn src sname Hname).
      - split; [exact Hparent|]. intros v H. discriminate. }
    destruct Hup' as [Hwk Hv].
    destruct Hhere as [(sv & _ & _ & -> & Hc & -> & ->)|(-> & -> & _)].
    + pose proof (checked_name_keeps_source sn sv sname Hname) as Hsv.
      split.
      * simpl. rewrite map_app. simpl. repeat split.
        -- apply NoDup_app; [assumption|repeat constructor; simpl; tauto|].
           intros x Hx [<-|[]]. now apply dict_get_None_iff in Hget.
        -- apply Forall_app. split; [assumption|].
           constructor; [simpl; now symmetry|constructor].
        -- exact Hwk.
      * intros v sname' [= <-] Hname'. rewrite Hname in Hname'.
        injection Hname' as <-. simpl. now symmetry.
    + split; [simpl; auto|].
      intros v sname' Hvar Hname'. rewrite Hname in Hname'.
      injection Hname' as <-. now apply Hv.
Qed.

(** The same, at a sample: the dictionary of a suite after a constituent
    has been made in it. *)
Lemma find_variable_keeps_well_keyed_witness :
  well_keyed
    (mkDict ConstituentVarDict "cld_suite_constituents"
       [("cloud_liquid_water_mixing_ratio", Sample.cloud_liquid_made)]
       (Some Sample.host)).
Proof.
  apply (find_variable_keeps_well_keyed
           Sample.suite_consts None (Some Sample.cloud_liquid) true None
           false false (Some Sample.cloud_liquid_made) _).
  - simpl. repeat split; repeat constructor; simpl; tauto.
  - reflexivity.
Defined.

(** A call about one name leaves the answers to every other name as they
    were, in each dictionary and along the chain. *)
Theorem find_variable_keeps_other_names :
  forall (d : Dict) (sn : option string) (src : option Var)
         (any_scope : bool) (cl : option Var) (scl ls : bool)
         (r : option Var) (d' : Dict) (sname : string),
    find_variable d sn src any_scope cl scl ls = inr (r, d') ->
    checked_name sn src = inr sname ->
    forall (key : string) (scope : bool),
      key <> sname -> lookup_from scope d' key = lookup_from scope d key.
Proof.
  induction d as [c n e|c n e p IH] using Dict_chain_ind;
    intros sn src any_scope cl scl ls r d' sname Hfind Hname key scope Hkey;
    apply find_variable_cases in Hfind;
    destruct Hfind
      as (sname' & Hname' & [(w & Hget & -> & ->)|(Hget & var & parent' & Hup & Hhere)]);
    rewrite Hname in Hname'; injection Hname' as <-; try reflexivity.
  - destruct Hup as [(_ & p & p' & Hp & _)|(_ & -> & ->)]; [discriminate|].
    destruct Hhere as [(sv & _ & _ & _ & _ & _ & ->)|(_ & -> & _)];
      [|reflexivity].
    unfold lookup_from. simpl.
    rewrite (dict_get_app_other e sname _ key Hkey). reflexivity.
  - assert (Hparent : forall q', parent' = Some q' ->
              chain_get q' key = chain_get p key).
    { intros q' Hq'.
      destruct Hup as [(_ & q & q'' & Hq & -> & Hfind)|(_ & _ & ->)].
      - injection Hq as <-. injection Hq' as <-.
        exact (IH _ _ _ _ _ _ _ _ sname Hfind
                  (checked_name_again sn src sname Hname) key true Hkey).
      - now injection Hq' as <-. }
    assert (Hsome : exists q', parent' = Some q').
    { destruct Hup as [(_ & q & q'' & _ & -> & _)|(_ & _ & ->)]; eauto. }
    destruct Hsome as [q' ->]. specialize (Hparent q' eq_refl).
    destruct Hhere as [(sv & _ & _ & _ & _ & _ & ->)|(_ & -> & _)];
      unfold lookup_from; simpl;
      rewrite ?(dict_get_app_other e sname _ key Hkey);
      destruct scope; try reflexivity;
      destruct (dict_get e key); try reflexivity; exact Hparent.
Qed.

(** The same, at a sample: making the cloud liquid water leaves the surface
    pressure where it is found. *)
Lemma find_variable_keeps_other_names_witness :
  lookup_from true
    (mkDict ConstituentVarDict "cld_suite_constituents"
       [("cloud_liquid_water_mixing_ratio", Sample.cloud_liquid_made)]
       (Some Sample.host))
    "surface_air_pressure"
  = lookup_from true Sample.suite_consts "surface_air_pressure".
Proof.
  apply (find_variable_keeps_other_names
           Sample.suite_consts None (Some Sample.cloud_liquid) true None
           false false (Some Sample.cloud_liquid_made) _
           "cloud_liquid_water_mixing_ratio" eq_refl eq_refl).
  discriminate.
Defined.

(** A call adds at most one entry to the whole chain, at the end of one
    dictionary: the entries that were there keep their positions. *)
Theorem find_variable_appends_at_most_one :
  forall (d : Dict) (sn : option string) (src : option Var)
         (any_scope : bool) (cl : option Var) (scl ls : bool)
         (r : option Var) (d' : Dict),
    find_variable d sn src any_scope cl scl ls = inr (r, d') ->
    chain_prefix d d'
    /\ chain_size d' <= chain_size d + 1
    /\ (exists added, items d' = items d ++ added /\ length added <= 1).
Proof.
  induction d as [c n e|c n e p IH] using Dict_chain_ind;
    intros sn src any_scope cl scl ls r d' Hfind;
    apply find_variable_cases in Hfind;
    destruct Hfind
      as (sname & Hname & [(w & Hget & -> & ->)|(Hget & var & parent' & Hup & Hhere)]).
  - split; [apply chain_prefix_refl|]. split; [lia|].
    exists []. simpl. rewrite app_nil_r. split; [reflexivity|lia].
  - destruct Hup as [(_ & p & p' & Hp & _)|(_ & -> & ->)]; [discriminate|].
    destruct Hhere as [(sv & _ & _ & _ & _ & _ & ->)|(_ & -> & _)].
    + simpl. rewrite length_app. simpl.
      repeat split; eauto; try lia.
    + split; [apply chain_prefix_refl|]. split; [lia|].
      exists []. simpl. rewrite app_nil_r. split; [reflexivity|lia].
  - split; [apply chain_prefix_refl|]. split; [lia|].
    exists []. simpl. rewrite app_nil_r. split; [reflexivity|lia].
  - destruct Hup as [(-> & q & q' & Hq & -> & Hfind)|(_ & -> & ->)].
    + injection Hq as <-.
      destruct (IH _ _ _ _ _ _ _ _ Hfind) as (Hpre & Hsize & _).
      destruct Hhere as [(sv & _ & -> & _ & _ & _ & ->)|(_ & -> & _)].
      * apply find_variable_none_unchanged in Hfind. subst q'.
        simpl. rewrite length_app. simpl.
        repeat split; eauto using chain_prefix_refl; try lia.
      * simpl. repeat split; try assumption; try lia;
          exists []; simpl; rewrite app_nil_r; split; [reflexivity|lia].
    + destruct Hhere as [(sv & _ & _ & _ & _ & _ & ->)|(_ & -> & _)].
      * simpl. rewrite length_app. simpl.
        repeat split; eauto using chain_prefix_refl; try lia.
      * split; [apply chain_prefix_refl|]. split; [lia|].
        exists []. simpl. rewrite app_nil_r. split; [reflexivity|lia].
Qed.

(* ===================================================================== *)
(** * The rewriting of dimensions, and the names of the routines *)
(* ===================================================================== *)

Lemma split_colon_pieces_have_no_colon (s : string) :
  Forall (fun tok => has_colon tok = false) (PyStr.split_colon s).
Proof.
  induction s as [|c rest IH]; simpl.
  - repeat constructor.
  - destruct (Ascii.eqb c ":") eqn:Hc.
    + constructor; [reflexivity|exact IH].
    + destruct (PyStr.split_colon rest) as [|tok toks].
      * repeat constructor. simpl. now rewrite Hc.
      * inversion IH as [|? ? Htok Htoks]; subst.
        constructor; [simpl; now rewrite Hc|assumption].
Qed.

Lemma split_colon_before_colon (x s : string) :
  has_colon x = false ->
  PyStr.split_colon (x ++ ":" ++ s) = x :: PyStr.split_colon s.
Proof.
  induction x as [|c rest IH]; simpl; intros Hx.
  - reflexivity.
  - apply orb_false_iff in Hx. destruct Hx as [Hc Hrest].
    rewrite Hc. simpl in IH. now rewrite (IH Hrest).
Qed.

Lemma split_colon_of_piece (x : string) :
  has_colon x = false -> PyStr.split_colon x = [x].
Proof.
  induction x as [|c rest IH]; simpl; intros Hx.
  - reflexivity.
  - apply orb_false_iff in Hx. destruct Hx as [Hc Hrest].
    now rewrite Hc, (IH Hrest).
Qed.

Lemma split_colon_of_join (toks : list string) :
  toks <> [] ->
  Forall (fun tok => has_colon tok = false) toks ->
  PyStr.split_colon (PyStr.join ":" toks) = toks.
Proof.
  induction toks as [|x rest IH]; intros Hne Hall; [congruence|].
  inversion Hall as [|? ? Hx Hrest]; subst.
  destruct rest as [|y rest'].
  - simpl. now apply split_colon_of_piece.
  - change (PyStr.join ":" (x :: y :: rest'))
      with (x ++ ":" ++ PyStr.join ":" (y :: rest'))%string.
    rewrite (split_colon_before_colon x _ Hx).
    f_equal. apply IH; [discriminate|assumption].
Qed.

Lemma new_dname_cases (tok : string) :
  (is_loop_name tok = true
   /\ (new_dname tok = "horizontal_dimension"
       \/ new_dname tok = "ccpp_constant_one"))
  \/ (is_loop_name tok = false /\ new_dname tok = tok).
Proof.
  unfold is_loop_name, new_dname.
  destruct (String.eqb tok "horizontal_loop_extent"); [left; auto|].
  destruct (String.eqb tok "horizontal_loop_end"); [left; auto|].
  destruct (String.eqb tok "horizontal_loop_begin"); [left; auto|].
  right. auto.
Qed.

(** After the rewriting no name of a dimension is one of the three names of
    the horizontal loop, and rewriting again changes nothing: a variable
    made from a variable that was made before has the same dimensions. *)
Theorem newdims_removes_loop_names_for_good :
  (forall (dims : list string) (dim tok : string),
     In dim (newdims dims) -> In tok (PyStr.split_colon dim) ->
     is_loop_name tok = false)
  /\ (forall dims : list string, newdims (newdims dims) = newdims dims).
Proof.
  assert (Hsplit : forall dim,
            PyStr.split_colon
              (PyStr.join ":" (map new_dname (PyStr.split_colon dim)))
            = map new_dname (PyStr.split_colon dim)).
  { intros dim. apply split_colon_of_join.
    - pose proof (split_colon_nonempty dim) as Hne.
      destruct (PyStr.split_colon dim); [contradiction|discriminate].
    - pose proof (split_colon_pieces_have_no_colon dim) as Hall.
      rewrite Forall_forall in *. intros tok Hin.
      apply in_map_iff in Hin. destruct Hin as (t0 & <- & Hin0).
      destruct (new_dname_cases t0) as [(_ & [-> | ->])|(_ & ->)];
        try reflexivity. now apply Hall. }
  split.
  - intros dims dim tok Hdim Htok. unfold newdims in Hdim.
    apply in_map_iff in Hdim. destruct Hdim as (dim0 & <- & _).
    rewrite Hsplit in Htok.
    apply in_map_iff in Htok. destruct Htok as (t0 & <- & _).
    destruct (new_dname_cases t0) as [(_ & [-> | ->])|(Hno & ->)];
      try reflexivity. exact Hno.
  - intros dims. unfold newdims. rewrite map_map. apply map_ext.
    intros dim. rewrite Hsplit, map_map. f_equal. apply map_ext.
    intros t0.
    destruct (new_dname_cases t0) as [(_ & [-> | ->])|(_ & Hsame)];
      try reflexivity. now rewrite !Hsame.
Qed.

Lemma list_ascii_of_append (s t : string) :
  list_ascii_of_string (s ++ t)
  = list_ascii_of_string s ++ list_ascii_of_string t.
Proof.
  induction s as [|c rest IH]; simpl; [reflexivity|now rewrite IH].
Qed.

Lemma append_same_suffix (s1 s2 suffix : string) :
  (s1 ++ suffix)%string = (s2 ++ suffix)%string -> s1 = s2.
Proof.
  intros H. apply (f_equal list_ascii_of_string) in H.
  rewrite !list_ascii_of_append in H. apply app_inv_tail in H.
  rewrite <- (string_of_list_ascii_of_string s1),
          <- (string_of_list_ascii_of_string s2).
  now rewrite H.
Qed.

Lemma last_char_differs (s1 s2 suffix1 suffix2 : string) (c1 c2 : ascii) :
  c1 <> c2 ->
  (s1 ++ suffix1 ++ String c1 "")%string
  <> (s2 ++ suffix2 ++ String c2 "")%string.
Proof.
  intros Hc H. apply (f_equal list_ascii_of_string) in H.
  rewrite !list_ascii_of_append in H. rewrite !app_assoc in H.
  simpl in H. apply app_inj_tail in H. destruct H as [_ H]. congruence.
Qed.

(** The names of the generated routines never clash: the three routines of
    one dictionary have three different names, and routines of dictionaries
    with different names have different names, whichever routines they
    are. *)
Theorem routine_names_never_clash :
  forall d1 d2 : Dict,
    (num_consts_funcname d1 = num_consts_funcname d2 -> name d1 = name d2)
    /\ (const_name_subname d1 = const_name_subname d2 -> name d1 = name d2)
    /\ (copy_const_subname d1 = copy_const_subname d2 -> name d1 = name d2)
    /\ num_consts_funcname d1 <> const_name_subname d2
    /\ num_consts_funcname d1 <> copy_const_subname d2
    /\ const_name_subname d1 <> copy_const_subname d2.
Proof.
  intros d1 d2.
  unfold num_consts_funcname, const_name_subname, copy_const_subname.
  repeat split; try apply append_same_suffix.
  - apply (last_char_differs (name d1) (name d2) "_num_const" "_const_nam"
             "s" "e"). discriminate.
  - apply (last_char_differs (name d1) (name d2) "_num_const" "_copy_cons"
             "s" "t"). discriminate.
  - apply (last_char_differs (name d1) (name d2) "_const_nam" "_copy_cons"
             "e" "t"). discriminate.
Qed.

(* ===================================================================== *)
(** * The use statements and the host routines at their edges *)
(* ===================================================================== *)

Lemma repeat_char_length (c : ascii) (n : nat) :
  String.length (PyStr.repeat_char c n) = n.
Proof. induction n as [|n IH]; simpl; [reflexivity|now rewrite IH]. Qed.

(** The use statements are aligned: the module names are padded to the
    length of the longest of them, the constituent module included, so that
    "only:" stands in the same column of every statement; no name is cut and
    none sticks out. *)
Theorem use_statements_are_aligned :
  forall (suite_list : list Suite) (indent : nat),
    suite_list <> [] ->
    let width :=
      Nat.max (list_max (map (fun s => String.length (module s)) suite_list))
              (String.length CONST_DDT_MOD) in
    let pad := fun m : string =>
      PyStr.repeat_char " "%char (width - String.length m) in
    let use := fun m f : string =>
      ("use " ++ m ++ "," ++ pad m ++ " only: " ++ f)%string in
    write_constituent_use_statements suite_list indent
    = ((use CONST_DDT_MOD CONST_PROP_TYPE, indent)
       :: ("! Suite constituent interfaces", indent)
       :: flat_map
            (fun suite =>
               [ (use (module suite)
                      (num_consts_funcname (constituent_dictionary suite)),
                  indent);
                 (use (module suite)
                      (const_name_subname (constituent_dictionary suite)),
                  indent);
                 (use (module suite)
                      (copy_const_subname (constituent_dictionary suite)),
                  indent) ])
            suite_list,
       None)
    /\ String.length CONST_DDT_MOD + String.length (pad CONST_DDT_MOD) = width
    /\ (forall suite,
          In suite suite_list ->
          String.length (module suite) + String.length (pad (module suite))
          = width).
Proof.
  intros suite_list indent Hne width pad use.
  split; [|split].
  - destruct suite_list as [|suite suites]; [congruence|].
    unfold write_constituent_use_statements.
    erewrite for_each_pure by (intros; cbn; reflexivity).
    reflexivity.
  - unfold pad. rewrite repeat_char_length. unfold width. lia.
  - intros suite Hin. unfold pad. rewrite repeat_char_length.
    assert (String.length (module suite)
            <= list_max (map (fun s => String.length (module s)) suite_list)).
    { pose proof (proj1 (list_max_le
                           (map (fun s => String.length (module s)) suite_list)
                           _) (le_n _)) as Hall.
      rewrite Forall_forall in Hall. apply Hall.
      apply in_map_iff. now exists suite. }
    unfold width. lia.
Qed.

(** The same, at a sample: two suites. *)
Lemma use_statements_are_aligned_witness :
  raised (write_constituent_use_statements
            [Sample.cld_suite; Sample.dry_suite] 2) = None
  /\ String.length (module Sample.cld_suite)
     + String.length
         (PyStr.repeat_char " "%char
            (25 - String.length (module Sample.cld_suite)))
     = 25.
Proof.
  assert (Hne : [Sample.cld_suite; Sample.dry_suite] <> []) by discriminate.
  destruct (use_statements_are_aligned
              [Sample.cld_suite; Sample.dry_suite] 2 Hne)
    as (Hrun & _ & Hpad).
  split.
  - rewrite Hrun. reflexivity.
  - exact (Hpad Sample.cld_suite (or_introl eq_refl)).
Defined.

(** write_host_routines needs a suite: with an empty list it raises
    ValueError when it comes to the use statements, three lines into the
    registration routine; with any other list it raises nothing. *)
Theorem write_host_routines_needs_a_suite :
  forall (write_def : Var -> nat -> Dict -> bool -> option string -> list Line)
         (host : Dict)
         (reg_funcname num_const_funcname copy_in_funcname copy_out_funcname
          const_obj_name const_names_name const_indices_name : string)
         (suite_list : list Suite) (err_vars : list Var),
    let run :=
      write_host_routines write_def host reg_funcname num_const_funcname
        copy_in_funcname copy_out_funcname const_obj_name const_names_name
        const_indices_name suite_list err_vars in
    (suite_list = [] ->
     raised run = Some (ValueError "max() arg is an empty sequence")
     /\ written run
        = [ (("subroutine " ++ reg_funcname ++
              "(suite_list, ncols, num_layers, num_interfaces, " ++
              PyStr.join ", " (map local_name err_vars) ++ ")")%string, 1);
            ("! Create constituent object for suites in <suite_list>", 2);
            ("", 0) ])
    /\ (suite_list <> [] -> raised run = None)
    /\ (raised run = None <-> suite_list <> []).
Proof.
  intros write_def host reg_funcname num_const_funcname copy_in_funcname
    copy_out_funcname const_obj_name const_names_name const_indices_name
    suite_list err_vars run.
  assert (Hempty : suite_list = [] ->
            raised run = Some (ValueError "max() arg is an empty sequence")
            /\ written run
               = [ (("subroutine " ++ reg_funcname ++
                     "(suite_list, ncols, num_layers, num_interfaces, " ++
                     PyStr.join ", " (map local_name err_vars) ++ ")")%string,
                    1);
                   ("! Create constituent object for suites in <suite_list>",
                    2);
                   ("", 0) ]).
  { intros Hnil. unfold run. rewrite Hnil. split; reflexivity. }
  assert (Hsome : suite_list <> [] -> raised run = None).
  { intros Hne.
    exact (proj1 (write_host_routines_index_loop
                    write_def host reg_funcname num_const_funcname
                    copy_in_funcname copy_out_funcname const_obj_name
                    const_names_name const_indices_name suite_list err_vars
                    Hne)). }
  split; [exact Hempty|]. split; [exact Hsome|].
  split; [|exact Hsome].
  intros Hnone Hnil. destruct (Hempty Hnil) as [Hraised _]. congruence.
Qed.

(** With an error pending when the last loop of the registration routine is
    reached, the loop still makes its first pass: it looks up the first
    name and stores its index when the registry holds it, and sets errflg
    to 1 when it does not; then it is left, and the positions after the
    first keep what they held. *)
Theorem index_loop_with_pending_error_makes_one_pass :
  forall (const_obj_name const_names_name const_indices_name : string)
         (field_of : Z -> Z) (st : Fortran.State) (n : nat),
    Fortran.sizes st const_indices_name = Z.of_nat (S n) ->
    Fortran.ints st "errflg" <> 0%Z ->
    let st' :=
      fst (Fortran.exec
             (Reading.registry
                (Reading.lookup_field const_obj_name const_names_name)
                field_of)
             (Reading.index_loop const_obj_name const_names_name
                                 const_indices_name) st) in
    Fortran.ints st' "index" = 1%Z
    /\ Fortran.ints st' "errflg" <> 0%Z
    /\ (forall j, j <> 1%Z ->
          Fortran.elems st' const_indices_name j
          = Fortran.elems st const_indices_name j)
    /\ ((field_of 1 > 0)%Z ->
        Fortran.elems st' const_indices_name 1%Z = field_of 1%Z
        /\ Fortran.ints st' "errflg" = Fortran.ints st "errflg")
    /\ ((field_of 1 <= 0)%Z ->
        Fortran.elems st' const_indices_name 1%Z
        = Fortran.elems st const_indices_name 1%Z
        /\ Fortran.ints st' "errflg" = 1%Z).
Proof.
  intros const_obj_name const_names_name const_indices_name field_of st n
    Hsize Herr st'.
  unfold st', Reading.index_loop.
  rewrite exec_DoSize, Hsize, Nat2Z.id. cbn [fst].
  change (Fortran.do_loop
            (Reading.registry
               (Reading.lookup_field const_obj_name const_names_name) field_of)
            "index"
            (Reading.index_loop_body const_obj_name const_names_name
                                     const_indices_name) (S n) 1 st)
    with (let (st1, leaving) :=
            Fortran.exec_block
              (Reading.registry
                 (Reading.lookup_field const_obj_name const_names_name)
                 field_of)
              (Reading.index_loop_body const_obj_name const_names_name
                                       const_indices_name)
              (Fortran.set_int "index" 1 st) in
          if leaving then st1
          else Fortran.do_loop
                 (Reading.registry
                    (Reading.lookup_field const_obj_name const_names_name)
                    field_of)
                 "index"
                 (Reading.index_loop_body const_obj_name const_names_name
                                          const_indices_name) n (1 + 1)%Z st1).
  rewrite index_loop_body_step.
  change (Fortran.ints (Fortran.set_int "index" 1 st) "index") with 1%Z.
  change (Fortran.ints (Fortran.set_int "index" 1 st) "errflg")
    with (Fortran.ints st "errflg").
  apply Z.eqb_neq in Herr. rewrite Herr. simpl negb.
  destruct (Z.gtb_spec (field_of 1%Z) 0%Z) as [Hpos|Hneg].
  - simpl. rewrite String.eqb_refl. simpl.
    apply Z.eqb_neq in Herr.
    repeat split; try assumption; try lia.
    intros j Hj. destruct (Z.eqb_spec j 1); [contradiction|reflexivity].
  - simpl. repeat split; try discriminate; try lia.
Qed.

(** The same, at a sample: errflg is 7 on entry and the registry holds the
    first name as field 4. *)
Lemma index_loop_with_pending_error_makes_one_pass_witness :
  Fortran.ints
    (fst (Fortran.exec
            (Reading.registry
               (Reading.lookup_field "cld_obj" "required_names")
               Sample.fields)
            (Reading.index_loop "cld_obj" "required_names" "required_indices")
            MoreSample.failed_before_lookup)) "index" = 1%Z
  /\ Fortran.elems
       (fst (Fortran.exec
               (Reading.registry
                  (Reading.lookup_field "cld_obj" "required_names")
                  Sample.fields)
               (Reading.index_loop "cld_obj" "required_names"
                                   "required_indices")
               MoreSample.failed_before_lookup))
       "required_indices" 3%Z = (-1)%Z.
Proof.
  destruct (index_loop_with_pending_error_makes_one_pass
              "cld_obj" "required_names" "required_indices" Sample.fields
              MoreSample.failed_before_lookup 2 eq_refl
              ltac:(vm_compute; discriminate))
    as (Hindex & _ & Hkept & _).
  split; [exact Hindex|].
  exact (Hkept 3%Z ltac:(discriminate)).
Defined.

(* ===================================================================== *)
(** * Declarations and routines of one suite *)
(* ===================================================================== *)

Lemma append_same_prefix (prefix s1 s2 : string) :
  (prefix ++ s1)%string = (prefix ++ s2)%string -> s1 = s2.
Proof.
  induction prefix as [|c rest IH]; simpl; intros H; [exact H|].
  injection H as H. now apply IH.
Qed.

Ltac in_list := solve [ repeat first [ apply in_eq | apply in_cons ] ].

Ltac in_apps :=
  solve [ in_list
        | apply in_or_app; left; in_apps
        | apply in_or_app; right; in_apps ].

(** What is declared is defined.  The names declare_public_interfaces makes
    public are the names of the count function, the name routine and the
    copy routine, and no other; write_constituent_routines writes a header
    and an end line for each of them, and for the init routine that
    declare_private_data declares private.  The array of properties is
    declared exactly when the dictionary has entries, and the flag is
    declared false. *)
Theorem declared_interfaces_are_defined :
  forall (write_def : Var -> nat -> Dict -> bool -> option string -> list Line)
         (self : Dict) (at_decl indent : nat) (suite_name : string)
         (err_vars : list Var),
    Layout.use_errflg err_vars = true ->
    let routines :=
      written (write_constituent_routines write_def self indent suite_name
                                          err_vars) in
    let made_public := written (declare_public_interfaces self at_decl) in
    let kept_private := written (declare_private_data self at_decl) in
    raised (declare_public_interfaces self at_decl) = None
    /\ raised (declare_private_data self at_decl) = None
    /\ (forall N : string,
          In (("public :: " ++ N)%string, at_decl) made_public
          <-> N = num_consts_funcname self
              \/ N = const_name_subname self
              \/ N = copy_const_subname self)
    /\ In (("integer function " ++ num_consts_funcname self ++ "(" ++
            Layout.errvar_alist err_vars ++ ")")%string, indent) routines
    /\ In (("end function " ++ num_consts_funcname self)%string, indent)
          routines
    /\ In (("subroutine " ++ const_name_subname self ++ "(index, name_out" ++
            Layout.errvar_alist2 err_vars ++ ")")%string, indent) routines
    /\ In (("end subroutine " ++ const_name_subname self)%string, indent)
          routines
    /\ In (("subroutine " ++ copy_const_subname self ++ "(index, cnst_out" ++
            Layout.errvar_alist2 err_vars ++ ")")%string, indent) routines
    /\ In (("end subroutine " ++ copy_const_subname self)%string, indent)
          routines
    /\ In ("private :: ccpp_create_constituent_array", at_decl) kept_private
    /\ In (("subroutine ccpp_create_constituent_array(" ++
            Layout.errvar_alist err_vars ++ ")")%string, indent) routines
    /\ In ("end subroutine ccpp_create_constituent_array", indent) routines
    /\ In ("logical, private :: ccpp_constituents_initialized = .false.",
           at_decl) kept_private
    /\ (In ("type(ccpp_constituent_properties_t), private, allocatable :: ccpp_constituent_array(:)",
            at_decl) kept_private
        <-> nonempty self = true).
Proof.
  intros write_def self at_decl indent suite_name err_vars Huse
    routines made_public kept_private.
  assert (Hroutines :
    routines
    = Layout.init_routine write_def self indent err_vars
      ++ [("", 0); (rule, 1)]
      ++ Layout.count_routine write_def self indent err_vars
      ++ [(rule, 1)]
      ++ Layout.name_routine write_def self indent suite_name err_vars
      ++ [(rule, 1)]
      ++ Layout.copy_routine write_def self indent suite_name err_vars).
  { unfold routines.
    now rewrite (write_constituent_routines_complete
                   write_def self indent suite_name err_vars Huse). }
  split; [reflexivity|].
  split; [unfold declare_private_data; destruct (nonempty self); reflexivity|].
  split.
  { intros N. unfold made_public, declare_public_interfaces. cbn.
    split.
    - intros [H|[H|[H|[H|[H|[H|[H|[]]]]]]]]; try discriminate H;
        injection H as H; apply append_same_prefix with (prefix := "") in H;
        subst N; auto.
    - intros [-> | [-> | ->]]; auto 8. }
  rewrite Hroutines.
  unfold Layout.init_routine, Layout.count_routine, Layout.name_routine,
    Layout.name_routine_head, Layout.copy_routine.
  repeat (split; [in_apps|]).
  split.
  { unfold kept_private, declare_private_data.
    destruct (nonempty self); cbn; tauto. }
  split; [in_apps|].
  split; [in_apps|].
  split.
  { unfold kept_private, declare_private_data.
    destruct (nonempty self); cbn; tauto. }
  unfold kept_private, declare_private_data.
  destruct (nonempty self); cbn.
  - split; [reflexivity|]. intros _. tauto.
  - split; [|discriminate].
    intros [H|[H|[H|[H|[]]]]]; discriminate H.
Qed.

(** The same, at a sample. *)
Lemma declared_interfaces_are_defined_witness :
  In ("public :: cld_num_consts", 1)
     (written (declare_public_interfaces Sample.cld_consts 1))
  /\ In ("end function cld_num_consts", 1)
        (written (write_constituent_routines Sample.write_def Sample.cld_consts
                    1 "cld_suite" [Sample.errflg; Sample.errmsg])).
Proof.
  destruct (declared_interfaces_are_defined
              Sample.write_def Sample.cld_consts 1 1 "cld_suite"
              [Sample.errflg; Sample.errmsg] eq_refl)
    as (_ & _ & Hpublic & _ & Hend & _).
  split; [|exact Hend].
  apply (proj2 (Hpublic "cld_num_consts")). left. reflexivity.
Defined.

(** The copy routine of a dictionary with entries.  It is written with its
    guards before the statement that copies the record.  Run on any state,
    the guards set errflg to 0 when the flag is set and the index is within
    1..SIZE of the array and to 1 in every other case; the copy statement
    runs next in either case. *)
Theorem copy_routine_sets_errflg_then_copies :
  forall (write_def : Var -> nat -> Dict -> bool -> option string -> list Line)
         (self : Dict) (indent : nat) (suite_name : string)
         (err_vars : list Var),
    nonempty self = true ->
    Layout.use_errflg err_vars = true ->
    let body :=
      Reading.indexed_body true suite_name
        (Fortran.Call "cnst_out = ccpp_constituent_array(index)") in
    holds_block
      ([ (("subroutine " ++ copy_const_subname self ++ "(index, cnst_out" ++
           Layout.errvar_alist2 err_vars ++ ")")%string, indent);
         ("! Copy the data for a constituent", indent+1);
         ("! Dummy arguments", indent+1);
         ("integer,            intent(in)    :: index", indent+1);
         ("type(ccpp_constituent_properties_t), intent(out)     :: cnst_out",
          indent+1) ]
       ++ flat_map (fun evar => write_def evar (indent+1) self true None)
                   err_vars
       ++ [ ("", 0) ]
       ++ Fortran.render_block (indent+1) body
       ++ [ (("end subroutine " ++ copy_const_subname self)%string, indent) ])
      (written (write_constituent_routines write_def self indent suite_name
                                           err_vars))
    /\ (forall (extern : string -> Fortran.State -> Fortran.State)
               (st : Fortran.State),
        exists before_copy,
          Fortran.exec_block extern body st
          = (extern "cnst_out = ccpp_constituent_array(index)"
               (Fortran.log "cnst_out = ccpp_constituent_array(index)"
                            before_copy), false)
          /\ Fortran.ints before_copy "errflg"
             = (if Fortran.flags st "ccpp_constituents_initialized"
                   && Z.leb 1 (Fortran.ints st "index")
                   && Z.leb (Fortran.ints st "index")
                            (Fortran.sizes st "ccpp_constituent_array")
                then 0 else 1)%Z).
Proof.
  intros write_def self indent suite_name err_vars Hsome Huse body.
  split.
  - rewrite (write_constituent_routines_complete
               write_def self indent suite_name err_vars Huse).
    unfold written, fst.
    exists (Layout.init_routine write_def self indent err_vars
            ++ [("", 0); (rule, 1)]
            ++ Layout.count_routine write_def self indent err_vars
            ++ [(rule, 1)]
            ++ Layout.name_routine write_def self indent suite_name err_vars
            ++ [(rule, 1)]), [].
    unfold Layout.copy_routine, Layout.dummy_defs, Reading.copy_props.
    rewrite Hsome. fold body.
    rewrite app_nil_r, <- !app_assoc. reflexivity.
  - intros extern st.
    destruct (access_runs_after_failed_guards
                extern suite_name "cnst_out = ccpp_constituent_array(index)" st)
      as (before_copy & Hrun & Hsmall & Hlarge & Hoff & Hon).
    exists before_copy. split; [exact Hrun|].
    destruct (Fortran.flags st "ccpp_constituents_initialized") eqn:Hflag;
      destruct (Z.leb_spec 1 (Fortran.ints st "index"));
      destruct (Z.leb_spec (Fortran.ints st "index")
                  (Fortran.sizes st "ccpp_constituent_array"));
      simpl;
      first [ apply Hon; [reflexivity|lia]
            | apply Hoff; [reflexivity|lia]
            | apply Hsmall; lia
            | apply Hlarge; lia ].
Qed.

(** The same, at a sample. *)
Lemma copy_routine_sets_errflg_then_copies_witness :
  exists before_copy,
    Fortran.exec_block Sample.quiet
      (Reading.indexed_body true "cld_suite"
         (Fortran.Call "cnst_out = ccpp_constituent_array(index)"))
      (Sample.asked_for 3)
    = (Fortran.log "cnst_out = ccpp_constituent_array(index)" before_copy,
       false)
    /\ Fortran.ints before_copy "errflg" = 1%Z.
Proof.
  destruct (copy_routine_sets_errflg_then_copies
              Sample.write_def Sample.cld_consts 1 "cld_suite"
              [Sample.errflg; Sample.errmsg] eq_refl eq_refl)
    as [_ Hrun].
  destruct (Hrun Sample.quiet (Sample.asked_for 3))
    as (before_copy & Hexec & Herr).
  exists before_copy. split; [exact Hexec|exact Herr].
Defined.

(* ===================================================================== *)
(** * From a request to the generated text *)
(* ===================================================================== *)

(** The same as [find_variable_appends_at_most_one], at a sample. *)
Lemma find_variable_appends_at_most_one_witness :
  chain_prefix Sample.inner_consts
    (mkDict ConstituentVarDict "inner" []
       (Some (mkDict ConstituentVarDict "outer"
                [("cloud_liquid_water_mixing_ratio", Sample.cloud_liquid_made)]
                None)))
  /\ chain_size
       (mkDict ConstituentVarDict "inner" []
          (Some (mkDict ConstituentVarDict "outer"
                   [("cloud_liquid_water_mixing_ratio",
                     Sample.cloud_liquid_made)] None)))
     <= chain_size Sample.inner_consts + 1.
Proof.
  destruct (find_variable_appends_at_most_one
              Sample.inner_consts None (Some Sample.cloud_liquid) true None
              false false (Some Sample.cloud_liquid_made) _ eq_refl)
    as (Hprefix & Hsize & _).
  split; [exact Hprefix|exact Hsize].
Defined.

(** With any_scope false the ancestors are not asked: a constituent that an
    ancestor holds already is made again in the called dictionary, and from
    then on the new variable is what a search from the called dictionary
    finds, in front of the ancestor's entry, which stays where it is. *)
Theorem local_search_shadows_the_ancestors :
  forall (n : string) (e : list (string * Var)) (p : Dict)
         (sv held : Var) (sn : option string) (cl : option Var)
         (scl ls : bool),
    sn = None \/ sn = Some (standard_name sv) ->
    is_constituent sv = true ->
    dict_get e (standard_name sv) = None ->
    chain_get p (standard_name sv) = Some held ->
    let made := clone sv (newdims (get_dimensions sv)) true "suite" in
    let self' :=
      mkDict ConstituentVarDict n (e ++ [(standard_name sv, made)]) (Some p) in
    find_variable (mkDict ConstituentVarDict n e (Some p)) sn (Some sv)
                  false cl scl ls
    = inr (Some made, self')
    /\ find_variable (mkDict ConstituentVarDict n e (Some p)) sn (Some sv)
                     true cl scl ls
       = inr (Some held, mkDict ConstituentVarDict n e (Some p))
    /\ lookup_from true self' (standard_name sv) = Some made
    /\ chain_get p (standard_name sv) = Some held.
Proof.
  intros n e p sv held sn cl scl ls Hsn Hc Hget Hheld made self'.
  split; [|split; [|split]].
  - simpl. rewrite (checked_name_source sn sv Hsn), Hget, Hc.
    unfold add_variable. simpl standard_name.
    now rewrite (dict_set_absent e _ _ Hget).
  - apply find_variable_found with (sname := standard_name sv).
    + exact (checked_name_source sn sv Hsn).
    + unfold lookup_from. simpl. now rewrite Hget.
  - unfold lookup_from, self'. simpl.
    now rewrite (dict_get_app_new e _ _ Hget).
  - exact Hheld.
Qed.

(** The same, at a sample: the host dictionary holds a variable under the
    name of the constituent. *)
Lemma local_search_shadows_the_ancestors_witness :
  find_variable
    (mkDict ConstituentVarDict "cld" []
       (Some (mkDict VarDictionary "host"
                [("cloud_liquid_water_mixing_ratio", Sample.cloud_liquid)]
                None)))
    None (Some Sample.cloud_liquid) false None false false
  = inr (Some Sample.cloud_liquid_made,
         mkDict ConstituentVarDict "cld"
           [("cloud_liquid_water_mixing_ratio", Sample.cloud_liquid_made)]
           (Some (mkDict VarDictionary "host"
                    [("cloud_liquid_water_mixing_ratio", Sample.cloud_liquid)]
                    None))).
Proof.
  exact (proj1 (local_search_shadows_the_ancestors
                  "cld" []
                  (mkDict VarDictionary "host"
                     [("cloud_liquid_water_mixing_ratio", Sample.cloud_liquid)]
                     None)
                  Sample.cloud_liquid Sample.cloud_liquid None None false false
                  (or_introl eq_refl) eq_refl eq_refl eq_refl)).
Defined.

Lemma split_colon_of_rewritten (dim : string) :
  PyStr.split_colon (PyStr.join ":" (map new_dname (PyStr.split_colon dim)))
  = map new_dname (PyStr.split_colon dim).
Proof.
  apply split_colon_of_join.
  - pose proof (split_colon_nonempty dim) as Hne.
    destruct (PyStr.split_colon dim); [contradiction|discriminate].
  - pose proof (split_colon_pieces_have_no_colon dim) as Hall.
    rewrite Forall_forall in *. intros tok Hin.
    apply in_map_iff in Hin. destruct Hin as (t0 & <- & Hin0).
    destruct (new_dname_cases t0) as [(_ & [-> | ->])|(_ & ->)];
      try reflexivity. now apply Hall.
Qed.

Lemma dim_stdnames_of_rewritten (dims : list string) :
  flat_map PyStr.split_colon (newdims dims)
  = map new_dname (flat_map PyStr.split_colon dims).
Proof.
  induction dims as [|dim rest IH]; simpl; [reflexivity|].
  rewrite split_colon_of_rewritten, map_app. now rewrite <- IH.
Qed.

Lemma mem_of_rewritten (x : string) (toks : list string) :
  is_loop_name x = false ->
  x <> "horizontal_dimension" -> x <> "ccpp_constant_one" ->
  PyStr.mem x (map new_dname toks) = PyStr.mem x toks.
Proof.
  intros Hloop Hh Hc. unfold PyStr.mem.
  induction toks as [|tok rest IH]; simpl; [reflexivity|].
  rewrite IH. f_equal.
  destruct (new_dname_cases tok) as [(Htok & [-> | ->])|(_ & ->)];
    try reflexivity.
  - destruct (String.eqb_spec x tok) as [->|_]; [congruence|].
    now apply String.eqb_neq.
  - destruct (String.eqb_spec x tok) as [->|_]; [congruence|].
    now apply String.eqb_neq.
Qed.

(** The rewriting of the dimensions leaves the vertical dimension of a
    variable as it is. *)
Lemma vertical_dim_of_made (sv : Var) (source : string) :
  vertical_dim_of (clone sv (newdims (get_dimensions sv)) true source)
  = vertical_dim_of sv.
Proof.
  unfold vertical_dim_of, get_dim_stdnames, get_dimensions. simpl dimensions.
  rewrite dim_stdnames_of_rewritten.
  rewrite !mem_of_rewritten by (reflexivity || discriminate).
  reflexivity.
Qed.

(** From a request to the generated text.  A constituent that find_variable
    has made in a dictionary is the last entry the init routine of that
    dictionary constructs, with the standard name, the vertical dimension
    and the advected flag of the source variable, and the count function
    returns one more than before. *)
Theorem requested_constituent_reaches_the_init_routine :
  forall (write_def : Var -> nat -> Dict -> bool -> option string -> list Line)
         (self : Dict) (sv : Var) (sn : option string) (any_scope : bool)
         (cl : option Var) (scl ls : bool)
         (indent : nat) (suite_name : string) (err_vars : list Var),
    dclass self = ConstituentVarDict ->
    sn = None \/ sn = Some (standard_name sv) ->
    chain_mem self (standard_name sv) = false ->
    is_constituent sv = true ->
    any_scope = false \/ plain_ancestors self = true ->
    exists var self',
      find_variable self sn (Some sv) any_scope cl scl ls
      = inr (Some var, self')
      /\ (exists before after,
            written (write_constituent_routines write_def self' indent
                                                suite_name err_vars)
            = before
              ++ [ ("index = index + 1", indent+1);
                   (Layout.initialize_call (standard_name sv)
                      (vertical_dim_of sv) (TF_string (advected sv)) err_vars,
                    indent+1);
                   ("ccpp_constituents_initialized = .true.", indent+1);
                   ("end subroutine ccpp_create_constituent_array", indent) ]
              ++ after)
      /\ In ((num_consts_funcname self ++ " = " ++
              PyStr.of_nat (len self + 1))%string, indent+1)
            (written (write_constituent_routines write_def self' indent
                                                 suite_name err_vars)).
Proof.
  intros write_def [c n e parent] sv sn any_scope cl scl ls indent suite_name
    err_vars Hcls Hsn Habs Hc Hloc.
  simpl in Hcls. subst c.
  pose proof (find_variable_makes_locally sv n e parent sn any_scope cl scl ls
                Hc Hsn Habs Hloc) as Hfind.
  cbv zeta in Hfind.
  eexists; eexists. split; [exact Hfind|].
  destruct (write_constituent_routines_starts
              write_def
              (mkDict ConstituentVarDict n
                 (e ++ [(standard_name sv,
                         clone sv (newdims (get_dimensions sv)) true
                               constituent_type)]) parent)
              indent suite_name err_vars) as [rest ->].
  split.
  - exists ([ (("subroutine ccpp_create_constituent_array(" ++
                Layout.errvar_alist err_vars ++ ")")%string, indent);
              ("! Allocate and fill the constituent property array", indent+1);
              ("!    for this suite", indent+1);
              ("! Dummy arguments", indent+1) ]
            ++ Layout.dummy_defs write_def
                 (mkDict ConstituentVarDict n
                    (e ++ [(standard_name sv,
                            clone sv (newdims (get_dimensions sv)) true
                                  constituent_type)]) parent)
                 indent err_vars
            ++ [ ("! Local variables", indent+1);
                 ("integer :: index", indent+1);
                 (("allocate(ccpp_constituent_array(" ++
                   PyStr.of_nat (length e + 1) ++ "))")%string, indent+1);
                 ("index = 0", indent+1) ]
            ++ flat_map
                 (fun entry =>
                    [ ("index = index + 1", indent+1);
                      (Layout.initialize_call (fst entry)
                         (vertical_dim_of (snd entry))
                         (TF_string (advected (snd entry))) err_vars,
                       indent+1) ]) e).
    exists ([("", 0); (rule, 1)]
            ++ Layout.count_routine write_def
                 (mkDict ConstituentVarDict n
                    (e ++ [(standard_name sv,
                            clone sv (newdims (get_dimensions sv)) true
                                  constituent_type)]) parent)
                 indent err_vars
            ++ rest).
    generalize (Layout.count_routine write_def
                  (mkDict ConstituentVarDict n
                     (e ++ [(standard_name sv,
                             clone sv (newdims (get_dimensions sv)) true
                                   constituent_type)]) parent)
                  indent err_vars).
    intros count.
    unfold Layout.init_routine.
    generalize (Layout.dummy_defs write_def
                  (mkDict ConstituentVarDict n
                     (e ++ [(standard_name sv,
                             clone sv (newdims (get_dimensions sv)) true
                                   constituent_type)]) parent)
                  indent err_vars).
    intros defs.
    assert (Hsome : nonempty
                      (mkDict ConstituentVarDict n
                         (e ++ [(standard_name sv,
                                 clone sv (newdims (get_dimensions sv)) true
                                       constituent_type)]) parent) = true).
    { unfold nonempty. cbn [items]. now destruct e. }
    rewrite Hsome. unfold len. cbn [items].
    rewrite length_app, flat_map_app. cbn [length flat_map fst snd].
    rewrite vertical_dim_of_made. cbn [advected clone].
    rewrite <- !app_assoc. reflexivity.
  - unfold Layout.count_routine, Fortran.render_block, Reading.count_body,
      num_consts_funcname, len.
    cbn [items name]. rewrite length_app. cbn [length flat_map Fortran.render].
    generalize (Layout.init_routine write_def
                  (mkDict ConstituentVarDict n
                     (e ++ [(standard_name sv,
                             clone sv (newdims (get_dimensions sv)) true
                                   constituent_type)]) parent)
                  indent err_vars).
    intros init.
    generalize (Layout.dummy_defs write_def
                  (mkDict ConstituentVarDict n
                     (e ++ [(standard_name sv,
                             clone sv (newdims (get_dimensions sv)) true
                                   constituent_type)]) parent)
                  indent err_vars).
    intros defs.
    apply in_or_app. right. apply in_cons, in_cons.
    apply in_or_app. left.
    apply in_cons, in_cons, in_cons.
    apply in_or_app. right.
    apply in_or_app. left.
    apply in_cons.
    apply in_or_app. right.
    apply in_or_app. left.
    apply in_eq.
Qed.

(** The same, at a sample. *)
Lemma requested_constituent_reaches_the_init_routine_witness :
  exists var self',
    find_variable Sample.suite_consts None (Some Sample.tracer_flux)
                  true None false false = inr (Some var, self')
    /\ In ("cld_suite_constituents_num_consts = 1", 2)
          (written (write_constituent_routines Sample.write_def self' 1
                      "cld_suite" [Sample.errflg; Sample.errmsg])).
Proof.
  destruct (requested_constituent_reaches_the_init_routine
              Sample.write_def Sample.suite_consts Sample.tracer_flux None
              true None false false 1 "cld_suite"
              [Sample.errflg; Sample.errmsg]
              eq_refl (or_introl eq_refl) eq_refl eq_refl
              (or_intror eq_refl))
    as (var & self' & Hfind & _ & Hcount).
  exists var, self'. split; [exact Hfind|exact Hcount].
Defined.

(* ===================================================================== *)
(** * Where a constituent is made *)
(* ===================================================================== *)

Lemma join_of_split_colon (s : string) :
  PyStr.join ":" (PyStr.split_colon s) = s.
Proof.
  induction s as [|c rest IH]; [reflexivity|].
  simpl PyStr.split_colon.
  pose proof (split_colon_nonempty rest) as Hne.
  destruct (Ascii.eqb_spec c ":") as [->|Hc];
    destruct (PyStr.split_colon rest) as [|tok toks]; try contradiction.
  - simpl in IH |- *. now rewrite IH.
  - simpl in IH |- *. destruct toks as [|tok' toks'].
    + now rewrite <- IH.
    + simpl. now rewrite <- IH.
Qed.

Lemma store_at_outermost_none (d : Dict) (key : string) (v : Var) :
  store_at_outermost d key v = None <-> all_plain d = true.
Proof.
  induction d as [c n e|c n e p IH] using Dict_chain_ind; simpl.
  - destruct c; split; intros H; try reflexivity; discriminate.
  - destruct (store_at_outermost p key v) as [p'|].
    + split; [discriminate|].
      intros H. destruct c; [|discriminate].
      apply IH in H. discriminate.
    + destruct c; [|split; discriminate].
      split; intros _; [now apply IH|reflexivity].
Qed.

Lemma store_at_outermost_holds (d d' : Dict) (key : string) (v : Var) :
  chain_mem d key = false ->
  store_at_outermost d key v = Some d' ->
  chain_get d' key = Some v
  /\ dclass d' = dclass d /\ name d' = name d
  /\ chain_size d' = chain_size d + 1.
Proof.
  revert d'.
  induction d as [c n e|c n e p IH] using Dict_chain_ind;
    intros d' Habs Hstore; simpl in Habs, Hstore;
    destruct (dict_get e key) eqn:Hget; try discriminate.
  - destruct c; [discriminate|]. injection Hstore as <-. simpl.
    rewrite (dict_get_app_new e _ _ Hget), length_app. simpl.
    repeat split; lia.
  - destruct (store_at_outermost p key v) as [p'|] eqn:Hp.
    + injection Hstore as <-.
      destruct (IH p' Habs eq_refl) as (Hheld & _ & _ & Hsize).
      simpl. rewrite Hget. repeat split; [exact Hheld|lia].
    + destruct c; [discriminate|]. injection Hstore as <-. simpl.
      rewrite (dict_get_app_new e _ _ Hget), length_app. simpl.
      repeat split; lia.
Qed.

(** A request with any_scope true for a constituent that no dictionary of
    the chain holds goes up to the root; the constituent dictionary nearest
    the root makes the variable and stores it, and the dictionaries below
    hand it down as it is. *)
Lemma find_variable_makes_at_outermost :
  forall sv, is_constituent sv = true ->
  forall d sn cl scl ls,
    sn = None \/ sn = Some (standard_name sv) ->
    chain_mem d (standard_name sv) = false ->
    find_variable d sn (Some sv) true cl scl ls
    = match store_at_outermost d (standard_name sv)
              (clone sv (newdims (get_dimensions sv)) true constituent_type)
      with
      | Some d' =>
          inr (Some (clone sv (newdims (get_dimensions sv)) true
                           constituent_type), d')
      | None => inr (None, d)
      end.
Proof.
  intros sv Hc d.
  induction d as [c n e|c n e p IH] using Dict_chain_ind;
    intros sn cl scl ls Hsn Habs; simpl in Habs;
    destruct (dict_get e (standard_name sv)) eqn:Hget; try discriminate;
    simpl; rewrite (checked_name_source sn sv Hsn), Hget.
  - destruct c; [reflexivity|]. rewrite Hc.
    unfold add_variable. simpl standard_name.
    now rewrite (dict_set_absent e _ _ Hget).
  - rewrite (IH (Some (standard_name sv)) None scl ls (or_intror eq_refl) Habs).
    destruct (store_at_outermost p (standard_name sv) _) as [p'|].
    + destruct c; reflexivity.
    + destruct c; [reflexivity|]. rewrite Hc.
      unfold add_variable. simpl standard_name.
      now rewrite (dict_set_absent e _ _ Hget).
Qed.

Lemma store_at_outermost_extends (d d' : Dict) (key : string) (v : Var) :
  store_at_outermost d key v = Some d' -> chain_prefix d d'.
Proof.
  revert d'.
  induction d as [c n e|c n e p IH] using Dict_chain_ind;
    intros d' Hstore; simpl in Hstore.
  - destruct c; [discriminate|]. injection Hstore as <-. simpl.
    repeat split. now exists [(key, v)].
  - destruct (store_at_outermost p key v) as [p'|] eqn:Hp.
    + injection Hstore as <-. simpl. repeat split.
      * exists []. now rewrite app_nil_r.
      * now apply IH.
    + destruct c; [discriminate|]. injection Hstore as <-. simpl.
      repeat split; [now exists [(key, v)]|apply chain_prefix_refl].
Qed.

(** The same for a constituent dictionary whose ancestors include a
    constituent dictionary: the dictionary the call was made on keeps its
    entries, and the chain above it gains the one variable. *)
Lemma find_variable_makes_above :
  forall sv n e p sn cl scl ls,
    is_constituent sv = true ->
    sn = None \/ sn = Some (standard_name sv) ->
    chain_mem (mkDict ConstituentVarDict n e (Some p)) (standard_name sv)
    = false ->
    all_plain p = false ->
    exists p',
      store_at_outermost p (standard_name sv)
        (clone sv (newdims (get_dimensions sv)) true constituent_type)
      = Some p'
      /\ find_variable (mkDict ConstituentVarDict n e (Some p)) sn (Some sv)
                       true cl scl ls
         = inr (Some (clone sv (newdims (get_dimensions sv)) true
                            constituent_type),
                mkDict ConstituentVarDict n e (Some p'))
      /\ chain_get p' (standard_name sv)
         = Some (clone sv (newdims (get_dimensions sv)) true constituent_type)
      /\ chain_prefix p p'
      /\ chain_size p' = chain_size p + 1.
Proof.
  intros sv n e p sn cl scl ls Hc Hsn Habs Hplain.
  simpl in Habs.
  destruct (dict_get e (standard_name sv)) eqn:Hget; [discriminate|].
  destruct (store_at_outermost p (standard_name sv)
              (clone sv (newdims (get_dimensions sv)) true constituent_type))
    as [p'|] eqn:Hstore.
  - exists p'. split; [reflexivity|].
    destruct (store_at_outermost_holds p p' _ _ Habs Hstore)
      as (Hheld & _ & _ & Hsize).
    split; [|split; [exact Hheld|split;
                     [exact (store_at_outermost_extends p p' _ _ Hstore)
                     |exact Hsize]]].
    simpl. rewrite (checked_name_source sn sv Hsn), Hget.
    rewrite (find_variable_makes_at_outermost sv Hc p
               (Some (standard_name sv)) None scl ls (or_intror eq_refl) Habs).
    now rewrite Hstore.
  - apply store_at_outermost_none in Hstore. congruence.
Qed.

Lemma checked_name_of_source sn sv nm :
  checked_name sn (Some sv) = inr nm ->
  nm = standard_name sv /\ (sn = None \/ sn = Some (standard_name sv)).
Proof.
  intros H. pose proof (checked_name_keeps_source sn sv nm H) as ->.
  split; [reflexivity|].
  destruct sn as [n|]; [|now left]. right. simpl in H.
  destruct (String.eqb (standard_name sv) n); simpl in H; congruence.
Qed.

Lemma new_dname_other (tok : string) :
  tok <> "horizontal_loop_extent" ->
  tok <> "horizontal_loop_end" ->
  tok <> "horizontal_loop_begin" -> new_dname tok = tok.
Proof.
  intros H1 H2 H3. unfold new_dname.
  apply String.eqb_neq in H1, H2, H3. now rewrite H1, H2, H3.
Qed.

Lemma newdims_at (dims : list string) (i : nat) (toks : list string) :
  toks <> [] ->
  Forall (fun tok => has_colon tok = false) toks ->
  nth_error dims i = Some (PyStr.join ":" toks) ->
  nth_error (newdims dims) i = Some (PyStr.join ":" (map new_dname toks)).
Proof.
  intros Hne Hall Hnth. unfold newdims.
  rewrite nth_error_map, Hnth. simpl.
  now rewrite (split_colon_of_join toks Hne Hall).
Qed.

(** C1, amended.  When the name is absent from the dictionary and from every
    ancestor and the source variable is a constituent, find_variable returns
    a variable made from the source.  Each dimension is split at its
    colons into names without a colon, the names horizontal_loop_extent and
    horizontal_loop_end become horizontal_dimension, horizontal_loop_begin
    becomes ccpp_constant_one, every other name is kept, and the names are
    joined with ':' again, so that a dimension n1:...:nk of colon-free names
    becomes new(n1):...:new(nk); the intent is removed, the source type is
    'suite' and the other properties are the source's.  The variable is
    then found in the chain under its standard name.  It is appended to the
    entries of the called dictionary itself when the search is local
    (any_scope false) or no ancestor is a constituent dictionary; when
    any_scope is true and some ancestor is a constituent dictionary, the
    called dictionary keeps its entries and the variable is appended to the
    entries of the constituent dictionary that is nearest the root. *)
Theorem C1_find_variable_materializes :
  forall (self : Dict) (sv : Var) (sn : option string)
         (any_scope : bool) (cl : option Var) (scl ls : bool),
    dclass self = ConstituentVarDict ->
    sn = None \/ sn = Some (standard_name sv) ->
    chain_mem self (standard_name sv) = false ->
    is_constituent sv = true ->
    exists var self',
      find_variable self sn (Some sv) any_scope cl scl ls
      = inr (Some var, self')
      /\ dimensions var
         = map (fun dim =>
                  PyStr.join ":" (map new_dname (PyStr.split_colon dim)))
               (dimensions sv)
      /\ (forall dim,
            PyStr.join ":" (PyStr.split_colon dim) = dim
            /\ Forall (fun tok => has_colon tok = false)
                      (PyStr.split_colon dim))
      /\ (forall toks,
            toks <> [] ->
            Forall (fun tok => has_colon tok = false) toks ->
            PyStr.split_colon (PyStr.join ":" toks) = toks)
      /\ (forall i toks,
            toks <> [] ->
            Forall (fun tok => has_colon tok = false) toks ->
            nth_error (dimensions sv) i = Some (PyStr.join ":" toks) ->
            nth_error (dimensions var) i
            = Some (PyStr.join ":" (map new_dname toks)))
      /\ new_dname "horizontal_loop_extent" = "horizontal_dimension"
      /\ new_dname "horizontal_loop_end" = "horizontal_dimension"
      /\ new_dname "horizontal_loop_begin" = "ccpp_constant_one"
      /\ (forall tok,
            tok <> "horizontal_loop_extent" ->
            tok <> "horizontal_loop_end" ->
            tok <> "horizontal_loop_begin" -> new_dname tok = tok)
      /\ intent var = None
      /\ source_type var = "suite"
      /\ standard_name var = standard_name sv
      /\ local_name var = local_name sv
      /\ advected var = advected sv
      /\ constituent var = constituent sv
      /\ chain_get self' (standard_name sv) = Some var
      /\ (any_scope = false \/ plain_ancestors self = true ->
          items self' = items self ++ [(standard_name sv, var)]
          /\ parent_dict self' = parent_dict self)
      /\ (any_scope = true -> plain_ancestors self = false ->
          items self' = items self
          /\ exists p p',
               parent_dict self = Some p
               /\ parent_dict self' = Some p'
               /\ store_at_outermost p (standard_name sv) var = Some p'
               /\ chain_get p' (standard_name sv) = Some var
               /\ chain_prefix p p'
               /\ chain_size p' = chain_size p + 1).
Proof.
  intros self sv sn any_scope cl scl ls Hcls Hsn Habs Hc.
  destruct (find_variable_absent sv Hc self sn any_scope cl scl ls Hsn Habs)
    as (r & self' & Hfind & _ & Hres).
  destruct Hres as [[-> Hchain]|(_ & _ & Hplain)];
    [|rewrite Hcls in Hplain; discriminate].
  eexists; exists self'. split; [exact Hfind|].
  split; [reflexivity|].
  split; [intros dim; split;
          [apply join_of_split_colon|apply split_colon_pieces_have_no_colon]|].
  split; [exact split_colon_of_join|].
  split; [intros i toks; exact (newdims_at (dimensions sv) i toks)|].
  repeat (split; [reflexivity|]).
  split; [exact new_dname_other|].
  repeat (split; [reflexivity|]).
  split; [exact Hchain|].
  destruct self as [c n e parent]. simpl in Hcls. subst c. split.
  - intros Hloc.
    rewrite (find_variable_makes_locally sv n e parent sn any_scope cl scl ls
               Hc Hsn Habs Hloc) in Hfind.
    injection Hfind as <-. split; reflexivity.
  - intros -> Hnest. unfold plain_ancestors in Hnest. simpl in Hnest.
    destruct parent as [p|]; [|discriminate].
    destruct (find_variable_makes_above sv n e p sn cl scl ls Hc Hsn Habs
                Hnest)
      as (p' & Hstore & Hmade & Hheld & Hprefix & Hsize).
    rewrite Hmade in Hfind. injection Hfind as <-.
    split; [reflexivity|].
    exists p, p'. repeat split; assumption.
Qed.

(** C1, at two samples.  A constituent whose first dimension is the range
    horizontal_loop_begin:horizontal_loop_end, looked up by its source
    variable in an empty suite dictionary under a host dictionary, is
    appended there with the range ccpp_constant_one:horizontal_dimension;
    and a constituent looked up in a constituent dictionary whose parent is
    one too is stored in the parent. *)
Lemma C1_find_variable_materializes_witness :
  (exists var self',
     find_variable Sample.suite_consts None (Some Sample.tracer_flux)
                   true None false false = inr (Some var, self')
     /\ dimensions var = ["ccpp_constant_one:horizontal_dimension";
                          "vertical_interface_dimension"]
     /\ intent var = None
     /\ items self' = [("tracer_flux_at_interfaces", var)])
  /\ (exists var self',
        find_variable Sample.inner_consts None (Some Sample.cloud_liquid)
                      true None false false = inr (Some var, self')
        /\ dimensions var = ["horizontal_dimension";
                             "vertical_layer_dimension"]
        /\ items self' = []
        /\ chain_get self' "cloud_liquid_water_mixing_ratio" = Some var).
Proof.
  split.
  - destruct (C1_find_variable_materializes
                Sample.suite_consts Sample.tracer_flux None true None false
                false eq_refl (or_introl eq_refl) eq_refl eq_refl)
      as (var & self' & Hfind & Hdims & _ & _ & _ & _ & _ & _ & _ & Hint & _
          & _ & _ & _ & _ & _ & Hloc & _).
    exists var, self'.
    split; [exact Hfind|].
    split; [rewrite Hdims; reflexivity|].
    split; [exact Hint|].
    destruct (Hloc (or_intror eq_refl)) as [Hitems _].
    exact Hitems.
  - destruct (C1_find_variable_materializes
                Sample.inner_consts Sample.cloud_liquid None true None false
                false eq_refl (or_introl eq_refl) eq_refl eq_refl)
      as (var & self' & Hfind & Hdims & _ & _ & _ & _ & _ & _ & _ & _ & _
          & _ & _ & _ & _ & Hchain & _ & Hnest).
    exists var, self'.
    split; [exact Hfind|].
    split; [rewrite Hdims; reflexivity|].
    destruct (Hnest eq_refl eq_refl) as [Hitems _].
    split; [exact Hitems|exact Hchain].
Defined.

(** C1, as stated, fails on a constituent dictionary whose parent is a
    constituent dictionary too: the variable made from the source has the
    dimensions and properties the claim gives, but it is stored in the
    parent, and the dictionary the call was made on has no entry after the
    call. *)
Lemma C1_counterexample_stored_in_ancestor :
  find_variable Sample.inner_consts None (Some Sample.tracer_flux)
                true None false false
  = inr (Some Sample.tracer_flux_made,
         mkDict ConstituentVarDict "inner" []
           (Some (mkDict ConstituentVarDict "outer"
                    [("tracer_flux_at_interfaces",
                      Sample.tracer_flux_made)] None)))
  /\ chain_mem Sample.inner_consts "tracer_flux_at_interfaces" = false
  /\ is_constituent Sample.tracer_flux = true
  /\ dict_get (items (mkDict ConstituentVarDict "inner" []
                        (Some (mkDict ConstituentVarDict "outer"
                                 [("tracer_flux_at_interfaces",
                                   Sample.tracer_flux_made)] None))))
              "tracer_flux_at_interfaces" = None.
Proof.
  repeat split.
Qed.

(** C6, amended.  On a constituent dictionary a well-formed call of
    find_variable behaves in one of two ways.  When the search is local
    (any_scope false) or no ancestor is itself a constituent dictionary, the
    call returns, leaves the parent chain as it was, and either leaves the
    entries of the called dictionary as they were or appends to them the one
    variable it made from a constituent source variable, which it returns.
    When any_scope is true, some ancestor is a constituent dictionary, the
    source variable is a constituent and no dictionary of the chain holds
    its name, the call returns the variable made from the source, the called
    dictionary keeps its class, name and entries, and the variable is
    appended to the entries of the constituent dictionary nearest the root:
    the chain of ancestors gains that one entry, keeps every entry it had,
    and answers the name with the new variable. *)
Theorem C6_where_the_variable_is_made :
  forall (self : Dict) (sn : option string) (src : option Var)
         (any_scope : bool) (cl : option Var) (scl ls : bool) (nm : string),
    dclass self = ConstituentVarDict ->
    checked_name sn src = inr nm ->
    (any_scope = false \/ plain_ancestors self = true ->
     exists r self',
       find_variable self sn src any_scope cl scl ls = inr (r, self')
       /\ parent_dict self' = parent_dict self
       /\ dclass self' = dclass self
       /\ name self' = name self
       /\ (items self' = items self
           \/ exists sv,
                src = Some sv
                /\ is_constituent sv = true
                /\ dict_get (items self) nm = None
                /\ r = Some (clone sv (newdims (get_dimensions sv)) true
                                   "suite")
                /\ items self'
                   = items self
                     ++ [(nm, clone sv (newdims (get_dimensions sv)) true
                                    "suite")]))
    /\ (forall sv,
          src = Some sv ->
          is_constituent sv = true ->
          any_scope = true ->
          plain_ancestors self = false ->
          chain_mem self nm = false ->
          exists p p',
            parent_dict self = Some p
            /\ store_at_outermost p nm
                 (clone sv (newdims (get_dimensions sv)) true "suite")
               = Some p'
            /\ find_variable self sn src any_scope cl scl ls
               = inr (Some (clone sv (newdims (get_dimensions sv)) true
                                  "suite"),
                      mkDict ConstituentVarDict (name self) (items self)
                             (Some p'))
            /\ chain_get p' nm
               = Some (clone sv (newdims (get_dimensions sv)) true "suite")
            /\ chain_prefix p p'
            /\ chain_size p' = chain_size p + 1).
Proof.
  intros self sn src any_scope cl scl ls nm Hcls Hnm. split.
  - intros Hloc.
    exact (find_variable_stays_local self sn src any_scope cl scl ls nm
             Hcls Hloc Hnm).
  - intros sv -> Hc -> Hnest Habs.
    destruct (checked_name_of_source sn sv nm Hnm) as [-> Hsn].
    destruct self as [c n e parent]. simpl in Hcls. subst c.
    unfold plain_ancestors in Hnest. simpl in Hnest.
    destruct parent as [p|]; [|discriminate].
    destruct (find_variable_makes_above sv n e p sn cl scl ls Hc Hsn Habs
                Hnest)
      as (p' & Hstore & Hmade & Hheld & Hprefix & Hsize).
    exists p, p'. repeat split; assumption.
Qed.

(** C6, at two samples: a constituent looked up in an empty suite dictionary
    under the host dictionary is appended to the suite dictionary and the
    host dictionary stays as it was; looked up in a constituent dictionary
    whose parent is one too, it is appended to the parent. *)
Lemma C6_where_the_variable_is_made_witness :
  (exists r self',
     find_variable Sample.suite_consts None (Some Sample.cloud_liquid)
                   true None false false = inr (r, self')
     /\ parent_dict self' = Some Sample.host
     /\ (items self' = []
         \/ items self'
            = [("cloud_liquid_water_mixing_ratio", Sample.cloud_liquid_made)]))
  /\ (exists p',
        find_variable Sample.inner_consts None (Some Sample.cloud_liquid)
                      true None false false
        = inr (Some Sample.cloud_liquid_made,
               mkDict ConstituentVarDict "inner" [] (Some p'))
        /\ chain_get p' "cloud_liquid_water_mixing_ratio"
           = Some Sample.cloud_liquid_made
        /\ chain_size p' = 1).
Proof.
  split.
  - destruct (C6_where_the_variable_is_made
                Sample.suite_consts None (Some Sample.cloud_liquid) true None
                false false "cloud_liquid_water_mixing_ratio"
                eq_refl eq_refl) as [Hlocal _].
    destruct (Hlocal (or_intror eq_refl))
      as (r & self' & Hfind & Hparent & _ & _ & Hitems).
    exists r, self'.
    split; [exact Hfind|]. split; [exact Hparent|].
    destruct Hitems as [Hsame|(sv & Hsrc & _ & _ & _ & Hadded)].
    + left. exact Hsame.
    + right. injection Hsrc as <-. exact Hadded.
  - destruct (C6_where_the_variable_is_made
                Sample.inner_consts None (Some Sample.cloud_liquid) true None
                false false "cloud_liquid_water_mixing_ratio"
                eq_refl eq_refl) as [_ Hnested].
    destruct (Hnested Sample.cloud_liquid eq_refl eq_refl eq_refl eq_refl
                eq_refl)
      as (p & p' & Hparent & _ & Hfind & Hheld & _ & Hsize).
    exists p'. split; [exact Hfind|]. split; [exact Hheld|].
    injection Hparent as <-. exact Hsize.
Defined.

(** C8, as stated, fails when the loop is entered with an error pending:
    with errflg at 7, three required names and a registry that holds all
    three (as fields 11, 12 and 13), the first name is looked up and stored,
    the loop then exits, and the second and third names, which the registry
    holds, are never looked up: the run consists of the one lookup, their
    positions keep the -1 they had, no message about a missing field is
    written, and errflg is still 7. *)
Lemma C8_counterexample_pending_error :
  Fortran.ints MoreSample.failed_before_lookup "errflg" = 7%Z
  /\ Fortran.sizes MoreSample.failed_before_lookup "required_indices" = 3%Z
  /\ LoopSample.all_held 1 = 11%Z
  /\ LoopSample.all_held 2 = 12%Z
  /\ LoopSample.all_held 3 = 13%Z
  /\ Fortran.elems LoopSample.after_pending_error "required_indices" 1 = 11%Z
  /\ Fortran.elems LoopSample.after_pending_error "required_indices" 2
     = (-1)%Z
  /\ Fortran.elems LoopSample.after_pending_error "required_indices" 3
     = (-1)%Z
  /\ Fortran.ints LoopSample.after_pending_error "index" = 1%Z
  /\ Fortran.ints LoopSample.after_pending_error "errflg" = 7%Z
  /\ Fortran.trace LoopSample.after_pending_error
     = [Reading.lookup_field "cld_obj" "required_names"].
Proof.
  repeat split; vm_compute; reflexivity.
Qed.

(** A name held by the called dictionary, whatever any_scope is, or, with
    any_scope true, somewhere in the chain, is answered by the entry the
    search from the called dictionary upwards meets first, and no dictionary
    of the chain is changed. *)
Theorem found_entry_is_returned_unchanged :
  forall (d : Dict) (sn : option string) (src : option Var)
         (any_scope : bool) (cl : option Var) (scl ls : bool)
         (sname : string) (v : Var),
    checked_name sn src = inr sname ->
    dict_get (items d) sname = Some v
    \/ (any_scope = true /\ chain_get d sname = Some v) ->
    find_variable d sn src any_scope cl scl ls = inr (Some v, d)
    /\ chain_get d sname = Some v.
Proof.
  intros d sn src any_scope cl scl ls sname v Hname Hheld.
  assert (Hchain : chain_get d sname = Some v).
  { destruct Hheld as [Hhere|[_ Hup]]; [|exact Hup].
    destruct d as [c n e parent]. simpl in Hhere |- *. now rewrite Hhere. }
  split; [|exact Hchain].
  apply (find_variable_found d sn src any_scope cl scl ls sname v Hname).
  unfold lookup_from. destruct any_scope; [exact Hchain|].
  destruct Hheld as [Hhere|[Hany _]]; [exact Hhere|discriminate].
Qed.

(** The same, at two samples: the surface pressure, held by the host
    dictionary only, asked for two levels below with any_scope true; and a
    constituent held by the called dictionary, asked for with any_scope
    false. *)
Lemma found_entry_is_returned_unchanged_witness :
  find_variable Sample.leaf_consts (Some "surface_air_pressure") None
                true None false false
  = inr (Some Sample.surface_pressure, Sample.leaf_consts)
  /\ find_variable Sample.cld_consts (Some "cloud_liquid_water_mixing_ratio")
                   None false None false false
     = inr (Some Sample.cloud_liquid_made, Sample.cld_consts).
Proof.
  split.
  - exact (proj1 (found_entry_is_returned_unchanged
                    Sample.leaf_consts (Some "surface_air_pressure") None true
                    None false false "surface_air_pressure"
                    Sample.surface_pressure eq_refl
                    (or_intror (conj eq_refl eq_refl)))).
  - exact (proj1 (found_entry_is_returned_unchanged
                    Sample.cld_consts
                    (Some "cloud_liquid_water_mixing_ratio") None false
                    None false false "cloud_liquid_water_mixing_ratio"
                    Sample.cloud_liquid_made eq_refl (or_introl eq_refl))).
Defined.
